(** * PFH-OSNet: the omni-scale network and its triplet training engine

    A shallow embedding of [torchreid/models/pfh_osnet.py] and
    [torchreid/engine/image/triplet.py].

    The Python classes become records, their [__init__] methods become
    constructors in a small allocation-and-exception monad, and their
    [forward] methods become functions over a tensor substrate.  The
    substrate (PyTorch: the numeric kernels of the layers, automatic
    differentiation, the optimizer) is not part of the repository; the
    network is written against an interface of it, [Torch], and is
    studied under every implementation of that interface.  Two
    implementations are given here: [Trace], in which a tensor is the
    expression that computes it, and [Shape], in which a tensor is its
    shape. *)

From stdpp Require Import base list strings.
From Stdlib Require Import ZArith QArith Lia.

Local Open Scope Z_scope.
Local Open Scope string_scope.
Local Open Scope list_scope.

(** ** Python exceptions and results *)

Inductive exn : Type :=
| AssertionError
| RuntimeError (msg : string)
| KeyError (msg : string)
| ValueError
| AttributeError (name : string)
| IndexError
| ZeroDivisionError.

Inductive result (A : Type) : Type :=
| Ok (a : A)
| Raise (e : exn).

Arguments Ok {A} a.
Arguments Raise {A} e.

Definition result_bind {A B} (r : result A) (k : A -> result B) : result B :=
  match r with
  | Ok a => k a
  | Raise e => Raise e
  end.

Declare Scope result_scope.
Delimit Scope result_scope with result.
Notation "x <- c ;; k" := (result_bind c (fun x => k))
  (at level 100, c at next level, right associativity) : result_scope.

(** Python's [a // b] on integers: floor division, an exception when
    the divisor is zero.  [Z.div] rounds towards minus infinity like
    Python does. *)
Definition py_floordiv (a b : Z) : result Z :=
  if decide (b = 0) then Raise ZeroDivisionError else Ok (a / b).

(** Python's [a % b] on integers; the sign follows the divisor, as
    [Z.modulo] does. *)
Definition py_mod (a b : Z) : result Z :=
  if decide (b = 0) then Raise ZeroDivisionError else Ok (a mod b).

(** [l[i]] for a constant non-negative index. *)
Definition py_index {A} (l : list A) (i : nat) : result A :=
  match l !! i with
  | Some a => Ok a
  | None => Raise IndexError
  end.

(** ** Constructors: parameter allocation and exceptions

    Building a layer allocates its parameter tensors.  A constructor is
    a function of the number of parameter tensors allocated so far; it
    returns the object and the new count, or raises.  The number a
    parameter receives is its identity: two layers share weights
    exactly when they hold the same numbers. *)

Definition Ctor (A : Type) : Type := N -> result (A * N).

Definition ret {A} (a : A) : Ctor A := fun n => Ok (a, n).

Definition bind {A B} (c : Ctor A) (k : A -> Ctor B) : Ctor B :=
  fun n =>
    match c n with
    | Ok (a, n') => k a n'
    | Raise e => Raise e
    end.

Definition raise {A} (e : exn) : Ctor A := fun _ => Raise e.

Definition lift {A} (r : result A) : Ctor A :=
  fun n => match r with Ok a => Ok (a, n) | Raise e => Raise e end.

(** [assert b] *)
Definition assert (b : bool) : Ctor unit :=
  if b then ret tt else raise AssertionError.

(** A fresh parameter tensor. *)
Definition new_parameter : Ctor N := fun n => Ok (n, N.succ n).

Declare Scope ctor_scope.
Delimit Scope ctor_scope with ctor.
Notation "x <- c ;; k" := (bind c (fun x => k))
  (at level 100, c at next level, right associativity) : ctor_scope.
Notation "c ;;; k" := (bind c (fun _ => k))
  (at level 100, right associativity) : ctor_scope.

(** ** The layers of [torch.nn] the network is built from

    A layer object is described by the hyper-parameters it was built
    with and by the identities of its parameter tensors. *)

Module Conv2d.
Record t : Type := mk {
  in_channels : Z;
  out_channels : Z;
  kernel_size : Z;
  stride : Z;
  padding : Z;
  groups : Z;
  weight : N;
  bias : option N
}.
End Conv2d.

Module BatchNorm2d.
Record t : Type := mk { num_features : Z; weight : N; bias : N }.
End BatchNorm2d.

Module InstanceNorm2d.
(* always built with [affine=True] in this file *)
Record t : Type := mk { num_features : Z; weight : N; bias : N }.
End InstanceNorm2d.

Module BatchNorm1d.
Record t : Type := mk { num_features : Z; weight : N; bias : N }.
End BatchNorm1d.

Module LayerNorm.
Record t : Type := mk { normalized_shape : list Z; weight : N; bias : N }.
End LayerNorm.

Module Linear.
Record t : Type := mk {
  in_features : Z;
  out_features : Z;
  weight : N;
  bias : N
}.
End Linear.

Module MaxPool2d.
Record t : Type := mk { kernel_size : Z; stride : Z; padding : Z }.
End MaxPool2d.

Module AvgPool2d.
Record t : Type := mk { kernel_size : Z; stride : Z }.
End AvgPool2d.

Module AdaptiveAvgPool2d.
Record t : Type := mk { output_size : Z }.
End AdaptiveAvgPool2d.

(** The layer constructors.  They allocate the layer's parameters in
    the order PyTorch registers them.  PyTorch refuses to build a layer
    with a negative size, and a convolution whose [groups] is not
    positive or does not divide both channel counts; these refusals are
    not reproduced, so a constructor here stands for PyTorch's on the
    arguments PyTorch accepts.  The theorems on the construction of a
    block state that the widths are positive where they depend on
    it. *)

Definition nn_Conv2d (in_channels out_channels kernel_size : Z)
    (stride padding : Z) (bias : bool) (groups : Z) : Ctor Conv2d.t :=
  (w <- new_parameter;;
   b <- (if bias then (i <- new_parameter;; ret (Some i)) else ret None);;
   ret (Conv2d.mk in_channels out_channels kernel_size stride padding groups w b))%ctor.

Definition nn_BatchNorm2d (num_features : Z) : Ctor BatchNorm2d.t :=
  (w <- new_parameter;; b <- new_parameter;;
   ret (BatchNorm2d.mk num_features w b))%ctor.

Definition nn_InstanceNorm2d (num_features : Z) : Ctor InstanceNorm2d.t :=
  (w <- new_parameter;; b <- new_parameter;;
   ret (InstanceNorm2d.mk num_features w b))%ctor.

Definition nn_BatchNorm1d (num_features : Z) : Ctor BatchNorm1d.t :=
  (w <- new_parameter;; b <- new_parameter;;
   ret (BatchNorm1d.mk num_features w b))%ctor.

Definition nn_LayerNorm (normalized_shape : list Z) : Ctor LayerNorm.t :=
  (w <- new_parameter;; b <- new_parameter;;
   ret (LayerNorm.mk normalized_shape w b))%ctor.

Definition nn_Linear (in_features out_features : Z) : Ctor Linear.t :=
  (w <- new_parameter;; b <- new_parameter;;
   ret (Linear.mk in_features out_features w b))%ctor.

(** ** The tensor substrate

    What the network asks of PyTorch when it runs.  A layer function
    receives the current state of the layers (the values of their
    parameters and buffers, and the mode they are in) and the layer
    object, which tells it which part of the state is the layer's.
    [nn.ReLU(inplace=True)] is
    always applied to a tensor that the caller rebinds at once and that
    nothing else refers to, so it is the same function as [F.relu]. *)

Class Torch (tensor : Type) : Type := {
  (* the state of the layers: the values of their parameters and
     buffers, their mode *)
  state_dict : Type;
  conv2d : state_dict -> Conv2d.t -> tensor -> tensor;
  batch_norm2d : state_dict -> BatchNorm2d.t -> tensor -> tensor;
  instance_norm2d : state_dict -> InstanceNorm2d.t -> tensor -> tensor;
  batch_norm1d : state_dict -> BatchNorm1d.t -> tensor -> tensor;
  layer_norm : state_dict -> LayerNorm.t -> tensor -> tensor;
  linear : state_dict -> Linear.t -> tensor -> tensor;
  max_pool2d : MaxPool2d.t -> tensor -> tensor;
  avg_pool2d : AvgPool2d.t -> tensor -> tensor;
  adaptive_avg_pool2d : AdaptiveAvgPool2d.t -> tensor -> tensor;
  relu : tensor -> tensor;
  sigmoid : tensor -> tensor;
  (* [x + y] and [x * y], with broadcasting *)
  add : tensor -> tensor -> tensor;
  mul : tensor -> tensor -> tensor;
  (* [v.view(v.size(0), -1)] *)
  view_rows : tensor -> tensor;
  (* [F.normalize(v, p=p, dim=dim)] *)
  normalize : Z -> Z -> tensor -> tensor;
  (* [torch.cat(ts, dim=dim)] *)
  cat : list tensor -> Z -> tensor
}.

(** ** Basic layers *)

(** The normalization of a [ConvLayer]: instance or batch. *)
Inductive norm2d : Type :=
| NormIN (m : InstanceNorm2d.t)
| NormBN (m : BatchNorm2d.t).

Module ConvLayer.
Record t : Type := mk { conv : Conv2d.t; bn : norm2d }.

(* ConvLayer.__init__ *)
Definition init (in_channels out_channels kernel_size : Z)
    (stride padding groups : Z) (IN : bool) : Ctor t :=
  (conv <- nn_Conv2d in_channels out_channels kernel_size stride padding false groups;;
   bn <- (if IN
          then (m <- nn_InstanceNorm2d out_channels;; ret (NormIN m))
          else (m <- nn_BatchNorm2d out_channels;; ret (NormBN m)));;
   ret (mk conv bn))%ctor.

Definition forward {tensor : Type} {torch : Torch tensor}
    (sd : state_dict) (self : t) (x : tensor) : tensor :=
  let x := conv2d sd (conv self) x in
  let x := match bn self with
           | NormIN m => instance_norm2d sd m x
           | NormBN m => batch_norm2d sd m x
           end in
  let x := relu x in
  x.
End ConvLayer.

Module Conv1x1.
Record t : Type := mk { conv : Conv2d.t; bn : BatchNorm2d.t }.

Definition init (in_channels out_channels stride groups : Z) : Ctor t :=
  (conv <- nn_Conv2d in_channels out_channels 1 stride 0 false groups;;
   bn <- nn_BatchNorm2d out_channels;;
   ret (mk conv bn))%ctor.

Definition forward {tensor : Type} {torch : Torch tensor}
    (sd : state_dict) (self : t) (x : tensor) : tensor :=
  let x := conv2d sd (conv self) x in
  let x := batch_norm2d sd (bn self) x in
  let x := relu x in
  x.
End Conv1x1.

Module Conv1x1Linear.
Record t : Type := mk { conv : Conv2d.t; bn : BatchNorm2d.t }.

Definition init (in_channels out_channels stride : Z) : Ctor t :=
  (conv <- nn_Conv2d in_channels out_channels 1 stride 0 false 1;;
   bn <- nn_BatchNorm2d out_channels;;
   ret (mk conv bn))%ctor.

Definition forward {tensor : Type} {torch : Torch tensor}
    (sd : state_dict) (self : t) (x : tensor) : tensor :=
  let x := conv2d sd (conv self) x in
  let x := batch_norm2d sd (bn self) x in
  x.
End Conv1x1Linear.

Module Conv3x3.
Record t : Type := mk { conv : Conv2d.t; bn : BatchNorm2d.t }.

Definition init (in_channels out_channels stride groups : Z) : Ctor t :=
  (conv <- nn_Conv2d in_channels out_channels 3 stride 1 false groups;;
   bn <- nn_BatchNorm2d out_channels;;
   ret (mk conv bn))%ctor.

Definition forward {tensor : Type} {torch : Torch tensor}
    (sd : state_dict) (self : t) (x : tensor) : tensor :=
  let x := conv2d sd (conv self) x in
  let x := batch_norm2d sd (bn self) x in
  let x := relu x in
  x.
End Conv3x3.

Module LightConv3x3.
Record t : Type := mk { conv1 : Conv2d.t; conv2 : Conv2d.t; bn : BatchNorm2d.t }.

Definition init (in_channels out_channels : Z) : Ctor t :=
  (conv1 <- nn_Conv2d in_channels out_channels 1 1 0 false 1;;
   conv2 <- nn_Conv2d out_channels out_channels 3 1 1 false out_channels;;
   bn <- nn_BatchNorm2d out_channels;;
   ret (mk conv1 conv2 bn))%ctor.

Definition forward {tensor : Type} {torch : Torch tensor}
    (sd : state_dict) (self : t) (x : tensor) : tensor :=
  let x := conv2d sd (conv1 self) x in
  let x := conv2d sd (conv2 self) x in
  let x := batch_norm2d sd (bn self) x in
  let x := relu x in
  x.
End LightConv3x3.


(** ** Building blocks for omni-scale feature learning *)

(** The activation modules a [ChannelGate] can hold. *)
Inductive activation : Type :=
| Sigmoid
| ReLU.

Module ChannelGate.
Record t : Type := mk {
  return_gates : bool;
  global_avgpool : AdaptiveAvgPool2d.t;
  fc1 : Conv2d.t;
  norm1 : option LayerNorm.t;
  fc2 : Conv2d.t;
  gate_activation : option activation
}.

(* ChannelGate.__init__; [num_gates = None] is the default. *)
Definition init (in_channels : Z) (num_gates : option Z) (return_gates : bool)
    (gate_activation : string) (reduction : Z) (layer_norm : bool) : Ctor t :=
  (let num_gates := match num_gates with None => in_channels | Some g => g end in
   let global_avgpool := AdaptiveAvgPool2d.mk 1 in
   hidden <- lift (py_floordiv in_channels reduction);;
   fc1 <- nn_Conv2d in_channels hidden 1 1 0 true 1;;
   norm1 <- (if layer_norm
             then (hidden <- lift (py_floordiv in_channels reduction);;
                   m <- nn_LayerNorm [hidden; 1; 1];; ret (Some m))
             else ret None);;
   hidden <- lift (py_floordiv in_channels reduction);;
   fc2 <- nn_Conv2d hidden num_gates 1 1 0 true 1;;
   act <- (if String.eqb gate_activation "sigmoid" then ret (Some Sigmoid)
           else if String.eqb gate_activation "relu" then ret (Some ReLU)
           else if String.eqb gate_activation "linear" then ret None
           else raise (RuntimeError ("Unknown gate activation: " +:+ gate_activation)));;
   ret (mk return_gates global_avgpool fc1 norm1 fc2 act))%ctor.

Definition forward {tensor : Type} {torch : Torch tensor}
    (sd : state_dict) (self : t) (x : tensor) : tensor :=
  let input := x in
  let x := adaptive_avg_pool2d (global_avgpool self) x in
  let x := conv2d sd (fc1 self) x in
  let x := match norm1 self with
           | Some m => layer_norm sd m x
           | None => x
           end in
  let x := relu x in
  let x := conv2d sd (fc2 self) x in
  let x := match gate_activation self with
           | Some Sigmoid => sigmoid x
           | Some ReLU => relu x
           | None => x
           end in
  if return_gates self then x else mul input x.

(* the value of [x] in [forward] after [fc2], before the gate
   activation *)
Definition pre_activation {tensor : Type} {torch : Torch tensor}
    (sd : state_dict) (self : t) (x : tensor) : tensor :=
  let x := adaptive_avg_pool2d (global_avgpool self) x in
  let x := conv2d sd (fc1 self) x in
  let x := match norm1 self with
           | Some m => layer_norm sd m x
           | None => x
           end in
  let x := relu x in
  conv2d sd (fc2 self) x.

(* The activation module each recognized name stands for; ['linear']
   stands for none. *)
Definition activation_named (name : string) : option (option activation) :=
  if String.eqb name "sigmoid" then Some (Some Sigmoid)
  else if String.eqb name "relu" then Some (Some ReLU)
  else if String.eqb name "linear" then Some None
  else None.

(* the parameter tensors of the gate *)
Definition parameters (self : t) : list N :=
  ([Conv2d.weight (fc1 self)] ++ option_list (Conv2d.bias (fc1 self))
   ++ match norm1 self with
      | Some m => [LayerNorm.weight m; LayerNorm.bias m]
      | None => []
      end
   ++ [Conv2d.weight (fc2 self)] ++ option_list (Conv2d.bias (fc2 self)))%list.
End ChannelGate.

Module OSBlock.
Record t : Type := mk {
  conv1 : Conv1x1.t;
  conv2a : LightConv3x3.t;
  conv2b : list LightConv3x3.t;
  conv2c : list LightConv3x3.t;
  conv2d : list LightConv3x3.t;
  gate : ChannelGate.t;
  conv3 : Conv1x1Linear.t;
  downsample : option Conv1x1Linear.t;
  IN : option InstanceNorm2d.t
}.

(* OSBlock.__init__ *)
Definition init (in_channels out_channels : Z) (IN : bool)
    (bottleneck_reduction : Z) : Ctor t :=
  (mid_channels <- lift (py_floordiv out_channels bottleneck_reduction);;
   conv1 <- Conv1x1.init in_channels mid_channels 1 1;;
   conv2a <- LightConv3x3.init mid_channels mid_channels;;
   b1 <- LightConv3x3.init mid_channels mid_channels;;
   b2 <- LightConv3x3.init mid_channels mid_channels;;
   c1 <- LightConv3x3.init mid_channels mid_channels;;
   c2 <- LightConv3x3.init mid_channels mid_channels;;
   c3 <- LightConv3x3.init mid_channels mid_channels;;
   d1 <- LightConv3x3.init mid_channels mid_channels;;
   d2 <- LightConv3x3.init mid_channels mid_channels;;
   d3 <- LightConv3x3.init mid_channels mid_channels;;
   d4 <- LightConv3x3.init mid_channels mid_channels;;
   gate <- ChannelGate.init mid_channels None false "sigmoid" 16 false;;
   conv3 <- Conv1x1Linear.init mid_channels out_channels 1;;
   downsample <- (if decide (in_channels <> out_channels)
                  then (m <- Conv1x1Linear.init in_channels out_channels 1;;
                        ret (Some m))
                  else ret None);;
   inorm <- (if IN
             then (m <- nn_InstanceNorm2d out_channels;; ret (Some m))
             else ret None);;
   ret (mk conv1 conv2a [b1; b2] [c1; c2; c3] [d1; d2; d3; d4]
           gate conv3 downsample inorm))%ctor.

(* [nn.Sequential] of [LightConv3x3] layers *)
Definition sequential {tensor : Type} {torch : Torch tensor}
    (sd : state_dict) (ms : list LightConv3x3.t) (x : tensor) : tensor :=
  fold_left (fun x m => LightConv3x3.forward sd m x) ms x.

(* OSBlock.forward returns the pair [(F.relu(out), x2)]. *)
Definition forward {tensor : Type} {torch : Torch tensor}
    (sd : state_dict) (self : t) (x : tensor) : tensor * tensor :=
  let identity := x in
  let x1 := Conv1x1.forward sd (conv1 self) x in
  let x2a := LightConv3x3.forward sd (conv2a self) x1 in
  let x2b := sequential sd (conv2b self) x1 in
  let x2c := sequential sd (conv2c self) x1 in
  let x2d := sequential sd (conv2d self) x1 in
  let x2 := add (add (add (ChannelGate.forward sd (gate self) x2a)
                          (ChannelGate.forward sd (gate self) x2b))
                     (ChannelGate.forward sd (gate self) x2c))
                (ChannelGate.forward sd (gate self) x2d) in
  let x3 := Conv1x1Linear.forward sd (conv3 self) x2 in
  let identity := match downsample self with
                  | Some m => Conv1x1Linear.forward sd m identity
                  | None => identity
                  end in
  let out := add x3 identity in
  let out := match IN self with
             | Some m => instance_norm2d sd m out
             | None => out
             end in
  (relu out, x2).

(* [mid_channels] of [__init__]: the width [conv1] reduces to *)
Definition mid_channels (self : t) : Z :=
  Conv2d.out_channels (Conv1x1.conv (conv1 self)).

(* the branch outputs [x2a], [x2b], [x2c], [x2d] of [forward] *)
Definition branches {tensor : Type} {torch : Torch tensor}
    (sd : state_dict) (self : t) (x : tensor)
    : tensor * tensor * tensor * tensor :=
  let x1 := Conv1x1.forward sd (conv1 self) x in
  (LightConv3x3.forward sd (conv2a self) x1,
   sequential sd (conv2b self) x1,
   sequential sd (conv2c self) x1,
   sequential sd (conv2d self) x1).

(* The fusion of the branch outputs when branch a is gated by [ga],
   branch b by [gb], branch c by [gc] and branch d by [gd]. *)
Definition fusion {tensor : Type} {torch : Torch tensor}
    (sd : state_dict) (ga gb gc gd : ChannelGate.t) (self : t) (x : tensor)
    : tensor :=
  let '(x2a, x2b, x2c, x2d) := branches sd self x in
  add (add (add (ChannelGate.forward sd ga x2a)
                (ChannelGate.forward sd gb x2b))
           (ChannelGate.forward sd gc x2c))
      (ChannelGate.forward sd gd x2d).

(* the value of [x2] in [forward]: the branch outputs, each gated by
   [self.gate], summed *)
Definition gated_sum {tensor : Type} {torch : Torch tensor}
    (sd : state_dict) (self : t) (x : tensor) : tensor :=
  fusion sd (gate self) (gate self) (gate self) (gate self) self x.

(* the value of [out] in [forward] before the instance normalization:
   the residual sum [x3 + identity] *)
Definition residual_sum {tensor : Type} {torch : Torch tensor}
    (sd : state_dict) (self : t) (x : tensor) : tensor :=
  let x3 := Conv1x1Linear.forward sd (conv3 self) (gated_sum sd self x) in
  let identity := match downsample self with
                  | Some m => Conv1x1Linear.forward sd m x
                  | None => x
                  end in
  add x3 identity.

(* [forward] gates branch a by [ga], ..., branch d by [gd] and sums:
   its second output is that fusion, whatever the substrate. *)
Definition gated_by (ga gb gc gd : ChannelGate.t) (self : t) : Prop :=
  forall (tensor : Type) (torch : Torch tensor) (sd : state_dict) (x : tensor),
    snd (forward sd self x) = fusion sd ga gb gc gd self x.

(* gates with independent parameters: no parameter tensor belongs to
   two of them *)
Definition independent (gates : list ChannelGate.t) : Prop :=
  NoDup (concat (map ChannelGate.parameters gates)).
End OSBlock.

(** ** Network architecture *)

(** What [OSNet.forward] can return: tensor [c] when
    [return_featuremaps] is set, one tensor in evaluation mode, the
    list [y] for the loss ['softmax'], the pair [(y, v_)] for the loss
    ['triplet']. *)
Inductive output (T : Type) : Type :=
| FeatureMap (c : T)
| Descriptor (d : T)
| Logits (y : list T)
| LogitsFeatures (y : list T) (v_ : list T).

Arguments FeatureMap {T} c.
Arguments Descriptor {T} d.
Arguments Logits {T} y.
Arguments LogitsFeatures {T} y v_.

(** The classes passed as [blocks]. *)
Inductive block_class : Type :=
| OSBlock_class.

Module OSNet.
Record t : Type := mk {
  training : bool;
  loss : string;
  conv1 : ConvLayer.t;
  maxpool : MaxPool2d.t;
  conv2_0 : OSBlock.t;
  conv2_1 : OSBlock.t;
  conv2_2 : Conv1x1.t;
  conv2_3 : AvgPool2d.t;
  conv3_0 : OSBlock.t;
  conv3_1 : OSBlock.t;
  conv3_2 : Conv1x1.t;
  conv3_3 : AvgPool2d.t;
  conv4_0 : OSBlock.t;
  conv4_1 : OSBlock.t;
  conv_a : Conv1x1.t;
  conv_b : Conv1x1.t;
  conv_c : Conv1x1.t;
  conv5 : Conv1x1.t;
  global_avgpool : AdaptiveAvgPool2d.t;
  classifier : Linear.t;
  classifier_a : Linear.t;
  classifier_b : Linear.t;
  classifier_c : Linear.t;
  bn : BatchNorm1d.t;
  bn_a : BatchNorm1d.t;
  bn_b : BatchNorm1d.t;
  bn_c : BatchNorm1d.t
}.

(* OSNet.__init__.  A new module is in training mode.  [feature_dim]
   is accepted and never read; [_init_params] assigns initial values to
   the parameters allocated here and allocates none. *)
Definition init {B L : Type} (num_classes : Z) (blocks : list B)
    (layers : list L) (channels : list Z) (feature_dim : Z) (loss : string)
    (IN : bool) : Ctor t :=
  (let num_blocks := Z.of_nat (length blocks) in
   assert (bool_decide (num_blocks = Z.of_nat (length layers)));;;
   assert (bool_decide (num_blocks = Z.of_nat (length channels) - 1));;;
   c0 <- lift (py_index channels 0);;
   conv1 <- ConvLayer.init 3 c0 7 2 3 1 IN;;
   let maxpool := MaxPool2d.mk 3 2 1 in
   conv2_0 <- OSBlock.init 64 256 IN 4;;
   conv2_1 <- OSBlock.init 256 256 IN 4;;
   conv2_2 <- Conv1x1.init 256 256 1 1;;
   let conv2_3 := AvgPool2d.mk 2 2 in
   conv3_0 <- OSBlock.init 256 384 IN 4;;
   conv3_1 <- OSBlock.init 384 384 IN 4;;
   conv3_2 <- Conv1x1.init 384 384 1 1;;
   let conv3_3 := AvgPool2d.mk 2 2 in
   conv4_0 <- OSBlock.init 384 512 IN 4;;
   conv4_1 <- OSBlock.init 512 512 IN 4;;
   conv_a <- Conv1x1.init 64 64 1 1;;
   conv_b <- Conv1x1.init 96 96 1 1;;
   conv_c <- Conv1x1.init 128 128 1 1;;
   c3 <- lift (py_index channels 3);;
   c3' <- lift (py_index channels 3);;
   conv5 <- Conv1x1.init c3 c3' 1 1;;
   let global_avgpool := AdaptiveAvgPool2d.mk 1 in
   classifier <- nn_Linear 512 num_classes;;
   classifier_a <- nn_Linear 64 num_classes;;
   classifier_b <- nn_Linear 96 num_classes;;
   classifier_c <- nn_Linear 128 num_classes;;
   bn <- nn_BatchNorm1d 512;;
   bn_a <- nn_BatchNorm1d 64;;
   bn_b <- nn_BatchNorm1d 96;;
   bn_c <- nn_BatchNorm1d 128;;
   ret (mk true loss conv1 maxpool conv2_0 conv2_1 conv2_2 conv2_3
           conv3_0 conv3_1 conv3_2 conv3_3 conv4_0 conv4_1
           conv_a conv_b conv_c conv5 global_avgpool
           classifier classifier_a classifier_b classifier_c
           bn bn_a bn_b bn_c))%ctor.

(* [self.train(mode)] and [self.eval()], as far as the network's own
   code reads the flag *)
Definition train (mode : bool) (self : t) : t :=
  mk mode (loss self) (conv1 self) (maxpool self)
     (conv2_0 self) (conv2_1 self) (conv2_2 self) (conv2_3 self)
     (conv3_0 self) (conv3_1 self) (conv3_2 self) (conv3_3 self)
     (conv4_0 self) (conv4_1 self)
     (conv_a self) (conv_b self) (conv_c self) (conv5 self)
     (global_avgpool self)
     (classifier self) (classifier_a self) (classifier_b self) (classifier_c self)
     (bn self) (bn_a self) (bn_b self) (bn_c self).

Definition eval (self : t) : t := train false self.

(* OSNet.featuremaps returns the tuple [(x, a1, b1, c1)]. *)
Definition featuremaps {tensor : Type} {torch : Torch tensor}
    (sd : state_dict) (self : t) (x : tensor)
    : tensor * tensor * tensor * tensor :=
  let x := ConvLayer.forward sd (conv1 self) x in
  let x := max_pool2d (maxpool self) x in
  let '(x, _) := OSBlock.forward sd (conv2_0 self) x in
  let '(x, a1) := OSBlock.forward sd (conv2_1 self) x in
  let x := Conv1x1.forward sd (conv2_2 self) x in
  let x := avg_pool2d (conv2_3 self) x in
  let '(x, _) := OSBlock.forward sd (conv3_0 self) x in
  let '(x, b1) := OSBlock.forward sd (conv3_1 self) x in
  let x := Conv1x1.forward sd (conv3_2 self) x in
  let x := avg_pool2d (conv3_3 self) x in
  let '(x, _) := OSBlock.forward sd (conv4_0 self) x in
  let '(x, c1) := OSBlock.forward sd (conv4_1 self) x in
  let a1 := Conv1x1.forward sd (conv_a self) a1 in
  let b1 := Conv1x1.forward sd (conv_b self) b1 in
  let c1 := Conv1x1.forward sd (conv_c self) c1 in
  let x := Conv1x1.forward sd (conv5 self) x in
  (x, a1, b1, c1).

(* the value of [v_] in [forward]: the four feature maps, each pooled
   to one value per channel and flattened to a vector per image *)
Definition pooled {tensor : Type} {torch : Torch tensor}
    (sd : state_dict) (self : t) (x : tensor)
    : tensor * tensor * tensor * tensor :=
  let '(x, a, b, c) := featuremaps sd self x in
  (view_rows (adaptive_avg_pool2d (global_avgpool self) x),
   view_rows (adaptive_avg_pool2d (global_avgpool self) a),
   view_rows (adaptive_avg_pool2d (global_avgpool self) b),
   view_rows (adaptive_avg_pool2d (global_avgpool self) c)).

(* the values of [v], [va], [vb], [vc] in [forward] after the four 1D
   batch normalizations *)
Definition batch_normalized {tensor : Type} {torch : Torch tensor}
    (sd : state_dict) (self : t) (x : tensor)
    : tensor * tensor * tensor * tensor :=
  let '(v, va, vb, vc) := pooled sd self x in
  (batch_norm1d sd (bn self) v,
   batch_norm1d sd (bn_a self) va,
   batch_norm1d sd (bn_b self) vb,
   batch_norm1d sd (bn_c self) vc).

(* OSNet.forward *)
Definition forward {tensor : Type} {torch : Torch tensor}
    (sd : state_dict) (self : t) (x : tensor) (return_featuremaps : bool)
    : result (output tensor) :=
  let '(x, a, b, c) := featuremaps sd self x in
  if return_featuremaps then Ok (FeatureMap c) else
  let v := adaptive_avg_pool2d (global_avgpool self) x in
  let va := adaptive_avg_pool2d (global_avgpool self) a in
  let vb := adaptive_avg_pool2d (global_avgpool self) b in
  let vc := adaptive_avg_pool2d (global_avgpool self) c in
  let v := view_rows v in
  let va := view_rows va in
  let vb := view_rows vb in
  let vc := view_rows vc in
  let v_ := [v; va; vb; vc] in
  let v := batch_norm1d sd (bn self) v in
  let va := batch_norm1d sd (bn_a self) va in
  let vb := batch_norm1d sd (bn_b self) vb in
  let vc := batch_norm1d sd (bn_c self) vc in
  if negb (training self) then
    let v := normalize 2 1 v in
    let va := normalize 2 1 va in
    let vb := normalize 2 1 vb in
    let vc := normalize 2 1 vc in
    Ok (Descriptor (cat [v; va; vb; vc] 1))
  else
  let y := linear sd (classifier self) v in
  let ya := linear sd (classifier_a self) va in
  let yb := linear sd (classifier_b self) vb in
  let yc := linear sd (classifier_c self) vc in
  let y := [y; ya; yb; yc] in
  let v := [v; va; vb; vc] in
  if String.eqb (loss self) "softmax" then Ok (Logits y)
  else if String.eqb (loss self) "triplet" then Ok (LogitsFeatures y v_)
  else Raise (KeyError ("Unsupported loss: " +:+ loss self)).
End OSNet.

(** [pfh_osnet]: the standard-width instance.  Loading the pretrained
    weights changes the values of parameters, not the network; [IN] is
    the one keyword argument that reaches the constructor's logic. *)
Definition pfh_osnet (num_classes : Z) (loss : string) (IN : bool) : Ctor OSNet.t :=
  OSNet.init num_classes
    [OSBlock_class; OSBlock_class; OSBlock_class]
    [2; 2; 2]
    [64; 256; 384; 512]
    512 loss IN.

(** ** The trace substrate

    A tensor is the expression that computes it from the input and the
    layer objects.  Every substrate evaluates these expressions, so an
    equation between tensors that holds under every substrate holds
    between their traces, and two tensors with different traces are
    different under some substrate. *)

#[warnings="-register-all"]
Inductive term : Type :=
| Input (name : string)
| TConv2d (m : Conv2d.t) (x : term)
| TBatchNorm2d (m : BatchNorm2d.t) (x : term)
| TInstanceNorm2d (m : InstanceNorm2d.t) (x : term)
| TBatchNorm1d (m : BatchNorm1d.t) (x : term)
| TLayerNorm (m : LayerNorm.t) (x : term)
| TLinear (m : Linear.t) (x : term)
| TMaxPool2d (m : MaxPool2d.t) (x : term)
| TAvgPool2d (m : AvgPool2d.t) (x : term)
| TAdaptiveAvgPool2d (m : AdaptiveAvgPool2d.t) (x : term)
| TRelu (x : term)
| TSigmoid (x : term)
| TAdd (x y : term)
| TMul (x y : term)
| TViewRows (x : term)
| TNormalize (p dim : Z) (x : term)
| TCat (xs : list term) (dim : Z).

#[export] Instance Trace : Torch term := {|
  state_dict := unit;
  conv2d _ := TConv2d;
  batch_norm2d _ := TBatchNorm2d;
  instance_norm2d _ := TInstanceNorm2d;
  batch_norm1d _ := TBatchNorm1d;
  layer_norm _ := TLayerNorm;
  linear _ := TLinear;
  max_pool2d := TMaxPool2d;
  avg_pool2d := TAvgPool2d;
  adaptive_avg_pool2d := TAdaptiveAvgPool2d;
  relu := TRelu;
  sigmoid := TSigmoid;
  add := TAdd;
  mul := TMul;
  view_rows := TViewRows;
  normalize := TNormalize;
  cat := TCat
|}.

(** ** The shape substrate

    A tensor is its shape, or [None] once an operation has been given a
    shape or a layer that PyTorch rejects.  The state of the layers is
    their mode: [true] in training mode, [false] in evaluation mode.
    The rules are those of PyTorch for the layers used here. *)

(* output length of a sliding window: floor((n + 2p - k) / s) + 1 *)
Definition window_out (n k s p : Z) : option Z :=
  if decide (0 < s /\ 0 < k /\ k <= n + 2 * p) then Some ((n + 2 * p - k) / s + 1)
  else None.

Definition shape_window (k s p : Z) (c_in : option Z) (c_out : Z)
    (x : option (list Z)) : option (list Z) :=
  match x with
  | Some [b; c; h; w] =>
      if match c_in with Some ci => bool_decide (c = ci) | None => true end then
        match window_out h k s p, window_out w k s p with
        | Some h', Some w' => Some [b; c_out; h'; w']
        | _, _ => None
        end
      else None
  | _ => None
  end.

(* What a convolution asks of its weight: a positive number of groups,
   at least one output channel for each, and both channel counts
   divided by it. *)
Definition conv_weight_ok (m : Conv2d.t) : bool :=
  bool_decide (0 < Conv2d.groups m
               /\ Conv2d.groups m <= Conv2d.out_channels m
               /\ Conv2d.out_channels m mod Conv2d.groups m = 0
               /\ Conv2d.in_channels m mod Conv2d.groups m = 0).

Definition shape_conv2d (m : Conv2d.t) (x : option (list Z)) : option (list Z) :=
  if conv_weight_ok m
  then shape_window (Conv2d.kernel_size m) (Conv2d.stride m) (Conv2d.padding m)
         (Some (Conv2d.in_channels m)) (Conv2d.out_channels m) x
  else None.

(* A batch normalization: a feature axis of the expected width at
   position 1, and in training mode more than one value per channel. *)
Definition shape_batch_norm (training : bool) (rank : nat) (n : Z)
    (x : option (list Z)) : option (list Z) :=
  match x with
  | Some (b :: c :: rest) =>
      if decide (c = n /\ length rest = (rank - 2)%nat
                 /\ (training = true -> b * fold_right Z.mul 1 rest <> 1))
      then x else None
  | _ => None
  end.

(* An instance normalization of feature maps: in either mode more than
   one position per map. *)
Definition shape_instance_norm (n : Z) (x : option (list Z))
    : option (list Z) :=
  match x with
  | Some [b; c; h; w] => if decide (c = n /\ h * w <> 1) then x else None
  | _ => None
  end.

Definition shape_suffix (suffix : list Z) (x : option (list Z)) : option (list Z) :=
  match x with
  | Some s => if decide (suffix `suffix_of` s) then x else None
  | None => None
  end.

Definition shape_linear (m : Linear.t) (x : option (list Z)) : option (list Z) :=
  match x with
  | Some [b; c] =>
      if decide (c = Linear.in_features m) then Some [b; Linear.out_features m]
      else None
  | _ => None
  end.

Definition shape_adaptive (m : AdaptiveAvgPool2d.t) (x : option (list Z))
    : option (list Z) :=
  match x with
  | Some [b; c; _; _] =>
      Some [b; c; AdaptiveAvgPool2d.output_size m; AdaptiveAvgPool2d.output_size m]
  | _ => None
  end.

(* broadcasting of two shapes of the same rank *)
Fixpoint broadcast (s1 s2 : list Z) : option (list Z) :=
  match s1, s2 with
  | [], [] => Some []
  | d1 :: r1, d2 :: r2 =>
      match broadcast r1 r2 with
      | Some r =>
          if decide (d1 = d2) then Some (d1 :: r)
          else if decide (d2 = 1) then Some (d1 :: r)
          else if decide (d1 = 1) then Some (d2 :: r)
          else None
      | None => None
      end
  | _, _ => None
  end.

Definition shape_broadcast (x y : option (list Z)) : option (list Z) :=
  match x, y with
  | Some s1, Some s2 => broadcast s1 s2
  | _, _ => None
  end.

(* [v.view(v.size(0), -1)]: the tensor must have elements, or the
   second size cannot be inferred *)
Definition shape_view_rows (x : option (list Z)) : option (list Z) :=
  match x with
  | Some (b :: rest) =>
      if decide (Forall (fun d => 0 < d) (b :: rest))
      then Some [b; fold_right Z.mul 1 rest] else None
  | _ => None
  end.

(* concatenation of matrices along axis 1 *)
Fixpoint shape_cat1 (xs : list (option (list Z))) : option (list Z) :=
  match xs with
  | [] => None
  | [x] => match x with Some [b; c] => x | _ => None end
  | x :: rest =>
      match x, shape_cat1 rest with
      | Some [b; c], Some [b'; c'] =>
          if decide (b = b') then Some [b; c + c'] else None
      | _, _ => None
      end
  end.

#[export] Instance Shape : Torch (option (list Z)) := {|
  state_dict := bool;
  conv2d _ := shape_conv2d;
  batch_norm2d training m := shape_batch_norm training 4 (BatchNorm2d.num_features m);
  instance_norm2d _ m := shape_instance_norm (InstanceNorm2d.num_features m);
  batch_norm1d training m := shape_batch_norm training 2 (BatchNorm1d.num_features m);
  layer_norm _ m := shape_suffix (LayerNorm.normalized_shape m);
  linear _ := shape_linear;
  max_pool2d m x := match x with
                    | Some [b; c; h; w] =>
                        shape_window (MaxPool2d.kernel_size m) (MaxPool2d.stride m)
                          (MaxPool2d.padding m) None c x
                    | _ => None
                    end;
  avg_pool2d m x := match x with
                    | Some [b; c; h; w] =>
                        shape_window (AvgPool2d.kernel_size m) (AvgPool2d.stride m)
                          0 None c x
                    | _ => None
                    end;
  adaptive_avg_pool2d := shape_adaptive;
  relu x := x;
  sigmoid x := x;
  add := shape_broadcast;
  mul := shape_broadcast;
  view_rows := shape_view_rows;
  normalize p dim x := x;
  cat xs dim := if decide (dim = 1) then shape_cat1 xs else None
|}.

(** ** The training engine ([torchreid/engine/image/triplet.py]) *)

(** The loss objects the engine builds ([torchreid.losses]). *)
Inductive criterion : Type :=
| TripletLoss (margin : Q)
| CrossEntropyLoss (num_classes : Z) (use_gpu : bool) (label_smooth : bool)
| CenterLoss (num_classes : Z) (feat_dim : Z).

(** What is handed to a criterion: one tensor, or a list of tensors. *)
Inductive tval (T : Type) : Type :=
| One (t : T)
| Many (ts : list T).

Arguments One {T} t.
Arguments Many {T} ts.

(** A Python value in the loss arithmetic: a number or a tensor.
    Numbers are exact rationals. *)
Inductive pyval (T : Type) : Type :=
| Num (q : Q)
| Ten (t : T).

Arguments Num {T} q.
Arguments Ten {T} t.

Inductive SummaryWriter : Type := The_writer.
Inductive LRScheduler : Type := The_scheduler.

(** What a training epoch does to the outside, in order: lines printed,
    calls of criteria, of the optimizer, of the scheduler and of the
    writer. *)
Inductive event (T : Type) : Type :=
| Print_only_train (open_layers : list string) (epoch fixbase_epoch : Z)
| Print_progress (epoch max_epoch batch num_batches : Z)
    (loss_t_val loss_t_avg loss_x_val loss_x_avg acc_val acc_avg lr : Q)
    (eta_seconds : Z)
| Zero_grad
| Compute_loss (c : criterion) (inputs : tval T) (targets : T) (value : T)
| Backward (loss : T)
| Optimizer_step
| Add_scalar (tag : string) (value : Q) (n_iter : Z)
| Scheduler_step.

Arguments Print_only_train {T}.
Arguments Print_progress {T}.
Arguments Zero_grad {T}.
Arguments Compute_loss {T}.
Arguments Backward {T}.
Arguments Optimizer_step {T}.
Arguments Add_scalar {T}.
Arguments Scheduler_step {T}.

(** The criteria evaluated, in order. *)
Definition criteria_called {T : Type} (log : list (event T)) : list criterion :=
  omap (fun ev => match ev with
                  | Compute_loss c _ _ _ => Some c
                  | _ => None
                  end) log.

Definition is_center_loss (c : criterion) : bool :=
  match c with
  | CenterLoss _ _ => true
  | _ => false
  end.

(** The model object of the engine: the network, and for each of its
    layers (its named children) whether the layer's parameters are
    trainable ([requires_grad]). *)
Module Model.
Record t : Type := mk {
  net : OSNet.t;
  requires_grad : list (string * bool)
}.

Definition named_children : list string :=
  ["conv1"; "maxpool"; "conv2_0"; "conv2_1"; "conv2_2"; "conv2_3";
   "conv3_0"; "conv3_1"; "conv3_2"; "conv3_3"; "conv4_0"; "conv4_1";
   "conv_a"; "conv_b"; "conv_c"; "conv5"; "global_avgpool";
   "classifier"; "classifier_a"; "classifier_b"; "classifier_c";
   "bn"; "bn_a"; "bn_b"; "bn_c"].

(* the children that have no parameters: the pooling layers *)
Definition parameterless : list string :=
  ["maxpool"; "conv2_3"; "conv3_3"; "global_avgpool"].

(* a network as constructed: every parameter is trainable *)
Definition of_net (net : OSNet.t) : t :=
  mk net (map (fun name => (name, true)) named_children).

(* [model.train()] *)
Definition train (self : t) : t :=
  mk (OSNet.train true (net self)) (requires_grad self).

Definition trainable (self : t) (layer : string) : bool :=
  bool_decide ((layer, true) ∈ requires_grad self).
End Model.

(** Modelled from the spec: [open_specified_layers] of
    [torchreid.utils], which is not among the sources.  Section 4.5,
    step 2: "freeze every layer except the named set (their parameters
    become non-trainable for this epoch only)". *)
Definition open_specified_layers (model : Model.t) (open_layers : list string)
    : Model.t :=
  Model.mk (Model.net model)
    (map (fun '(name, _) => (name, bool_decide (name ∈ open_layers)))
         (Model.requires_grad model)).

(** Modelled from the spec: [open_all_layers] of [torchreid.utils],
    which is not among the sources.  Section 4.5, step 2: "otherwise
    all layers are trainable". *)
Definition open_all_layers (model : Model.t) : Model.t :=
  Model.mk (Model.net model)
    (map (fun '(name, _) => (name, true)) (Model.requires_grad model)).


(** What the engine asks of its collaborators: PyTorch, the base class
    [Engine], [AverageMeter], [metrics].  The state of the substrate
    (values of parameters and buffers, gradients, optimizer and
    scheduler state, the clock) is a [world]. *)
Class Runtime (tensor : Type) : Type := {
  torch_of :: Torch tensor;
  world : Type;
  batch : Type;
  meter : Type;
  (* the current values of the parameters and buffers *)
  parameters : world -> state_dict;
  (* [nn.Module.train()] on the layers *)
  train_mode : world -> world;
  (* what a forward pass leaves behind (running statistics) *)
  forwarded : OSNet.t -> tensor -> world -> world;
  (* [time.time()] *)
  clock : world -> Q * world;
  (* [Engine._parse_data_for_train] *)
  parse_data_for_train : batch -> tensor * tensor;
  cuda : tensor -> tensor;
  (* iteration over the first axis of a tensor *)
  unbind : tensor -> list tensor;
  (* [Engine._compute_loss] *)
  compute_loss : criterion -> tval tensor -> tensor -> world -> tensor;
  (* [metrics.accuracy(outputs, pids)[0].item()] *)
  accuracy : tval tensor -> tensor -> Q;
  item : tensor -> Q;
  (* [t.size(0)] *)
  size0 : tensor -> Z;
  (* number * tensor, tensor + number *)
  scale : Q -> tensor -> tensor;
  add_number : tensor -> Q -> tensor;
  zero_grad : world -> world;
  (* [loss.backward()], given which layers are trainable and which
     criteria the loss was computed by; PyTorch raises when the loss
     depends on nothing that requires a gradient *)
  backward : list (string * bool) -> list criterion -> tensor -> world
             -> result world;
  optimizer_step : world -> world;
  (* [optimizer.param_groups[0]['lr']] *)
  learning_rate : world -> Q;
  scheduler_step : world -> world;
  (* [AverageMeter()], [update(val, n)], [.val], [.avg] *)
  AverageMeter : meter;
  meter_update : meter -> Q -> Z -> meter;
  meter_val : meter -> Q;
  meter_avg : meter -> Q
}.

(** [a * b] and [a + b] on numbers and tensors. *)
Definition py_mul {tensor : Type} {runtime : Runtime tensor}
    (a : Q) (b : pyval tensor) : pyval tensor :=
  match b with
  | Num q => Num (Qmult a q)
  | Ten t => Ten (scale a t)
  end.

Definition py_add {tensor : Type} {runtime : Runtime tensor}
    (a b : pyval tensor) : pyval tensor :=
  match a, b with
  | Num p, Num q => Num (Qplus p q)
  | Ten t, Num q => Ten (add_number t q)
  | Num p, Ten t => Ten (add_number t p)
  | Ten s, Ten t => Ten (add s t)
  end.

(** [int(x)] on a number: truncation towards zero. *)
Definition py_int (x : Q) : Z := Z.quot (Qnum x) (Zpos (Qden x)).

(** [outputs, features = self.model(imgs)] *)
Definition unpack2 {tensor : Type} {runtime : Runtime tensor}
    (o : output tensor) : result (tval tensor * tval tensor) :=
  match o with
  | LogitsFeatures y v_ => Ok (Many y, Many v_)
  | Logits [a; b] => Ok (One a, One b)
  | Logits _ => Raise ValueError
  | Descriptor d | FeatureMap d =>
      match unbind d with
      | [a; b] => Ok (One a, One b)
      | _ => Raise ValueError
      end
  end.

(** [features[i]] *)
Definition py_item {tensor : Type} {runtime : Runtime tensor}
    (v : tval tensor) (i : nat) : result tensor :=
  match v with
  | Many ts => py_index ts i
  | One t => py_index (unbind t) i
  end.

Module ImageTripletEngine.
(* the attributes of an engine over batches of type [data] *)
Record attributes {data : Type} : Type := mk {
  model : Model.t;
  scheduler : option LRScheduler;
  use_gpu : bool;
  train_loader : list data;
  weight_t : Q;
  weight_x : Q;
  weight_c : Q;
  criterion_t : criterion;
  criterion_x : criterion;
  (* attributes that exist only if [__init__] created them *)
  criterion_c : option criterion;
  criterion_ca : option criterion;
  criterion_cb : option criterion;
  criterion_cc : option criterion
}.

Arguments attributes data : clear implicits.

(* an engine: its batches are the runtime's *)
Abbreviation t := (attributes batch).

(* [x != 0] on numbers *)
Definition nonzero (x : Q) : bool := negb (Qeq_bool x 0).

(* ImageTripletEngine.__init__.  The base class stores the model, the
   scheduler, [use_gpu] and the data manager's [train_loader];
   [num_train_pids] is the data manager's. *)
Definition init {tensor : Type} {runtime : Runtime tensor}
    (num_train_pids : Z) (train_loader : list batch) (model : Model.t)
    (margin weight_t weight_x weight_c : Q)
    (scheduler : option LRScheduler) (use_gpu label_smooth : bool) : t :=
  let criterion_t := TripletLoss margin in
  let criterion_x := CrossEntropyLoss num_train_pids use_gpu label_smooth in
  if nonzero weight_c then
    mk _ model scheduler use_gpu train_loader weight_t weight_x weight_c
       criterion_t criterion_x
       (Some (CenterLoss num_train_pids 512))
       (Some (CenterLoss num_train_pids 64))
       (Some (CenterLoss num_train_pids 96))
       (Some (CenterLoss num_train_pids 128))
  else
    mk _ model scheduler use_gpu train_loader weight_t weight_x weight_c
       criterion_t criterion_x None None None None.

Definition set_model {tensor : Type} {runtime : Runtime tensor}
    (self : t) (m : Model.t) : t :=
  mk _ m (scheduler self) (use_gpu self) (train_loader self)
     (weight_t self) (weight_x self) (weight_c self)
     (criterion_t self) (criterion_x self)
     (criterion_c self) (criterion_ca self) (criterion_cb self) (criterion_cc self).

Definition set_weight_c {tensor : Type} {runtime : Runtime tensor}
    (self : t) (x : Q) : t :=
  mk _ (model self) (scheduler self) (use_gpu self) (train_loader self)
     (weight_t self) (weight_x self) x
     (criterion_t self) (criterion_x self)
     (criterion_c self) (criterion_ca self) (criterion_cb self) (criterion_cc self).

(* [self.name], for an attribute that may not exist *)
Definition getattr {A} (name : string) (a : option A) : result A :=
  match a with
  | Some x => Ok x
  | None => Raise (AttributeError name)
  end.

(* What the loop of [train] carries from one batch to the next. *)
Record loop {tensor : Type} {runtime : Runtime tensor} : Type := mk_loop {
  self : t;
  now : world;
  losses_t : meter;
  losses_x : meter;
  accs : meter;
  batch_time : meter;
  data_time : meter;
  end_ : Q
}.

(* Lines 88-100, the center-loss step of one batch: the engine after
   it, the value of [loss_c], the criteria called. *)
Definition center_loss {tensor : Type} {runtime : Runtime tensor}
    (self : t) (w : world) (features : tval tensor) (pids : tensor)
    : result (t * pyval tensor * list (event tensor)) :=
  if nonzero (weight_c self) then
    (c <- getattr "criterion_c" (criterion_c self);;
     f0 <- py_item features 0;;
     let loss_c := compute_loss c (One f0) pids w in
     ca <- getattr "criterion_ca" (criterion_ca self);;
     f1 <- py_item features 1;;
     let loss_ca := compute_loss ca (One f1) pids w in
     cb <- getattr "criterion_cb" (criterion_cb self);;
     f2 <- py_item features 2;;
     let loss_cb := compute_loss cb (One f2) pids w in
     cc <- getattr "criterion_cc" (criterion_cc self);;
     f3 <- py_item features 3;;
     let loss_cc := compute_loss cc (One f3) pids w in
     Ok (self, Ten (add (add (add loss_c loss_ca) loss_cb) loss_cc),
         [Compute_loss c (One f0) pids loss_c;
          Compute_loss ca (One f1) pids loss_ca;
          Compute_loss cb (One f2) pids loss_cb;
          Compute_loss cc (One f3) pids loss_cc]))%result
  else
    Ok (set_weight_c self 0, Num 0, []).

(* What lines 85-102 compute for one batch. *)
Record losses {tensor : Type} {runtime : Runtime tensor} : Type := mk_losses {
  engine : t;
  after : world;
  outputs : tval tensor;
  features : tval tensor;
  loss_t : tensor;
  loss_x : tensor;
  loss : tensor
}.

(* Lines 85-102: the forward pass, the losses and their combination;
   the criteria called, in order. *)
Definition batch_loss {tensor : Type} {runtime : Runtime tensor}
    (self : t) (w : world) (imgs pids : tensor)
    : result (losses * list (event tensor)) :=
  (out <- OSNet.forward (parameters w) (Model.net (model self)) imgs false;;
   let w := forwarded (Model.net (model self)) imgs w in
   pair <- unpack2 out;;
   let '(outputs, features) := pair in
   let loss_t := compute_loss (criterion_t self) features pids w in
   let loss_x := compute_loss (criterion_x self) outputs pids w in
   center <- center_loss self w features pids;;
   let '(self, loss_c, evs_c) := center in
   let loss := py_add (py_add (py_mul (weight_t self) (Ten loss_t))
                              (py_mul (weight_x self) (Ten loss_x)))
                      (py_mul (weight_c self) loss_c) in
   match loss with
   | Ten loss =>
       Ok (mk_losses _ _ self w outputs features loss_t loss_x loss,
           ([Compute_loss (criterion_t self) features pids loss_t;
             Compute_loss (criterion_x self) outputs pids loss_x]
            ++ evs_c)%list)
   | Num _ => Raise (AttributeError "backward")
   end)%result.

(* Lines 112-142: the progress line, every [print_freq] batches, and
   the scalars for the writer. *)
Definition report {tensor : Type} {runtime : Runtime tensor}
    (epoch max_epoch : Z) (writer : option SummaryWriter)
    (print_freq num_batches batch_idx : Z)
    (losses_t losses_x accs batch_time data_time : meter) (w : world)
    : result (list (event tensor)) :=
  (r <- py_mod (batch_idx + 1) print_freq;;
   let evs_print :=
     if decide (r = 0) then
       let eta_seconds :=
         Qmult (meter_avg batch_time)
               (inject_Z (num_batches - (batch_idx + 1)
                          + (max_epoch - (epoch + 1)) * num_batches)) in
       [Print_progress (epoch + 1) max_epoch (batch_idx + 1) num_batches
          (meter_val losses_t) (meter_avg losses_t)
          (meter_val losses_x) (meter_avg losses_x)
          (meter_val accs) (meter_avg accs)
          (learning_rate w) (py_int eta_seconds)]
     else [] in
   let evs_writer :=
     match writer with
     | Some _ =>
         let n_iter := epoch * num_batches + batch_idx in
         [Add_scalar "Train/Time" (meter_avg batch_time) n_iter;
          Add_scalar "Train/Data" (meter_avg data_time) n_iter;
          Add_scalar "Train/Loss_t" (meter_avg losses_t) n_iter;
          Add_scalar "Train/Loss_x" (meter_avg losses_x) n_iter;
          Add_scalar "Train/Acc" (meter_avg accs) n_iter;
          Add_scalar "Train/Lr" (learning_rate w) n_iter]
     | None => []
     end in
   Ok (evs_print ++ evs_writer)%list)%result.

(* Lines 76-144, the body of the loop, for the batch [data] at index
   [batch_idx]. *)
Definition train_batch {tensor : Type} {runtime : Runtime tensor}
    (epoch max_epoch : Z) (writer : option SummaryWriter)
    (print_freq num_batches : Z) (st : loop) (batch_idx : Z) (data : batch)
    : result (loop * list (event tensor)) :=
  let self := self st in
  let '(tm, w) := clock (now st) in
  let data_time := meter_update (data_time st) (Qminus tm (end_ st)) 1 in
  let '(imgs, pids) := parse_data_for_train data in
  let imgs := if use_gpu self then cuda imgs else imgs in
  let pids := if use_gpu self then cuda pids else pids in
  let w := zero_grad w in
  (r <- batch_loss self w imgs pids;;
   let '(l, evs_loss) := r in
   let self := engine l in
   w <- backward (Model.requires_grad (model self)) (criteria_called evs_loss)
          (loss l) (after l);;
   let w := optimizer_step w in
   let '(tm, w) := clock w in
   let batch_time := meter_update (batch_time st) (Qminus tm (end_ st)) 1 in
   let losses_t := meter_update (losses_t st) (item (loss_t l)) (size0 pids) in
   let losses_x := meter_update (losses_x st) (item (loss_x l)) (size0 pids) in
   let accs := meter_update (accs st) (accuracy (outputs l) pids) 1 in
   evs_report <- report epoch max_epoch writer print_freq num_batches batch_idx
                   losses_t losses_x accs batch_time data_time w;;
   let '(tm, w) := clock w in
   Ok (mk_loop _ _ self w losses_t losses_x accs batch_time data_time tm,
       ([Zero_grad] ++ evs_loss ++ [Backward (loss l); Optimizer_step]
        ++ evs_report)%list))%result.

(* [for batch_idx, data in enumerate(self.train_loader)], from index
   [batch_idx] on *)
Fixpoint train_loop {tensor : Type} {runtime : Runtime tensor}
    (epoch max_epoch : Z) (writer : option SummaryWriter) (print_freq num_batches : Z)
    (st : loop) (batch_idx : Z) (loader : list batch)
    : result (loop * list (event tensor)) :=
  match loader with
  | [] => Ok (st, [])
  | data :: rest =>
      (r <- train_batch epoch max_epoch writer print_freq num_batches st batch_idx data;;
       let '(st, evs) := r in
       r' <- train_loop epoch max_epoch writer print_freq num_batches st
               (batch_idx + 1) rest;;
       let '(st, evs') := r' in
       Ok (st, (evs ++ evs')%list))%result
  end.

(* The start of [train]: training mode, then the choice of the layers
   to train. *)
Definition train_open {tensor : Type} {runtime : Runtime tensor}
    (self : t) (epoch fixbase_epoch : Z) (open_layers : option (list string))
    : t * list (event tensor) :=
  let model := Model.train (model self) in
  match open_layers with
  | Some layers =>
      if decide (epoch + 1 <= fixbase_epoch) then
        (set_model self (open_specified_layers model layers),
         [Print_only_train layers (epoch + 1) fixbase_epoch])
      else (set_model self (open_all_layers model), [])
  | None => (set_model self (open_all_layers model), [])
  end.

(* ImageTripletEngine.train: the engine and the world after the epoch,
   and what the epoch did, in order. *)
Definition train {tensor : Type} {runtime : Runtime tensor}
    (self : t) (epoch max_epoch : Z) (writer : option SummaryWriter) (print_freq fixbase_epoch : Z)
    (open_layers : option (list string)) (w : world)
    : result (t * world * list (event tensor)) :=
  let losses_t := AverageMeter in
  let losses_x := AverageMeter in
  let accs := AverageMeter in
  let batch_time := AverageMeter in
  let data_time := AverageMeter in
  let w := train_mode w in
  let '(self, evs_open) := train_open self epoch fixbase_epoch open_layers in
  let num_batches := Z.of_nat (length (train_loader self)) in
  let '(end_, w) := clock w in
  (r <- train_loop epoch max_epoch writer print_freq num_batches
          (mk_loop _ _ self w losses_t losses_x accs batch_time data_time end_)
          0 (train_loader self);;
   let '(st, evs) := r in
   match scheduler (ImageTripletEngine.self st) with
   | Some _ =>
       Ok (ImageTripletEngine.self st, scheduler_step (now st),
           (evs_open ++ evs ++ [Scheduler_step])%list)
   | None => Ok (ImageTripletEngine.self st, now st, (evs_open ++ evs)%list)
   end)%result.

(* [self'] is [self], or [self] with a zero [weight_c] rewritten as 0 by
   line 99 *)
Definition same_engine {tensor : Type} {runtime : Runtime tensor}
    (self self' : t) : Prop :=
  self' = self
  \/ (nonzero (weight_c self) = false /\ self' = set_weight_c self 0).

(* The center losses of one batch in the record of the epoch: the four
   criteria of [self] on the four feature vectors, summed to [loss_c]. *)
Definition center_segment {tensor : Type} {runtime : Runtime tensor}
    (self : t) (features : tval tensor) (pids : tensor)
    (evs_c : list (event tensor)) (loss_c : pyval tensor) : Prop :=
  exists c ca cb cc f0 f1 f2 f3 l0 l1 l2 l3,
    criterion_c self = Some c /\ criterion_ca self = Some ca
    /\ criterion_cb self = Some cb /\ criterion_cc self = Some cc
    /\ py_item features 0 = Ok f0 /\ py_item features 1 = Ok f1
    /\ py_item features 2 = Ok f2 /\ py_item features 3 = Ok f3
    /\ evs_c = [Compute_loss c (One f0) pids l0;
                Compute_loss ca (One f1) pids l1;
                Compute_loss cb (One f2) pids l2;
                Compute_loss cc (One f3) pids l3]
    /\ loss_c = Ten (add (add (add l0 l1) l2) l3).

(* the criteria an engine evaluates for one batch, in order *)
Definition criteria_per_batch {tensor : Type} {runtime : Runtime tensor}
    (self : t) : list criterion :=
  [criterion_t self; criterion_x self]
  ++ (if nonzero (weight_c self)
      then omap id [criterion_c self; criterion_ca self;
                    criterion_cb self; criterion_cc self]
      else []).

(* [seg] is the record of lines 85-103 for one batch, by an engine with
   the weights and criteria of [self] and the network [net]: the
   network was called on some images, the triplet and cross-entropy
   criteria on what it returned, the center criteria if [weight_c] is
   not zero, and [backward] on the combination [l] of their values. *)
Definition loss_segment {tensor : Type} {runtime : Runtime tensor}
    (self : t) (net : OSNet.t) (seg : list (event tensor)) (l : tensor)
    : Prop :=
  exists w imgs out outputs features pids evs_c loss_c,
    let loss_t :=
      compute_loss (criterion_t self) features pids (forwarded net imgs w) in
    let loss_x :=
      compute_loss (criterion_x self) outputs pids (forwarded net imgs w) in
    OSNet.forward (parameters w) net imgs false = Ok out
    /\ unpack2 out = Ok (outputs, features)
    /\ seg = [Compute_loss (criterion_t self) features pids loss_t;
              Compute_loss (criterion_x self) outputs pids loss_x]
             ++ evs_c ++ [Backward l]
    /\ Ten l = py_add (py_add (py_mul (weight_t self) (Ten loss_t))
                              (py_mul (weight_x self) (Ten loss_x)))
                      (py_mul (if nonzero (weight_c self)
                               then weight_c self else 0) loss_c)
    /\ if nonzero (weight_c self)
       then center_segment self features pids evs_c loss_c
       else evs_c = [] /\ loss_c = Num 0.
End ImageTripletEngine.

(** The height (or width) of the feature maps after the stem (the 7x7
    convolution of stride 2, then the 3x3 max-pooling of stride 2), and
    after a 2x2 average-pooling transition of stride 2. *)
Definition after_stem (h : Z) : Z := ((h - 1) / 2 + 1 - 1) / 2 + 1.
Definition after_pool (h : Z) : Z := (h - 2) / 2 + 1.

(** ** Reading the record of an epoch *)

(** The scalars handed to the writer: the tag and the step of each, in
    order. *)
Definition scalars_written {T : Type} (log : list (event T))
    : list (string * Z) :=
  omap (fun ev => match ev with
                  | Add_scalar tag _ n_iter => Some (tag, n_iter)
                  | _ => None
                  end) log.

(** The batch numbers of the progress lines printed, in order. *)
Definition progress_lines {T : Type} (log : list (event T)) : list Z :=
  omap (fun ev => match ev with
                  | Print_progress _ _ batch _ _ _ _ _ _ _ _ _ => Some batch
                  | _ => None
                  end) log.

(** The scalars written for one batch. *)
Definition scalar_tags : list string :=
  ["Train/Time"; "Train/Data"; "Train/Loss_t"; "Train/Loss_x"; "Train/Acc";
   "Train/Lr"].

(** ** The record of an epoch, batch by batch *)

(** A progress line, or a scalar for the writer. *)
Definition is_report {T : Type} (ev : event T) : bool :=
  match ev with
  | Print_progress _ _ _ _ _ _ _ _ _ _ _ _ | Add_scalar _ _ _ => true
  | _ => false
  end.

(** [evs] is the record of one batch, lines 83-142: the gradients are
    cleared; the network is called and the criteria are evaluated on
    what it returns, and the combination [l] of their values is
    propagated back ([loss_segment]); the optimizer is stepped; then
    come the reports. *)
Definition batch_record {tensor : Type} {runtime : Runtime tensor}
    (self : ImageTripletEngine.t) (net : OSNet.t) (evs : list (event tensor))
    : Prop :=
  exists seg l tail,
    evs = [Zero_grad] ++ seg ++ [Optimizer_step] ++ tail
    /\ ImageTripletEngine.loss_segment self net seg l
    /\ forallb is_report tail = true.

(** [log] is the record of an epoch of [n] batches: at most a line
    about the open layers, the records of the [n] batches in turn, at
    most a step of the scheduler. *)
Definition epoch_record {tensor : Type} {runtime : Runtime tensor}
    (self : ImageTripletEngine.t) (net : OSNet.t) (n : nat)
    (log : list (event tensor)) : Prop :=
  exists evs_open records evs_close,
    log = evs_open ++ concat records ++ evs_close
    /\ length records = n
    /\ Forall (batch_record self net) records
    /\ (forall ev, ev ∈ evs_open ->
        exists layers epoch fixbase_epoch,
          ev = Print_only_train layers epoch fixbase_epoch)
    /\ (forall ev, ev ∈ evs_close -> ev = Scheduler_step).

(** ** A runtime over shapes

    The shape substrate, extended to the engine's collaborators: the
    layers are in training mode, a loss is a scalar (the empty shape),
    the clock counts its readings, a meter keeps the last value, the
    weighted sum and the count.  A loss requires a gradient if a layer
    that has parameters is trainable, or if a center loss, which has
    parameters of its own (the centers), is part of it. *)

Definition requires_grad_somewhere (requires_grad : list (string * bool))
    (criteria : list criterion) : bool :=
  existsb (fun '(name, trainable) =>
             trainable && negb (bool_decide (name ∈ Model.parameterless)))
          requires_grad
  || existsb is_center_loss criteria.

Module ShapeMeter.
Record t : Type := mk { val : Q; sum : Q; count : Z }.

Definition update (m : t) (v : Q) (n : Z) : t :=
  mk v (Qplus (sum m) (Qmult v (inject_Z n))) (count m + n).

Definition avg (m : t) : Q := Qdiv (sum m) (inject_Z (count m)).
End ShapeMeter.

#[export] Instance ShapeRuntime : Runtime (option (list Z)) := {|
  torch_of := Shape;
  world := N;
  batch := option (list Z) * option (list Z);
  meter := ShapeMeter.t;
  parameters _ := true;
  train_mode w := w;
  forwarded _ _ w := w;
  clock w := (inject_Z (Z.of_N w), N.succ w);
  parse_data_for_train data := data;
  cuda x := x;
  unbind x := match x with
              | Some (b :: rest) => replicate (Z.to_nat b) (Some rest)
              | _ => []
              end;
  compute_loss _ _ _ _ := Some [];
  accuracy _ _ := 0%Q;
  item _ := 0%Q;
  size0 x := match x with Some (b :: _) => b | _ => 0 end;
  scale _ x := x;
  add_number x _ := x;
  zero_grad w := w;
  backward requires_grad criteria _ w :=
    if requires_grad_somewhere requires_grad criteria then Ok w
    else Raise (RuntimeError "element 0 of tensors does not require grad and does not have a grad_fn");
  optimizer_step w := w;
  learning_rate _ := 0%Q;
  scheduler_step w := w;
  AverageMeter := ShapeMeter.mk 0 0 0;
  meter_update := ShapeMeter.update;
  meter_val := ShapeMeter.val;
  meter_avg := ShapeMeter.avg
|}.

(** The engine of a run on shapes: the network of
    [pfh_osnet(num_classes=751, loss='triplet')], a loader of two
    batches of four 256x128 images, the default weights. *)
Definition shape_engine (weight_c : Q) : option ImageTripletEngine.t :=
  match pfh_osnet 751 "triplet" false 0%N with
  | Ok (net, _) =>
      Some (ImageTripletEngine.init 751
              [(Some [4; 3; 256; 128], Some [4]);
               (Some [4; 3; 256; 128], Some [4])]
              (Model.of_net net) (3 # 10) 1 1 weight_c None false true)
  | Raise _ => None
  end.

(** The same for any loss mode of the network, loader and scheduler. *)
Definition shape_engine_of (loss : string)
    (loader : list (option (list Z) * option (list Z))) (weight_c : Q)
    (scheduler : option LRScheduler) : option ImageTripletEngine.t :=
  match pfh_osnet 751 loss false 0%N with
  | Ok (net, _) =>
      Some (ImageTripletEngine.init 751 loader (Model.of_net net)
              (3 # 10) 1 1 weight_c scheduler false true)
  | Raise _ => None
  end.

(** ** The order of the calls in an epoch *)

(** What an event of the record is a call of. *)
Inductive call : Type :=
| Call_print_only_train
| Call_print_progress
| Call_zero_grad
| Call_criterion (c : criterion)
| Call_backward
| Call_optimizer_step
| Call_add_scalar (tag : string)
| Call_scheduler_step.

Definition call_of {T : Type} (ev : event T) : call :=
  match ev with
  | Print_only_train _ _ _ => Call_print_only_train
  | Print_progress _ _ _ _ _ _ _ _ _ _ _ _ => Call_print_progress
  | Zero_grad => Call_zero_grad
  | Compute_loss c _ _ _ => Call_criterion c
  | Backward _ => Call_backward
  | Optimizer_step => Call_optimizer_step
  | Add_scalar tag _ _ => Call_add_scalar tag
  | Scheduler_step => Call_scheduler_step
  end.

(** The calls of the batch at index [batch_idx], lines 83-142: the
    gradients are cleared, the criteria evaluated, the loss propagated
    back, the optimizer stepped; then the progress line and the
    scalars. *)
Definition batch_calls {tensor : Type} {runtime : Runtime tensor}
    (self : ImageTripletEngine.t) (writer : option SummaryWriter)
    (print_freq batch_idx : Z) : list call :=
  [Call_zero_grad]
  ++ map Call_criterion (ImageTripletEngine.criteria_per_batch self)
  ++ [Call_backward; Call_optimizer_step]
  ++ (if decide ((batch_idx + 1) mod print_freq = 0)
      then [Call_print_progress] else [])
  ++ match writer with
     | Some _ => map Call_add_scalar scalar_tags
     | None => []
     end.

(** The calls before the first batch and after the last. *)
Definition opening_calls (epoch fixbase_epoch : Z)
    (open_layers : option (list string)) : list call :=
  match open_layers with
  | Some _ =>
      if decide (epoch + 1 <= fixbase_epoch) then [Call_print_only_train]
      else []
  | None => []
  end.

Definition closing_calls (scheduler : option LRScheduler) : list call :=
  match scheduler with
  | Some _ => [Call_scheduler_step]
  | None => []
  end.

(** The center criteria exist whenever [train] reads them. *)
Definition center_criteria_present {data : Type}
    (self : ImageTripletEngine.attributes data) : Prop :=
  ImageTripletEngine.nonzero (ImageTripletEngine.weight_c self) = true ->
  is_Some (ImageTripletEngine.criterion_c self)
  /\ is_Some (ImageTripletEngine.criterion_ca self)
  /\ is_Some (ImageTripletEngine.criterion_cb self)
  /\ is_Some (ImageTripletEngine.criterion_cc self).

(** What the loop of [train] needs of the engine to get through a
    batch: a network in training mode that returns logits and features,
    and the center criteria if they are read. *)
Definition ready {data : Type} (self : ImageTripletEngine.attributes data)
    : Prop :=
  OSNet.training (Model.net (ImageTripletEngine.model self)) = true
  /\ OSNet.loss (Model.net (ImageTripletEngine.model self)) = "triplet"
  /\ center_criteria_present self.

(** ** Loading pretrained weights ([init_pretrained_weights])

    The function fetches a checkpoint (a file of the cache directory,
    downloaded if it is not there) and copies into the model the
    tensors whose names and sizes fit.  What it does with the
    checkpoint once it is read, lines 461-509, is a function of the
    checkpoint and of the state of the model; the file system and the
    network are left out. *)

(* [k.startswith(prefix)] *)
Definition startswith (k prefix : string) : bool := String.prefix prefix k.

(* [k[n:]] *)
Fixpoint slice_from (n : nat) (k : string) : string :=
  match n, k with
  | O, _ => k
  | S n, String _ k => slice_from n k
  | S _, EmptyString => EmptyString
  end.

(* [k.replace(old, new)] for a non-empty [old]: every occurrence, from
   the left, without overlaps.  [skip] characters are still part of the
   occurrence that was just replaced. *)
Fixpoint replace_skipping (skip : nat) (old new k : string) : string :=
  match k with
  | EmptyString => EmptyString
  | String c rest =>
      match skip with
      | S skip => replace_skipping skip old new rest
      | O =>
          if String.prefix old k
          then new +:+ replace_skipping (String.length old - 1) old new rest
          else String c (replace_skipping 0 old new rest)
      end
  end.

(* [k.replace('', new)] puts [new] before every character and at the
   end *)
Fixpoint interleave (new k : string) : string :=
  match k with
  | EmptyString => new
  | String c rest => new +:+ String c (interleave new rest)
  end.

Definition py_replace (old new k : string) : string :=
  match old with
  | EmptyString => interleave new k
  | String _ _ => replace_skipping 0 old new k
  end.

(* Lines 467-487: the name under which a tensor of the checkpoint is
   looked up in the model. *)
Definition rename_key (k : string) : string :=
  let k := if startswith k "module." then slice_from 7 k else k in
  let k := if startswith k "conv2.0" then py_replace "conv2.0" "conv2_0" k else k in
  let k := if startswith k "conv2.1" then py_replace "conv2.1" "conv2_1" k else k in
  let k := if startswith k "conv2.2.0" then py_replace "conv2.2.0" "conv2_2" k else k in
  let k := if startswith k "conv3.0" then py_replace "conv3.0" "conv3_0" k else k in
  let k := if startswith k "conv3.1" then py_replace "conv3.1" "conv3_1" k else k in
  let k := if startswith k "conv3.2.0" then py_replace "conv3.2.0" "conv3_2" k else k in
  let k := if startswith k "conv4.0" then py_replace "conv4.0" "conv4_0" k else k in
  let k := if startswith k "conv4.1" then py_replace "conv4.1" "conv4_1" k else k in
  k.

(** What the function tells the user. *)
Inductive message : Type :=
| Warn_cannot_be_loaded (cached_file : string)
| Print_successfully_loaded (cached_file : string)
| Print_discarded (layers : list string).

Module Pretrained.
Section Pretrained.
(* tensors, and their sizes *)
Context {V : Type} (size : V -> list Z).

(* A dictionary: the keys in the order of their first insertion, each
   with its value. *)
Definition dict : Type := list (string * V).

(* [d[k]], if [k in d] *)
Fixpoint get (d : dict) (k : string) : option V :=
  match d with
  | [] => None
  | (k', v) :: rest => if String.eqb k' k then Some v else get rest k
  end.

(* [d[k] = v] *)
Fixpoint set (d : dict) (k : string) (v : V) : dict :=
  match d with
  | [] => [(k, v)]
  | (k', v') :: rest =>
      if String.eqb k' k then (k', v) :: rest else (k', v') :: set rest k v
  end.

(* [d.update(other)] *)
Definition update (d other : dict) : dict :=
  fold_left (fun d '(k, v) => set d k v) other d.

(* the variables of the loop, lines 463-464 *)
Record layers : Type := mk {
  new_state_dict : dict;
  matched_layers : list string;
  discarded_layers : list string
}.

(* line 489: [k in model_dict and model_dict[k].size() == v.size()] *)
Definition fits (model_dict : dict) (k : string) (v : V) : bool :=
  match get model_dict k with
  | Some v0 => bool_decide (size v0 = size v)
  | None => false
  end.

(* lines 467-493: one tensor of the checkpoint *)
Definition step (model_dict : dict) (acc : layers) (kv : string * V) : layers :=
  let '(k, v) := kv in
  let k := rename_key k in
  if fits model_dict k v
  then mk (set (new_state_dict acc) k v) (matched_layers acc ++ [k])
          (discarded_layers acc)
  else mk (new_state_dict acc) (matched_layers acc)
          (discarded_layers acc ++ [k]).

(* lines 466-493: the loop over [state_dict.items()] *)
Definition load (state_dict model_dict : dict) : layers :=
  fold_left (step model_dict) state_dict (mk [] [] []).

(* Lines 495-509: the state that the model loads, and the messages. *)
Definition init_pretrained_weights (cached_file : string)
    (state_dict model_dict : dict) : dict * list message :=
  let acc := load state_dict model_dict in
  let model_dict := update model_dict (new_state_dict acc) in
  (model_dict,
   match matched_layers acc with
   | [] => [Warn_cannot_be_loaded cached_file]
   | _ :: _ =>
       Print_successfully_loaded cached_file
       :: match discarded_layers acc with
          | [] => []
          | _ :: _ => [Print_discarded (discarded_layers acc)]
          end
   end).
End Pretrained.
End Pretrained.
(** * Properties *)

(** ** Running constructors *)

Lemma bind_Ok {A B} (c : Ctor A) (k : A -> Ctor B) n a n' :
  c n = Ok (a, n') -> bind c k n = k a n'.
Proof. intros E. unfold bind. now rewrite E. Qed.

Lemma bind_Raise {A B} (c : Ctor A) (k : A -> Ctor B) n e :
  c n = Raise e -> bind c k n = Raise e.
Proof. intros E. unfold bind. now rewrite E. Qed.

Lemma py_floordiv_Ok a b : b <> 0 -> py_floordiv a b = Ok (a / b).
Proof. intros Hb. unfold py_floordiv. now rewrite decide_False. Qed.

Lemma py_floordiv_zero a : py_floordiv a 0 = Raise ZeroDivisionError.
Proof. reflexivity. Qed.

(** ** ChannelGate *)

Lemma activation_named_cases name :
  (name = "sigmoid" /\ ChannelGate.activation_named name = Some (Some Sigmoid))
  \/ (name = "relu" /\ ChannelGate.activation_named name = Some (Some ReLU))
  \/ (name = "linear" /\ ChannelGate.activation_named name = Some None)
  \/ (name <> "sigmoid" /\ name <> "relu" /\ name <> "linear"
      /\ ChannelGate.activation_named name = None).
Proof.
  unfold ChannelGate.activation_named.
  destruct (String.eqb_spec name "sigmoid") as [->|H1]; [now left|].
  destruct (String.eqb_spec name "relu") as [->|H2]; [now right; left|].
  destruct (String.eqb_spec name "linear") as [->|H3]; [now right; right; left|].
  now right; right; right.
Qed.

(** What [ChannelGate.__init__] does once the division has succeeded:
    the layers are allocated, then the name of the activation decides. *)
Lemma ChannelGate_init_run in_channels num_gates return_gates name reduction
    layer_norm n :
  reduction <> 0 ->
  exists fc1 norm1 fc2 n',
    ChannelGate.init in_channels num_gates return_gates name reduction layer_norm n
    = match ChannelGate.activation_named name with
      | Some act =>
          Ok (ChannelGate.mk return_gates (AdaptiveAvgPool2d.mk 1) fc1 norm1 fc2 act, n')
      | None => Raise (RuntimeError ("Unknown gate activation: " +:+ name))
      end.
Proof.
  intros Hr. unfold ChannelGate.init, ChannelGate.activation_named.
  unfold bind, lift, ret, raise, nn_Conv2d, nn_LayerNorm, new_parameter.
  rewrite (py_floordiv_Ok _ _ Hr).
  destruct layer_norm; cbn; do 4 eexists;
    (destruct (String.eqb name "sigmoid"); [reflexivity|]);
    (destruct (String.eqb name "relu"); [reflexivity|]);
    (destruct (String.eqb name "linear"); reflexivity).
Qed.

Lemma ChannelGate_init_zero_reduction in_channels num_gates return_gates name
    layer_norm n :
  ChannelGate.init in_channels num_gates return_gates name 0 layer_norm n
  = Raise ZeroDivisionError.
Proof. reflexivity. Qed.

Lemma ChannelGate_forward_activation {tensor : Type} {torch : Torch tensor}
    (sd : state_dict) (g : ChannelGate.t) (x : tensor) :
  ChannelGate.forward sd g x
  = let z := ChannelGate.pre_activation sd g x in
    let gates := match ChannelGate.gate_activation g with
                 | Some Sigmoid => sigmoid z
                 | Some ReLU => relu z
                 | None => z
                 end in
    if ChannelGate.return_gates g then gates else mul x gates.
Proof. reflexivity. Qed.

(** C8.  A [ChannelGate] built with an activation name other than
    ['sigmoid'], ['relu'] and ['linear'] does not come into being: the
    constructor raises (the [RuntimeError] naming the activation, unless
    the division by [reduction] has failed before), so no forward call
    can be the first to notice.  With one of the three names and a
    non-zero [reduction] the constructor returns a gate that holds the
    activation of that name; for ['linear'] it holds none, and
    [forward] uses the values that [fc2] produced as they are. *)
Theorem ChannelGate_activation_checked_at_construction
    (in_channels : Z) (num_gates : option Z) (return_gates : bool)
    (name : string) (reduction : Z) (layer_norm : bool) (n : N) :
  let built :=
    ChannelGate.init in_channels num_gates return_gates name reduction
      layer_norm n in
  (ChannelGate.activation_named name = None -> exists e, built = Raise e)
  /\ (reduction <> 0 -> ChannelGate.activation_named name = None ->
      built = Raise (RuntimeError ("Unknown gate activation: " +:+ name)))
  /\ (reduction <> 0 -> forall act,
      ChannelGate.activation_named name = Some act ->
      exists g n',
        built = Ok (g, n')
        /\ ChannelGate.gate_activation g = act
        /\ ChannelGate.return_gates g = return_gates)
  /\ (reduction <> 0 -> name = "linear" ->
      exists g n',
        built = Ok (g, n')
        /\ forall (tensor : Type) (torch : Torch tensor) (sd : state_dict)
                  (x : tensor),
             ChannelGate.forward sd g x
             = if return_gates then ChannelGate.pre_activation sd g x
               else mul x (ChannelGate.pre_activation sd g x)).
Proof.
  intros built. subst built. repeat split.
  - intros Hname. destruct (decide (reduction = 0)) as [->|Hr].
    + eexists. apply ChannelGate_init_zero_reduction.
    + destruct (ChannelGate_init_run in_channels num_gates return_gates name
                  reduction layer_norm n Hr) as (fc1 & norm1 & fc2 & n' & E).
      rewrite Hname in E. eauto.
  - intros Hr Hname.
    destruct (ChannelGate_init_run in_channels num_gates return_gates name
                reduction layer_norm n Hr) as (fc1 & norm1 & fc2 & n' & E).
    now rewrite Hname in E.
  - intros Hr act Hname.
    destruct (ChannelGate_init_run in_channels num_gates return_gates name
                reduction layer_norm n Hr) as (fc1 & norm1 & fc2 & n' & E).
    rewrite Hname in E. do 2 eexists. split; [exact E|]. split; reflexivity.
  - intros Hr ->.
    destruct (ChannelGate_init_run in_channels num_gates return_gates "linear"
                reduction layer_norm n Hr) as (fc1 & norm1 & fc2 & n' & E).
    cbn in E. do 2 eexists. split; [exact E|].
    intros. now rewrite ChannelGate_forward_activation.
Qed.

Lemma ChannelGate_activation_checked_at_construction_witness :
  (exists g n',
     ChannelGate.init 64 None false "linear" 16 false 0%N = Ok (g, n')
     /\ ChannelGate.gate_activation g = None
     /\ ChannelGate.return_gates g = false)
  /\ ChannelGate.init 64 None false "tanh" 16 false 0%N
     = Raise (RuntimeError "Unknown gate activation: tanh").
Proof.
  split.
  - apply (ChannelGate_activation_checked_at_construction
             64 None false "linear" 16 false 0%N); [lia | reflexivity].
  - apply (ChannelGate_activation_checked_at_construction
             64 None false "tanh" 16 false 0%N); [lia | reflexivity].
Defined.

(** ** OSBlock: construction *)

Lemma bind_inv {A B} (c : Ctor A) (k : A -> Ctor B) n r :
  bind c k n = Ok r -> exists a n1, c n = Ok (a, n1) /\ k a n1 = Ok r.
Proof.
  unfold bind. destruct (c n) as [[a n1]|e]; [eauto | discriminate].
Qed.

Lemma ret_inv {A} (a : A) n r : ret a n = Ok r -> r = (a, n).
Proof. unfold ret. congruence. Qed.

Lemma lift_inv {A} (x : result A) n r :
  lift x n = Ok r -> exists a, x = Ok a /\ r = (a, n).
Proof. unfold lift. destruct x; [|discriminate]. intros [= <-]. eauto. Qed.

Lemma OSBlock_init_total in_channels out_channels IN bottleneck_reduction n :
  bottleneck_reduction <> 0 ->
  exists blk n',
    OSBlock.init in_channels out_channels IN bottleneck_reduction n = Ok (blk, n')
    /\ OSBlock.mid_channels blk = out_channels / bottleneck_reduction.
Proof.
  intros Hb. unfold OSBlock.init. unfold bind at 1, lift at 1.
  rewrite (py_floordiv_Ok _ _ Hb).
  destruct IN, (decide (in_channels <> out_channels)) as [Hd|Hd] eqn:E;
    cbn; rewrite ?E; cbn; do 2 eexists; split; reflexivity.
Qed.

(** C3, as stated, fails: [OSBlock(64, 258)] is built without an error
    although 4 does not divide 258; its [mid_channels] is 64, and
    64 * 4 is not 258. *)
Lemma OSBlock_inexact_division_is_accepted :
  exists blk n',
    OSBlock.init 64 258 false 4 0%N = Ok (blk, n')
    /\ 258 mod 4 <> 0
    /\ OSBlock.mid_channels blk = 64
    /\ OSBlock.mid_channels blk * 4 <> 258.
Proof.
  do 2 eexists. split; [reflexivity|]. repeat split; discriminate.
Qed.

(** C3, amended.  The constructor of [OSBlock] does not check that
    [bottleneck_reduction] divides [out_channels]: [mid_channels] is
    the floor of [out_channels / bottleneck_reduction] in every block
    that it builds, the exact quotient precisely when
    [bottleneck_reduction] divides [out_channels].  It raises for a
    zero [bottleneck_reduction] (the division itself), and it builds
    the block whenever the widths are positive, that is for a positive
    [in_channels] and [0 < bottleneck_reduction <= out_channels]. *)
Theorem OSBlock_mid_channels_floor_division
    (in_channels out_channels : Z) (IN : bool) (bottleneck_reduction : Z)
    (n : N) :
  (bottleneck_reduction = 0 ->
   OSBlock.init in_channels out_channels IN bottleneck_reduction n
   = Raise ZeroDivisionError)
  /\ (0 < in_channels -> 0 < bottleneck_reduction ->
      bottleneck_reduction <= out_channels ->
      exists blk n',
        OSBlock.init in_channels out_channels IN bottleneck_reduction n
        = Ok (blk, n')
        /\ 1 <= OSBlock.mid_channels blk)
  /\ (forall blk n',
        OSBlock.init in_channels out_channels IN bottleneck_reduction n
        = Ok (blk, n') ->
        OSBlock.mid_channels blk = out_channels / bottleneck_reduction
        /\ (OSBlock.mid_channels blk * bottleneck_reduction = out_channels
            <-> (bottleneck_reduction | out_channels))).
Proof.
  split; [|split].
  - intros ->. reflexivity.
  - intros Hin Hbr Hout.
    destruct (OSBlock_init_total in_channels out_channels IN
                bottleneck_reduction n ltac:(lia)) as (blk & n' & E & Hmid).
    exists blk, n'. split; [exact E|].
    rewrite Hmid. Z.div_mod_to_equations. nia.
  - intros blk n' E.
    destruct (decide (bottleneck_reduction = 0)) as [->|Hb];
      [discriminate E|].
    destruct (OSBlock_init_total in_channels out_channels IN
                bottleneck_reduction n Hb) as (blk' & n'' & E' & Hmid).
    rewrite E in E'. injection E' as <- <-.
    split; [exact Hmid|]. rewrite Hmid. split.
    + intros H. exists (out_channels / bottleneck_reduction). lia.
    + intros [z ->]. rewrite Z.div_mul by exact Hb. reflexivity.
Qed.

Lemma OSBlock_mid_channels_floor_division_witness :
  exists blk n',
    OSBlock.init 64 258 false 4 0%N = Ok (blk, n')
    /\ 1 <= OSBlock.mid_channels blk
    /\ OSBlock.mid_channels blk = 258 / 4.
Proof.
  destruct (proj1 (proj2 (OSBlock_mid_channels_floor_division 64 258 false 4
                            0%N)) ltac:(lia) ltac:(lia) ltac:(lia))
    as (blk & n' & E & Hmid).
  exists blk, n'. split; [exact E|]. split; [exact Hmid|].
  exact (proj1 (proj2 (proj2 (OSBlock_mid_channels_floor_division 64 258 false
                                4 0%N)) blk n' E)).
Defined.

(** ** OSBlock: the forward pass *)

Lemma OSBlock_forward_eq {tensor : Type} {torch : Torch tensor}
    (sd : state_dict) (blk : OSBlock.t) (x : tensor) :
  OSBlock.forward sd blk x
  = (relu match OSBlock.IN blk with
          | Some m => instance_norm2d sd m (OSBlock.residual_sum sd blk x)
          | None => OSBlock.residual_sum sd blk x
          end,
     OSBlock.gated_sum sd blk x).
Proof. reflexivity. Qed.

Lemma OSBlock_init_IN in_channels out_channels IN bottleneck_reduction n blk n' :
  OSBlock.init in_channels out_channels IN bottleneck_reduction n = Ok (blk, n') ->
  if IN then exists m, OSBlock.IN blk = Some m
                       /\ InstanceNorm2d.num_features m = out_channels
  else OSBlock.IN blk = None.
Proof.
  intros H. unfold OSBlock.init in H.
  repeat (apply bind_inv in H as (? & ? & ? & H)).
  apply ret_inv in H. injection H as -> ->. cbn.
  match goal with
  | Hif : (if IN then _ else _) _ = Ok _ |- _ => rename Hif into Hin
  end.
  destruct IN.
  - apply bind_inv in Hin as (m & ? & Hm & Hin). apply ret_inv in Hin.
    injection Hin as -> ->. exists m. split; [reflexivity|].
    unfold nn_InstanceNorm2d in Hm.
    repeat (apply bind_inv in Hm as (? & ? & ? & Hm)).
    apply ret_inv in Hm. now injection Hm as -> ->.
  - apply ret_inv in Hin. now injection Hin as -> ->.
Qed.

(** C4, as stated, fails: in [OSBlock(64, 256, IN=True)] the final ReLU
    receives the instance-normalized sum, which is not the residual
    sum that entered the normalization. *)
Lemma OSBlock_relu_receives_normalized_sum :
  exists blk n' m,
    OSBlock.init 64 256 true 4 0%N = Ok (blk, n')
    /\ OSBlock.IN blk = Some m
    /\ fst (OSBlock.forward (torch := Trace) tt blk (Input "x"))
       = TRelu (TInstanceNorm2d m (OSBlock.residual_sum (torch := Trace) tt blk (Input "x")))
    /\ fst (OSBlock.forward (torch := Trace) tt blk (Input "x"))
       <> TRelu (OSBlock.residual_sum (torch := Trace) tt blk (Input "x")).
Proof.
  destruct (OSBlock_init_total 64 256 true 4 0%N ltac:(lia))
    as (blk & n' & E & _).
  destruct (OSBlock_init_IN _ _ _ _ _ _ _ E) as (m & Hm & _).
  exists blk, n', m. split; [exact E|]. split; [exact Hm|].
  rewrite OSBlock_forward_eq, Hm. cbn [fst]. split; [reflexivity|].
  unfold OSBlock.residual_sum. cbn [relu add Trace instance_norm2d].
  intros H. injection H as H. discriminate H.
Qed.

(** C4, amended.  In [OSBlock.forward] the final ReLU is applied after
    the optional instance normalization: to the normalized residual
    sum when the block has one, to the residual sum [x3 + identity]
    itself when it has none, which is the case exactly for blocks built
    with [IN=False].  The second output is [x2], the sum of the gated
    branch outputs that [conv3] projects. *)
Theorem OSBlock_relu_after_optional_instance_norm :
  (forall (tensor : Type) (torch : Torch tensor) (sd : state_dict)
          (blk : OSBlock.t) (x : tensor),
     fst (OSBlock.forward sd blk x)
     = relu match OSBlock.IN blk with
            | Some m => instance_norm2d sd m (OSBlock.residual_sum sd blk x)
            | None => OSBlock.residual_sum sd blk x
            end
     /\ snd (OSBlock.forward sd blk x) = OSBlock.gated_sum sd blk x
     /\ OSBlock.residual_sum sd blk x
        = add (Conv1x1Linear.forward sd (OSBlock.conv3 blk)
                 (snd (OSBlock.forward sd blk x)))
              match OSBlock.downsample blk with
              | Some m => Conv1x1Linear.forward sd m x
              | None => x
              end)
  /\ (forall in_channels out_channels IN bottleneck_reduction n blk n',
        OSBlock.init in_channels out_channels IN bottleneck_reduction n
        = Ok (blk, n') ->
        (IN = false <-> OSBlock.IN blk = None)).
Proof.
  split.
  - intros. rewrite OSBlock_forward_eq. cbn [fst snd]. repeat split.
  - intros * E. apply OSBlock_init_IN in E. destruct IN.
    + destruct E as (m & -> & _). split; discriminate.
    + now split.
Qed.

(** In the trace substrate a gate can be read off the tensor it
    produces. *)
Lemma ChannelGate_trace_inj (g g' : ChannelGate.t) (t : term) :
  ChannelGate.forward (torch := Trace) tt g t
  = ChannelGate.forward (torch := Trace) tt g' t ->
  g = g'.
Proof.
  destruct g as [rg gap fc1 norm1 fc2 act], g' as [rg' gap' fc1' norm1' fc2' act'].
  unfold ChannelGate.forward. cbn.
  destruct rg, rg', act as [[]|], act' as [[]|], norm1, norm1';
    intros H; try discriminate H; injection H; intros; subst; reflexivity.
Qed.

Lemma gated_by_unique (blk : OSBlock.t) (ga gb gc gd : ChannelGate.t) :
  OSBlock.gated_by ga gb gc gd blk ->
  ga = OSBlock.gate blk /\ gb = OSBlock.gate blk
  /\ gc = OSBlock.gate blk /\ gd = OSBlock.gate blk.
Proof.
  intros H. specialize (H term Trace tt (Input "x")).
  rewrite OSBlock_forward_eq in H. cbn [snd] in H.
  unfold OSBlock.gated_sum, OSBlock.fusion, OSBlock.branches in H.
  cbn [add Trace] in H. injection H as Ha Hb Hc Hd.
  apply ChannelGate_trace_inj in Ha, Hb, Hc, Hd. now subst.
Qed.

Lemma one_gate_is_not_independent (g : ChannelGate.t) :
  ~ OSBlock.independent [g; g; g; g].
Proof.
  unfold OSBlock.independent. cbn [map concat].
  unfold ChannelGate.parameters. cbn [app].
  intros H. apply NoDup_cons in H as [H _]. apply H.
  apply elem_of_app. right. apply list_elem_of_here.
Qed.

(** ** Shapes *)

#[local] Arguments shape_window : simpl never.
#[local] Arguments shape_conv2d : simpl never.
#[local] Arguments shape_batch_norm : simpl never.
#[local] Arguments shape_instance_norm : simpl never.
#[local] Arguments shape_broadcast : simpl never.
#[local] Arguments shape_adaptive : simpl never.
#[local] Arguments shape_linear : simpl never.
#[local] Arguments shape_view_rows : simpl never.
#[local] Arguments shape_cat1 : simpl never.
#[local] Arguments broadcast : simpl never.

Lemma window_out_eq n k s p :
  0 < s -> 0 < k -> k <= n + 2 * p ->
  window_out n k s p = Some ((n + 2 * p - k) / s + 1).
Proof. intros. unfold window_out. rewrite decide_True; [reflexivity | lia]. Qed.

Lemma shape_window_eq k s p c_in c_out b c h w :
  match c_in with Some ci => c = ci | None => True end ->
  0 < s -> 0 < k -> k <= h + 2 * p -> k <= w + 2 * p ->
  shape_window k s p c_in c_out (Some [b; c; h; w])
  = Some [b; c_out; (h + 2 * p - k) / s + 1; (w + 2 * p - k) / s + 1].
Proof.
  intros Hc Hs Hk Hh Hw. unfold shape_window.
  rewrite !window_out_eq by assumption.
  destruct c_in as [ci|]; [|reflexivity].
  now rewrite bool_decide_true.
Qed.

(** A convolution without groups wants an output channel; a depthwise
    convolution wants a channel. *)
Lemma conv_weight_ok_plain c_in c_out k s p weight bias :
  1 <= c_out -> conv_weight_ok (Conv2d.mk c_in c_out k s p 1 weight bias) = true.
Proof.
  intros Hc. unfold conv_weight_ok. apply bool_decide_eq_true. cbn.
  rewrite !Z.mod_1_r. lia.
Qed.

Lemma conv_weight_ok_depthwise c k s p weight bias :
  1 <= c -> conv_weight_ok (Conv2d.mk c c k s p c weight bias) = true.
Proof.
  intros Hc. unfold conv_weight_ok. apply bool_decide_eq_true. cbn.
  rewrite Z_mod_same_full. lia.
Qed.

Lemma shape_batch_norm4_eq (training : bool) n b h w :
  (training = true -> 1 < b * h * w) ->
  shape_batch_norm training 4 n (Some [b; n; h; w]) = Some [b; n; h; w].
Proof.
  intros H. unfold shape_batch_norm. rewrite decide_True; [reflexivity|].
  split; [reflexivity|]. split; [reflexivity|].
  intros Ht. specialize (H Ht). cbn. lia.
Qed.

Lemma shape_batch_norm2_eq (training : bool) n b :
  (training = true -> 2 <= b) ->
  shape_batch_norm training 2 n (Some [b; n]) = Some [b; n].
Proof.
  intros H. unfold shape_batch_norm. rewrite decide_True; [reflexivity|].
  split; [reflexivity|]. split; [reflexivity|].
  intros Ht. specialize (H Ht). cbn. lia.
Qed.

Lemma shape_instance_norm_eq n b h w :
  1 < h * w ->
  shape_instance_norm n (Some [b; n; h; w]) = Some [b; n; h; w].
Proof.
  intros H. unfold shape_instance_norm. rewrite decide_True; [reflexivity|].
  split; [reflexivity | lia].
Qed.

Lemma broadcast_refl s : broadcast s s = Some s.
Proof.
  induction s as [|d s IH]; [reflexivity|]. unfold broadcast; fold broadcast.
  rewrite IH. now rewrite decide_True.
Qed.

Lemma broadcast_gate b c h w :
  broadcast [b; c; h; w] [b; c; 1; 1] = Some [b; c; h; w].
Proof.
  unfold broadcast.
  destruct (decide (w = 1)), (decide (h = 1));
    rewrite !decide_True by reflexivity; reflexivity.
Qed.

(** A 1x1 convolution of stride 1 keeps the height and the width; so
    does a 3x3 convolution of stride 1 and padding 1. *)
Lemma conv_1x1_shape (sd : bool) c_in c_out weight bias b h w :
  1 <= c_out -> 1 <= h -> 1 <= w ->
  conv2d (Torch := Shape) sd (Conv2d.mk c_in c_out 1 1 0 1 weight bias)
    (Some [b; c_in; h; w])
  = Some [b; c_out; h; w].
Proof.
  intros Hc Hh Hw. cbn. unfold shape_conv2d.
  rewrite conv_weight_ok_plain by assumption. cbn.
  rewrite shape_window_eq by (cbn; lia).
  repeat f_equal; rewrite Z.div_1_r; lia.
Qed.

Lemma conv_3x3_depthwise_shape (sd : bool) c weight bias b h w :
  1 <= c -> 1 <= h -> 1 <= w ->
  conv2d (Torch := Shape) sd (Conv2d.mk c c 3 1 1 c weight bias)
    (Some [b; c; h; w])
  = Some [b; c; h; w].
Proof.
  intros Hc Hh Hw. cbn. unfold shape_conv2d.
  rewrite conv_weight_ok_depthwise by assumption. cbn.
  rewrite shape_window_eq by (cbn; lia).
  repeat f_equal; rewrite Z.div_1_r; lia.
Qed.

Lemma batch_norm2d_shape (sd : bool) n weight bias b h w :
  (sd = true -> 1 < b * h * w) ->
  batch_norm2d (Torch := Shape) sd (BatchNorm2d.mk n weight bias)
    (Some [b; n; h; w])
  = Some [b; n; h; w].
Proof. apply shape_batch_norm4_eq. Qed.

Lemma Conv1x1_shape (sd : bool) in_channels out_channels n m n' b h w :
  Conv1x1.init in_channels out_channels 1 1 n = Ok (m, n') ->
  1 <= out_channels -> 1 <= h -> 1 <= w ->
  (sd = true -> 1 < b * h * w) ->
  Conv1x1.forward (torch := Shape) sd m (Some [b; in_channels; h; w])
  = Some [b; out_channels; h; w].
Proof.
  intros H Hc Hh Hw Hbn. cbn in H. injection H as <- <-.
  unfold Conv1x1.forward. cbn [Conv1x1.conv Conv1x1.bn].
  rewrite conv_1x1_shape by assumption.
  now rewrite batch_norm2d_shape.
Qed.

Lemma Conv1x1Linear_shape (sd : bool) in_channels out_channels n m n' b h w :
  Conv1x1Linear.init in_channels out_channels 1 n = Ok (m, n') ->
  1 <= out_channels -> 1 <= h -> 1 <= w ->
  (sd = true -> 1 < b * h * w) ->
  Conv1x1Linear.forward (torch := Shape) sd m (Some [b; in_channels; h; w])
  = Some [b; out_channels; h; w].
Proof.
  intros H Hc Hh Hw Hbn. cbn in H. injection H as <- <-.
  unfold Conv1x1Linear.forward. cbn [Conv1x1Linear.conv Conv1x1Linear.bn].
  rewrite conv_1x1_shape by assumption.
  now rewrite batch_norm2d_shape.
Qed.

Lemma LightConv3x3_shape (sd : bool) in_channels out_channels n m n' b h w :
  LightConv3x3.init in_channels out_channels n = Ok (m, n') ->
  1 <= out_channels -> 1 <= h -> 1 <= w ->
  (sd = true -> 1 < b * h * w) ->
  LightConv3x3.forward (torch := Shape) sd m (Some [b; in_channels; h; w])
  = Some [b; out_channels; h; w].
Proof.
  intros H Hc Hh Hw Hbn. cbn in H. injection H as <- <-.
  unfold LightConv3x3.forward.
  cbn [LightConv3x3.conv1 LightConv3x3.conv2 LightConv3x3.bn].
  rewrite conv_1x1_shape, conv_3x3_depthwise_shape by assumption.
  now rewrite batch_norm2d_shape.
Qed.

(** The gate of a block: its hidden layer has [mid / 16] channels, at
    least one if the block is at least 16 channels wide. *)
Lemma ChannelGate_shape (sd : bool) mid n g n' b h w :
  ChannelGate.init mid None false "sigmoid" 16 false n = Ok (g, n') ->
  16 <= mid ->
  ChannelGate.forward (torch := Shape) sd g (Some [b; mid; h; w])
  = Some [b; mid; h; w].
Proof.
  intros H Hmid. cbn in H. injection H as <- <-.
  assert (1 <= mid / 16) by (Z.div_mod_to_equations; lia).
  unfold ChannelGate.forward.
  cbn [ChannelGate.fc1 ChannelGate.fc2 ChannelGate.norm1 ChannelGate.global_avgpool
       ChannelGate.gate_activation ChannelGate.return_gates].
  change (adaptive_avg_pool2d _ (Some [b; mid; h; w])) with (Some [b; mid; 1; 1]).
  rewrite conv_1x1_shape by lia.
  change (relu (Some [b; mid / 16; 1; 1])) with (Some [b; mid / 16; 1; 1]).
  rewrite conv_1x1_shape by lia.
  change (mul (Some [b; mid; h; w]) (sigmoid (Some [b; mid; 1; 1])))
    with (broadcast [b; mid; h; w] [b; mid; 1; 1]).
  apply broadcast_gate.
Qed.

Lemma sequential_shape (sd : bool) c (ms : list LightConv3x3.t) b h w :
  Forall (fun m => exists n n', LightConv3x3.init c c n = Ok (m, n')) ms ->
  1 <= c -> 1 <= h -> 1 <= w ->
  (sd = true -> 1 < b * h * w) ->
  OSBlock.sequential (torch := Shape) sd ms (Some [b; c; h; w])
  = Some [b; c; h; w].
Proof.
  intros Hms Hc Hh Hw Hbn. unfold OSBlock.sequential.
  induction Hms as [|m ms (n & n' & Hm) _ IH]; [reflexivity|].
  cbn [fold_left]. now rewrite (LightConv3x3_shape sd _ _ _ _ _ b h w Hm).
Qed.

(** The outputs of a block built by [OSBlock(in_channels, out_channels)]
    on a batch of [in_channels]-channel maps: [out_channels] channels
    for the first, [mid_channels] for the second (the branches were
    summed, not concatenated), the height and width of the input for
    both.  The block must be wide enough for its gate (16 channels in
    the middle), and the maps large enough for the normalizations: more
    than one position for an instance normalization, more than one
    value per channel for a batch normalization in training mode. *)
Lemma OSBlock_shape (sd : bool) in_channels out_channels IN bottleneck_reduction
    n blk n' b h w :
  OSBlock.init in_channels out_channels IN bottleneck_reduction n = Ok (blk, n') ->
  0 < bottleneck_reduction -> 16 <= out_channels / bottleneck_reduction ->
  1 <= h -> 1 <= w ->
  (IN = true -> 1 < h * w) ->
  (sd = true -> 1 < b * h * w) ->
  OSBlock.forward (torch := Shape) sd blk (Some [b; in_channels; h; w])
  = (Some [b; out_channels; h; w],
     Some [b; out_channels / bottleneck_reduction; h; w]).
Proof.
  intros H Hbr Hmid16 Hh Hw Hinorm Hbn. unfold OSBlock.init in H.
  assert (Hout : 1 <= out_channels) by (Z.div_mod_to_equations; nia).
  apply bind_inv in H as (mid & ? & Hmid & H).
  apply lift_inv in Hmid as (? & Hmid & [= <- <-]).
  unfold py_floordiv in Hmid. destruct (decide _); [discriminate|].
  injection Hmid as <-.
  repeat (apply bind_inv in H as (? & ? & ? & H)).
  apply ret_inv in H. injection H as -> ->.
  match goal with
  | Hif : (if decide _ then _ else _) _ = Ok _ |- _ => rename Hif into Hdown
  end.
  match goal with
  | Hif : (if IN then _ else _) _ = Ok _ |- _ => rename Hif into Hin
  end.
  rewrite OSBlock_forward_eq. unfold OSBlock.residual_sum, OSBlock.gated_sum.
  unfold OSBlock.fusion, OSBlock.branches.
  cbn [OSBlock.conv1 OSBlock.conv2a OSBlock.conv2b OSBlock.conv2c OSBlock.conv2d
       OSBlock.gate OSBlock.conv3 OSBlock.downsample OSBlock.IN].
  erewrite (Conv1x1_shape sd _ _ _ _ _ b h w) by (eassumption || lia).
  erewrite (LightConv3x3_shape sd _ _ _ _ _ b h w) by (eassumption || lia).
  rewrite !(sequential_shape sd (out_channels / bottleneck_reduction))
    by (try assumption; try lia; repeat constructor; eauto).
  erewrite !ChannelGate_shape by eassumption.
  change (add (Some ?s) (Some ?s')) with (broadcast s s').
  rewrite broadcast_refl.
  change (add (Some ?s) (Some ?s')) with (broadcast s s').
  rewrite broadcast_refl.
  change (add (Some ?s) (Some ?s')) with (broadcast s s').
  rewrite broadcast_refl.
  erewrite (Conv1x1Linear_shape sd _ _ _ _ _ b h w) by (eassumption || lia).
  lazymatch type of Hdown with
  | _ = Ok (?down, _) =>
      assert (Hid : match down with
                    | Some m => Conv1x1Linear.forward (torch := Shape) sd m
                                  (Some [b; in_channels; h; w])
                    | None => Some [b; in_channels; h; w]
                    end = Some [b; out_channels; h; w])
  end.
  { destruct (decide (in_channels <> out_channels)) as [Hd|Hd].
    - apply bind_inv in Hdown as (m & ? & Hm & Hdown).
      apply ret_inv in Hdown. injection Hdown as -> ->.
      now apply (Conv1x1Linear_shape sd _ _ _ _ _ b h w Hm).
    - apply ret_inv in Hdown. injection Hdown as -> ->.
      now replace in_channels with out_channels by lia. }
  rewrite Hid.
  change (add (Some ?s) (Some ?s')) with (broadcast s s').
  rewrite broadcast_refl. f_equal.
  destruct IN.
  - apply bind_inv in Hin as (m & ? & Hm & Hin).
    apply ret_inv in Hin. injection Hin as -> ->.
    cbn in Hm. injection Hm as <- <-.
    change (relu ?t) with t. apply shape_instance_norm_eq. now apply Hinorm.
  - apply ret_inv in Hin. now injection Hin as -> ->.
Qed.

(** C2, as stated, fails: for the block [OSBlock(64, 256)] (the first
    block of the network) there are no four gates with independent
    parameters that gate the four branches. *)
Lemma OSBlock_branch_gates_are_not_independent :
  exists blk n',
    OSBlock.init 64 256 false 4 0%N = Ok (blk, n')
    /\ ~ exists ga gb gc gd,
           OSBlock.independent [ga; gb; gc; gd]
           /\ OSBlock.gated_by ga gb gc gd blk.
Proof.
  destruct (OSBlock_init_total 64 256 false 4 0%N ltac:(lia))
    as (blk & n' & E & _).
  exists blk, n'. split; [exact E|].
  intros (ga & gb & gc & gd & Hind & Hgated).
  apply gated_by_unique in Hgated as (-> & -> & -> & ->).
  exact (one_gate_is_not_independent _ Hind).
Qed.

(** C2, amended.  In [OSBlock.forward] the four branch outputs are
    gated by one and the same [ChannelGate], the block's [gate], whose
    parameters the four branches therefore share, and the four gated
    results are summed: a block built by the constructor with positive
    widths, at least 16 channels in the middle (one for the hidden
    layer of the gate), returns as its second output a tensor as wide
    as one branch, in either mode, on maps that are large enough for
    the normalizations of the block. *)
Theorem OSBlock_one_gate_gates_every_branch :
  (forall blk : OSBlock.t,
     OSBlock.gated_by (OSBlock.gate blk) (OSBlock.gate blk)
       (OSBlock.gate blk) (OSBlock.gate blk) blk
     /\ forall ga gb gc gd,
          OSBlock.gated_by ga gb gc gd blk ->
          ga = OSBlock.gate blk /\ gb = OSBlock.gate blk
          /\ gc = OSBlock.gate blk /\ gd = OSBlock.gate blk)
  /\ (forall in_channels out_channels IN bottleneck_reduction n blk n'
             (training : bool) b h w,
        OSBlock.init in_channels out_channels IN bottleneck_reduction n
        = Ok (blk, n') ->
        0 < in_channels -> 0 < bottleneck_reduction ->
        16 <= OSBlock.mid_channels blk ->
        1 <= b -> 1 <= h -> 1 <= w ->
        (IN = true -> 1 < h * w) ->
        (training = true -> 1 < b * h * w) ->
        snd (OSBlock.forward (torch := Shape) training blk
               (Some [b; in_channels; h; w]))
        = Some [b; OSBlock.mid_channels blk; h; w]).
Proof.
  split.
  - intros blk. split.
    + intros tensor torch sd x. now rewrite OSBlock_forward_eq.
    + apply gated_by_unique.
  - intros * E Hin Hbr Hmid Hb Hh Hw Hinorm Hbn.
    destruct (OSBlock_init_total in_channels out_channels IN
                bottleneck_reduction n ltac:(lia)) as (blk' & n'' & E' & Hmid').
    rewrite E in E'. injection E' as <- <-. rewrite Hmid' in Hmid |- *.
    now rewrite (OSBlock_shape training _ _ _ _ _ _ _ b h w E Hbr Hmid Hh Hw
                   Hinorm Hbn).
Qed.

Lemma OSBlock_one_gate_gates_every_branch_witness :
  exists blk n',
    OSBlock.init 64 256 true 4 0%N = Ok (blk, n')
    /\ snd (OSBlock.forward (torch := Shape) true blk (Some [2; 64; 64; 32]))
       = Some [2; OSBlock.mid_channels blk; 64; 32]
    /\ OSBlock.mid_channels blk = 64.
Proof.
  eexists _, _. split; [reflexivity|]. split.
  - refine (proj2 OSBlock_one_gate_gates_every_branch
              64 256 true 4 0%N _ _ true 2 64 32 _ _ _ _ _ _ _ _ _);
      try reflexivity; try lia; try (intros _; lia); vm_compute; discriminate.
  - reflexivity.
Defined.

(** ** OSNet: shapes through the backbone *)

Lemma ConvLayer_7x7_shape (sd : bool) c_in c_out IN n m n' b h w :
  ConvLayer.init c_in c_out 7 2 3 1 IN n = Ok (m, n') ->
  1 <= c_out -> (sd = true -> 1 <= b) -> 3 <= h -> 3 <= w ->
  ConvLayer.forward (torch := Shape) sd m (Some [b; c_in; h; w])
  = Some [b; c_out; (h - 1) / 2 + 1; (w - 1) / 2 + 1].
Proof.
  intros H Hc Hb Hh Hw. unfold ConvLayer.forward.
  assert (2 <= (h - 1) / 2 + 1) by (Z.div_mod_to_equations; lia).
  assert (2 <= (w - 1) / 2 + 1) by (Z.div_mod_to_equations; lia).
  destruct IN; cbn in H; injection H as <- <-;
    cbn [ConvLayer.conv ConvLayer.bn conv2d Shape]; unfold shape_conv2d;
    rewrite conv_weight_ok_plain by assumption;
    cbn [Conv2d.kernel_size Conv2d.stride Conv2d.padding Conv2d.in_channels
         Conv2d.out_channels];
    rewrite shape_window_eq by (cbn; lia);
    replace (h + 2 * 3 - 7) with (h - 1) by lia;
    replace (w + 2 * 3 - 7) with (w - 1) by lia;
    change (relu ?t) with t.
  - apply shape_instance_norm_eq. nia.
  - apply shape_batch_norm4_eq. intros Ht. specialize (Hb Ht). nia.
Qed.

Lemma max_pool_3x3_shape b c h w :
  1 <= h -> 1 <= w ->
  max_pool2d (Torch := Shape) (MaxPool2d.mk 3 2 1) (Some [b; c; h; w])
  = Some [b; c; (h - 1) / 2 + 1; (w - 1) / 2 + 1].
Proof.
  intros Hh Hw. cbn. rewrite shape_window_eq by (cbn; lia).
  now replace (h + 2 * 1 - 3) with (h - 1) by lia;
    replace (w + 2 * 1 - 3) with (w - 1) by lia.
Qed.

Lemma avg_pool_2x2_shape b c h w :
  2 <= h -> 2 <= w ->
  avg_pool2d (Torch := Shape) (AvgPool2d.mk 2 2) (Some [b; c; h; w])
  = Some [b; c; (h - 2) / 2 + 1; (w - 2) / 2 + 1].
Proof.
  intros Hh Hw. cbn. rewrite shape_window_eq by (cbn; lia).
  now replace (h + 2 * 0 - 2) with (h - 2) by lia;
    replace (w + 2 * 0 - 2) with (w - 2) by lia.
Qed.

Lemma after_stem_bounds h : 13 <= h -> 4 <= after_stem h.
Proof. unfold after_stem. intros. Z.div_mod_to_equations. lia. Qed.

Lemma after_pool_bounds h k : 2 * k <= h -> 1 <= k -> k <= after_pool h.
Proof. unfold after_pool. intros. Z.div_mod_to_equations. lia. Qed.

(** The last feature maps have more than one row from 29 rows of
    pixels on, and one row from 13 to 28. *)
Lemma last_map_bounds h :
  29 <= h -> 2 <= after_pool (after_pool (after_stem h)).
Proof. unfold after_pool, after_stem. intros. Z.div_mod_to_equations. lia. Qed.

Lemma last_map_one h :
  13 <= h <= 28 -> after_pool (after_pool (after_stem h)) = 1.
Proof. unfold after_pool, after_stem. intros. Z.div_mod_to_equations. lia. Qed.

Lemma py_index_inv {A} (l : list A) i n r :
  lift (py_index l i) n = Ok r -> exists a, l !! i = Some a /\ r = (a, n).
Proof.
  unfold lift, py_index. destruct (l !! i); [|discriminate].
  intros [= <-]. eauto.
Qed.

Lemma adaptive_pool_rows_shape b c h w :
  1 <= b -> 1 <= c ->
  view_rows (Torch := Shape)
    (adaptive_avg_pool2d (Torch := Shape) (AdaptiveAvgPool2d.mk 1)
       (Some [b; c; h; w]))
  = Some [b; c].
Proof.
  intros Hb Hc. cbn. unfold shape_view_rows, shape_adaptive. cbn.
  rewrite decide_True by (repeat constructor; lia).
  f_equal. f_equal. f_equal. lia.
Qed.

(** The feature maps of a network whose stem is 64 channels wide and
    whose trunk ends 512 channels wide, in the mode [sd], on a batch of
    [b] images of [h] by [w] pixels.  The last maps must be large
    enough for the normalizations applied to them. *)
Ltac shape_side :=
  first [assumption | lia | (intros; lia) | (vm_compute; discriminate)].

Lemma OSNet_featuremaps_shape (sd : bool) {B L : Type} num_classes
    (blocks : list B) (layers : list L) channels feature_dim loss IN n net n'
    b h w :
  OSNet.init num_classes blocks layers channels feature_dim loss IN n
  = Ok (net, n') ->
  channels !! 0%nat = Some 64 -> channels !! 3%nat = Some 512 ->
  (sd = true -> 1 <= b) -> 13 <= h -> 13 <= w ->
  (IN = true ->
   1 < after_pool (after_pool (after_stem h))
       * after_pool (after_pool (after_stem w))) ->
  (sd = true ->
   1 < b * after_pool (after_pool (after_stem h))
       * after_pool (after_pool (after_stem w))) ->
  OSNet.featuremaps (torch := Shape) sd net (Some [b; 3; h; w])
  = (Some [b; 512; after_pool (after_pool (after_stem h));
              after_pool (after_pool (after_stem w))],
     Some [b; 64; after_stem h; after_stem w],
     Some [b; 96; after_pool (after_stem h); after_pool (after_stem w)],
     Some [b; 128; after_pool (after_pool (after_stem h));
              after_pool (after_pool (after_stem w))]).
Proof.
  intros H H0 H3 Hb Hh Hw Hinorm Hbn. unfold OSNet.init in H.
  apply bind_inv in H as (? & ? & _ & H).
  apply bind_inv in H as (? & ? & _ & H).
  apply bind_inv in H as (c0 & ? & Hc0 & H).
  apply py_index_inv in Hc0 as (? & Hc0 & [= <- <-]).
  rewrite H0 in Hc0. injection Hc0 as <-.
  apply bind_inv in H as (conv1 & ? & Hconv1 & H).
  apply bind_inv in H as (conv2_0 & ? & Hconv2_0 & H).
  apply bind_inv in H as (conv2_1 & ? & Hconv2_1 & H).
  apply bind_inv in H as (conv2_2 & ? & Hconv2_2 & H).
  apply bind_inv in H as (conv3_0 & ? & Hconv3_0 & H).
  apply bind_inv in H as (conv3_1 & ? & Hconv3_1 & H).
  apply bind_inv in H as (conv3_2 & ? & Hconv3_2 & H).
  apply bind_inv in H as (conv4_0 & ? & Hconv4_0 & H).
  apply bind_inv in H as (conv4_1 & ? & Hconv4_1 & H).
  apply bind_inv in H as (conv_a & ? & Hconv_a & H).
  apply bind_inv in H as (conv_b & ? & Hconv_b & H).
  apply bind_inv in H as (conv_c & ? & Hconv_c & H).
  apply bind_inv in H as (c3 & ? & Hc3 & H).
  apply py_index_inv in Hc3 as (? & Hc3 & [= <- <-]).
  rewrite H3 in Hc3. injection Hc3 as <-.
  apply bind_inv in H as (c3' & ? & Hc3 & H).
  apply py_index_inv in Hc3 as (? & Hc3 & [= <- <-]).
  rewrite H3 in Hc3. injection Hc3 as <-.
  apply bind_inv in H as (conv5 & ? & Hconv5 & H).
  repeat (apply bind_inv in H as (? & ? & _ & H)).
  apply ret_inv in H. injection H as -> ->.
  pose proof (after_stem_bounds h Hh) as Hh2.
  pose proof (after_stem_bounds w Hw) as Hw2.
  pose proof (after_pool_bounds (after_stem h) 2 ltac:(lia) ltac:(lia)) as Hh3.
  pose proof (after_pool_bounds (after_stem w) 2 ltac:(lia) ltac:(lia)) as Hw3.
  pose proof (after_pool_bounds (after_pool (after_stem h)) 1 ltac:(lia) ltac:(lia)) as Hh4.
  pose proof (after_pool_bounds (after_pool (after_stem w)) 1 ltac:(lia) ltac:(lia)) as Hw4.
  set (h2 := after_stem h) in *. set (w2 := after_stem w) in *.
  set (h3 := after_pool h2) in *. set (w3 := after_pool w2) in *.
  set (h4 := after_pool h3) in *. set (w4 := after_pool w3) in *.
  assert (Hs2 : 1 < h2 * w2) by nia.
  assert (Hs3 : 1 < h3 * w3) by nia.
  assert (Hb2 : sd = true -> 1 < b * h2 * w2)
    by (intros Ht; specialize (Hb Ht); nia).
  assert (Hb3 : sd = true -> 1 < b * h3 * w3)
    by (intros Ht; specialize (Hb Ht); nia).
  unfold OSNet.featuremaps.
  cbn [OSNet.conv1 OSNet.maxpool OSNet.conv2_0 OSNet.conv2_1 OSNet.conv2_2
       OSNet.conv2_3 OSNet.conv3_0 OSNet.conv3_1 OSNet.conv3_2 OSNet.conv3_3
       OSNet.conv4_0 OSNet.conv4_1 OSNet.conv_a OSNet.conv_b OSNet.conv_c
       OSNet.conv5].
  rewrite (ConvLayer_7x7_shape sd _ _ _ _ _ _ b h w Hconv1) by shape_side.
  rewrite max_pool_3x3_shape by (Z.div_mod_to_equations; lia).
  fold (after_stem h). fold (after_stem w). fold h2. fold w2.
  rewrite (OSBlock_shape sd _ _ _ _ _ _ _ b h2 w2 Hconv2_0)
    by shape_side.
  rewrite (OSBlock_shape sd _ _ _ _ _ _ _ b h2 w2 Hconv2_1)
    by shape_side.
  rewrite (Conv1x1_shape sd _ _ _ _ _ b h2 w2 Hconv2_2) by shape_side.
  rewrite avg_pool_2x2_shape by lia.
  fold (after_pool h2). fold (after_pool w2). fold h3. fold w3.
  rewrite (OSBlock_shape sd _ _ _ _ _ _ _ b h3 w3 Hconv3_0)
    by shape_side.
  rewrite (OSBlock_shape sd _ _ _ _ _ _ _ b h3 w3 Hconv3_1)
    by shape_side.
  rewrite (Conv1x1_shape sd _ _ _ _ _ b h3 w3 Hconv3_2) by shape_side.
  rewrite avg_pool_2x2_shape by lia.
  fold (after_pool h3). fold (after_pool w3). fold h4. fold w4.
  rewrite (OSBlock_shape sd _ _ _ _ _ _ _ b h4 w4 Hconv4_0)
    by shape_side.
  rewrite (OSBlock_shape sd _ _ _ _ _ _ _ b h4 w4 Hconv4_1)
    by shape_side.
  change (256 / 4) with 64. change (384 / 4) with 96. change (512 / 4) with 128.
  rewrite (Conv1x1_shape sd _ _ _ _ _ b h2 w2 Hconv_a) by shape_side.
  rewrite (Conv1x1_shape sd _ _ _ _ _ b h3 w3 Hconv_b) by shape_side.
  rewrite (Conv1x1_shape sd _ _ _ _ _ b h4 w4 Hconv_c) by shape_side.
  rewrite (Conv1x1_shape sd _ _ _ _ _ b h4 w4 Hconv5) by shape_side.
  reflexivity.
Qed.

(** ** OSNet: the forward pass *)

Lemma OSNet_forward_eval {tensor : Type} {torch : Torch tensor}
    (sd : state_dict) (net : OSNet.t) (x : tensor) :
  OSNet.training net = false ->
  OSNet.forward sd net x false
  = let '(v, va, vb, vc) := OSNet.batch_normalized sd net x in
    Ok (Descriptor (cat [normalize 2 1 v; normalize 2 1 va;
                         normalize 2 1 vb; normalize 2 1 vc] 1)).
Proof.
  intros Ht. unfold OSNet.forward, OSNet.batch_normalized, OSNet.pooled.
  destruct (OSNet.featuremaps sd net x) as [[[f a] b] c].
  now rewrite Ht.
Qed.

Lemma OSNet_init_heads {B L : Type} num_classes (blocks : list B)
    (layers : list L) channels feature_dim loss IN n net n' :
  OSNet.init num_classes blocks layers channels feature_dim loss IN n
  = Ok (net, n') ->
  OSNet.training net = true
  /\ OSNet.loss net = loss
  /\ OSNet.global_avgpool net = AdaptiveAvgPool2d.mk 1
  /\ BatchNorm1d.num_features (OSNet.bn net) = 512
  /\ BatchNorm1d.num_features (OSNet.bn_a net) = 64
  /\ BatchNorm1d.num_features (OSNet.bn_b net) = 96
  /\ BatchNorm1d.num_features (OSNet.bn_c net) = 128
  /\ (Linear.in_features (OSNet.classifier net) = 512
      /\ Linear.out_features (OSNet.classifier net) = num_classes)
  /\ (Linear.in_features (OSNet.classifier_a net) = 64
      /\ Linear.out_features (OSNet.classifier_a net) = num_classes)
  /\ (Linear.in_features (OSNet.classifier_b net) = 96
      /\ Linear.out_features (OSNet.classifier_b net) = num_classes)
  /\ (Linear.in_features (OSNet.classifier_c net) = 128
      /\ Linear.out_features (OSNet.classifier_c net) = num_classes).
Proof.
  intros H. unfold OSNet.init in H.
  repeat (apply bind_inv in H as (? & ? & ? & H)).
  apply ret_inv in H. injection H as -> ->.
  repeat match goal with
         | Hc : nn_Linear _ _ _ = Ok _ |- _ => cbn in Hc; injection Hc as <- <-
         | Hc : nn_BatchNorm1d _ _ = Ok _ |- _ => cbn in Hc; injection Hc as <- <-
         end.
  cbn. repeat split.
Qed.

Lemma OSNet_featuremaps_train {tensor : Type} {torch : Torch tensor}
    (sd : state_dict) (mode : bool) (net : OSNet.t) (x : tensor) :
  OSNet.featuremaps sd (OSNet.train mode net) x = OSNet.featuremaps sd net x.
Proof.
  unfold OSNet.featuremaps, OSNet.train.
  cbn [OSNet.conv1 OSNet.maxpool OSNet.conv2_0 OSNet.conv2_1 OSNet.conv2_2
       OSNet.conv2_3 OSNet.conv3_0 OSNet.conv3_1 OSNet.conv3_2 OSNet.conv3_3
       OSNet.conv4_0 OSNet.conv4_1 OSNet.conv_a OSNet.conv_b OSNet.conv_c
       OSNet.conv5].
  reflexivity.
Qed.

Lemma OSNet_pooled_train {tensor : Type} {torch : Torch tensor}
    (sd : state_dict) (mode : bool) (net : OSNet.t) (x : tensor) :
  OSNet.pooled sd (OSNet.train mode net) x = OSNet.pooled sd net x
  /\ OSNet.batch_normalized sd (OSNet.train mode net) x
     = OSNet.batch_normalized sd net x.
Proof.
  assert (Hp : OSNet.pooled sd (OSNet.train mode net) x = OSNet.pooled sd net x).
  { unfold OSNet.pooled. rewrite OSNet_featuremaps_train.
    unfold OSNet.train. cbn [OSNet.global_avgpool]. reflexivity. }
  split; [exact Hp|].
  unfold OSNet.batch_normalized. rewrite Hp.
  unfold OSNet.train. cbn [OSNet.bn OSNet.bn_a OSNet.bn_b OSNet.bn_c].
  reflexivity.
Qed.

(** The last maps are large enough for an instance normalization if
    the images have at least 29 rows or 29 columns of pixels. *)
Lemma last_maps_large h w :
  13 <= h -> 13 <= w -> 29 <= h \/ 29 <= w ->
  1 < after_pool (after_pool (after_stem h))
      * after_pool (after_pool (after_stem w)).
Proof.
  intros Hh Hw Hl.
  pose proof (after_stem_bounds h Hh) as Hh2.
  pose proof (after_stem_bounds w Hw) as Hw2.
  pose proof (after_pool_bounds (after_stem h) 2 ltac:(lia) ltac:(lia)) as Hh3.
  pose proof (after_pool_bounds (after_stem w) 2 ltac:(lia) ltac:(lia)) as Hw3.
  pose proof (after_pool_bounds (after_pool (after_stem h)) 1 ltac:(lia) ltac:(lia)) as Hh4.
  pose proof (after_pool_bounds (after_pool (after_stem w)) 1 ltac:(lia) ltac:(lia)) as Hw4.
  destruct Hl as [Hl|Hl]; apply last_map_bounds in Hl; nia.
Qed.

Lemma last_maps_positive h w :
  13 <= h -> 13 <= w ->
  1 <= after_pool (after_pool (after_stem h))
       * after_pool (after_pool (after_stem w)).
Proof.
  intros Hh Hw.
  pose proof (after_stem_bounds h Hh) as Hh2.
  pose proof (after_stem_bounds w Hw) as Hw2.
  pose proof (after_pool_bounds (after_stem h) 2 ltac:(lia) ltac:(lia)) as Hh3.
  pose proof (after_pool_bounds (after_stem w) 2 ltac:(lia) ltac:(lia)) as Hw3.
  pose proof (after_pool_bounds (after_pool (after_stem h)) 1 ltac:(lia) ltac:(lia)) as Hh4.
  pose proof (after_pool_bounds (after_pool (after_stem w)) 1 ltac:(lia) ltac:(lia)) as Hw4.
  nia.
Qed.

(** The four pooled vectors, before and after their batch
    normalizations.  In training mode a batch normalization of vectors
    wants a batch of two at least. *)
Lemma OSNet_pooled_shape (sd : bool) {B L : Type} num_classes
    (blocks : list B) (layers : list L) channels feature_dim loss IN n net n'
    b h w :
  OSNet.init num_classes blocks layers channels feature_dim loss IN n
  = Ok (net, n') ->
  channels !! 0%nat = Some 64 -> channels !! 3%nat = Some 512 ->
  1 <= b -> 13 <= h -> 13 <= w ->
  (IN = true -> 29 <= h \/ 29 <= w) ->
  (sd = true -> 2 <= b) ->
  OSNet.pooled (torch := Shape) sd net (Some [b; 3; h; w])
  = (Some [b; 512], Some [b; 64], Some [b; 96], Some [b; 128])
  /\ OSNet.batch_normalized (torch := Shape) sd net (Some [b; 3; h; w])
     = (Some [b; 512], Some [b; 64], Some [b; 96], Some [b; 128]).
Proof.
  intros H H0 H3 Hb Hh Hw Hinorm Hbn.
  assert (Hp : OSNet.pooled (torch := Shape) sd net (Some [b; 3; h; w])
               = (Some [b; 512], Some [b; 64], Some [b; 96], Some [b; 128])).
  { unfold OSNet.pooled.
    rewrite (OSNet_featuremaps_shape sd _ _ _ _ _ _ _ _ _ _ b h w H H0 H3
               (fun _ => Hb) Hh Hw).
    - destruct (OSNet_init_heads _ _ _ _ _ _ _ _ _ _ H) as (_ & _ & -> & _).
      now rewrite !adaptive_pool_rows_shape by lia.
    - intros Hi. apply last_maps_large; auto.
    - intros Ht. specialize (Hbn Ht).
      pose proof (last_maps_positive h w Hh Hw). nia. }
  split; [exact Hp|].
  unfold OSNet.batch_normalized. rewrite Hp.
  destruct (OSNet_init_heads _ _ _ _ _ _ _ _ _ _ H)
    as (_ & _ & _ & Hbn1 & Hbn_a & Hbn_b & Hbn_c & _).
  cbn [batch_norm1d Shape]. rewrite Hbn1, Hbn_a, Hbn_b, Hbn_c.
  now rewrite !shape_batch_norm2_eq.
Qed.

Lemma shape_cat1_descriptor b :
  cat (Torch := Shape)
    [Some [b; 512]; Some [b; 64]; Some [b; 96]; Some [b; 128]] 1
  = Some [b; 800].
Proof.
  cbn. unfold shape_cat1. now rewrite !decide_True.
Qed.

Lemma pfh_osnet_total num_classes loss IN n :
  exists net n', pfh_osnet num_classes loss IN n = Ok (net, n').
Proof. destruct IN; eexists _, _; lazy -[N.succ]; reflexivity. Qed.

Lemma pfh_osnet_descriptor_shape num_classes loss IN n net n' b h w :
  pfh_osnet num_classes loss IN n = Ok (net, n') ->
  1 <= b -> 13 <= h -> 13 <= w ->
  (IN = true -> 29 <= h \/ 29 <= w) ->
  OSNet.forward (torch := Shape) false (OSNet.eval net) (Some [b; 3; h; w]) false
  = Ok (Descriptor (Some [b; 800])).
Proof.
  intros E Hb Hh Hw Hinorm. rewrite OSNet_forward_eval by reflexivity.
  unfold OSNet.eval. rewrite (proj2 (OSNet_pooled_train _ _ _ _)).
  unfold pfh_osnet in E.
  rewrite (proj2 (OSNet_pooled_shape false _ _ _ _ _ _ _ _ _ _ b h w E
                    eq_refl eq_refl Hb Hh Hw Hinorm ltac:(discriminate))).
  change (normalize (Torch := Shape) 2 1 ?t) with t.
  now rewrite shape_cat1_descriptor.
Qed.

(** C1, as stated, fails: the descriptor that the network of
    [pfh_osnet] returns in evaluation mode for two 256x128 images has
    800 values per image, not 832. *)
Lemma descriptor_is_not_832_wide :
  exists net n',
    pfh_osnet 751 "triplet" false 0%N = Ok (net, n')
    /\ OSNet.forward (torch := Shape) false (OSNet.eval net)
         (Some [2; 3; 256; 128]) false
       = Ok (Descriptor (Some [2; 800]))
    /\ OSNet.forward (torch := Shape) false (OSNet.eval net)
         (Some [2; 3; 256; 128]) false
       <> Ok (Descriptor (Some [2; 832])).
Proof.
  destruct (pfh_osnet_total 751 "triplet" false 0%N) as (net & n' & E).
  exists net, n'. split; [exact E|].
  rewrite (pfh_osnet_descriptor_shape _ _ _ _ _ _ 2 256 128 E)
    by (lia || discriminate).
  split; [reflexivity | discriminate].
Qed.

(** C1, amended.  In evaluation mode [OSNet.forward] L2-normalizes each
    of the four pooled, batch-normalized vectors and returns their
    concatenation along the feature axis, and nothing else.  For the
    network of [pfh_osnet] the four vectors are 512, 64, 96 and 128
    wide, so the descriptor has 800 values per image: for every positive
    number of classes, every batch of at least one image of at least 13x13
    pixels, and at least 29 rows or columns of pixels if the network
    was built with [IN=True] (an instance normalization wants more than
    one position in a map). *)
Theorem OSNet_eval_descriptor :
  (forall (tensor : Type) (torch : Torch tensor) (sd : state_dict)
          (net : OSNet.t) (x : tensor),
     OSNet.training net = false ->
     OSNet.forward sd net x false
     = let '(v, va, vb, vc) := OSNet.batch_normalized sd net x in
       Ok (Descriptor (cat [normalize 2 1 v; normalize 2 1 va;
                            normalize 2 1 vb; normalize 2 1 vc] 1)))
  /\ (forall num_classes loss IN n net n' b h w,
        pfh_osnet num_classes loss IN n = Ok (net, n') ->
        1 <= num_classes ->
        1 <= b -> 13 <= h -> 13 <= w ->
        (IN = true -> 29 <= h \/ 29 <= w) ->
        OSNet.batch_normalized (torch := Shape) false (OSNet.eval net)
          (Some [b; 3; h; w])
        = (Some [b; 512], Some [b; 64], Some [b; 96], Some [b; 128])
        /\ OSNet.forward (torch := Shape) false (OSNet.eval net)
             (Some [b; 3; h; w]) false
           = Ok (Descriptor (Some [b; 800]))).
Proof.
  split.
  - intros. now apply OSNet_forward_eval.
  - intros * E _ Hb Hh Hw Hinorm. split.
    + unfold OSNet.eval. rewrite (proj2 (OSNet_pooled_train _ _ _ _)).
      unfold pfh_osnet in E.
      exact (proj2 (OSNet_pooled_shape false _ _ _ _ _ _ _ _ _ _ b h w E
                      eq_refl eq_refl Hb Hh Hw Hinorm ltac:(discriminate))).
    + now apply (pfh_osnet_descriptor_shape _ _ _ _ _ _ b h w E).
Qed.

Lemma OSNet_eval_descriptor_witness :
  exists net n',
    pfh_osnet 751 "triplet" true 0%N = Ok (net, n')
    /\ OSNet.forward (torch := Shape) false (OSNet.eval net)
         (Some [2; 3; 256; 128]) false
       = Ok (Descriptor (Some [2; 800])).
Proof.
  destruct (pfh_osnet_total 751 "triplet" true 0%N) as (net & n' & E).
  exists net, n'. split; [exact E|].
  apply (proj2 OSNet_eval_descriptor 751 "triplet" true 0%N net n'
           2 256 128 E); lia.
Defined.

(** ** OSNet: what the constructor reads *)

Lemma OSNet_init_reads {B1 L1 B2 L2 : Type} num_classes
    (blocks1 : list B1) (layers1 : list L1) (channels1 : list Z)
    (blocks2 : list B2) (layers2 : list L2) (channels2 : list Z)
    feature_dim loss IN n :
  Z.of_nat (length blocks1) = Z.of_nat (length layers1) ->
  Z.of_nat (length blocks1) = Z.of_nat (length channels1) - 1 ->
  Z.of_nat (length blocks2) = Z.of_nat (length layers2) ->
  Z.of_nat (length blocks2) = Z.of_nat (length channels2) - 1 ->
  channels1 !! 0%nat = channels2 !! 0%nat ->
  channels1 !! 3%nat = channels2 !! 3%nat ->
  OSNet.init num_classes blocks1 layers1 channels1 feature_dim loss IN n
  = OSNet.init num_classes blocks2 layers2 channels2 feature_dim loss IN n.
Proof.
  intros Hl1 Hc1 Hl2 Hc2 H0 H3. unfold OSNet.init, py_index.
  rewrite !bool_decide_true by assumption. now rewrite H0, H3.
Qed.

Lemma OSNet_init_widths {B L : Type} num_classes (blocks : list B)
    (layers : list L) channels feature_dim loss IN n net n' :
  OSNet.init num_classes blocks layers channels feature_dim loss IN n
  = Ok (net, n') ->
  OSBlock.mid_channels (OSNet.conv2_1 net) = 64
  /\ OSBlock.mid_channels (OSNet.conv3_1 net) = 96
  /\ OSBlock.mid_channels (OSNet.conv4_1 net) = 128
  /\ Conv2d.in_channels (Conv1x1.conv (OSNet.conv_a net)) = 64
  /\ Conv2d.in_channels (Conv1x1.conv (OSNet.conv_b net)) = 96
  /\ Conv2d.in_channels (Conv1x1.conv (OSNet.conv_c net)) = 128.
Proof.
  intros H. unfold OSNet.init in H.
  repeat (apply bind_inv in H as (? & ? & ? & H)).
  apply ret_inv in H. injection H as -> ->.
  cbn [OSNet.conv2_1 OSNet.conv3_1 OSNet.conv4_1
       OSNet.conv_a OSNet.conv_b OSNet.conv_c].
  repeat match goal with
         | Hc : OSBlock.init ?i ?o _ 4 ?m = Ok (?blk, _) |- _ =>
             let Hm := fresh "Hm" in
             destruct (OSBlock_init_total i o IN 4 m ltac:(lia))
               as (? & ? & E' & Hm);
             rewrite Hc in E'; injection E' as <- <-; clear Hc
         | Hc : Conv1x1.init _ _ _ _ _ = Ok _ |- _ =>
             cbn in Hc; injection Hc as <- <-
         end.
  repeat split; try assumption; reflexivity.
Qed.

Lemma OSNet_init_total {B L : Type} num_classes (blocks : list B)
    (layers : list L) channels feature_dim loss IN n c0 c3 :
  Z.of_nat (length blocks) = Z.of_nat (length layers) ->
  Z.of_nat (length blocks) = Z.of_nat (length channels) - 1 ->
  channels !! 0%nat = Some c0 -> channels !! 3%nat = Some c3 ->
  exists net n',
    OSNet.init num_classes blocks layers channels feature_dim loss IN n
    = Ok (net, n').
Proof.
  intros Hl Hc H0 H3. unfold OSNet.init, py_index.
  rewrite !bool_decide_true by assumption. rewrite H0, H3.
  destruct IN; eexists _, _; lazy -[N.succ]; reflexivity.
Qed.

(** C10.  Two constructions of [OSNet] whose arguments [blocks],
    [layers], [channels] pass the two length assertions and agree on
    [channels[0]] and [channels[3]] (the other arguments and the
    allocation state being the same) build the same network, or fail
    alike; the two networks compute the same function.  Nothing else of
    the three arguments is read: the auxiliary widths are 64, 96 and
    128 in every network the constructor builds. *)
Theorem OSNet_construction_noninterference {B1 L1 B2 L2 : Type}
    (num_classes : Z)
    (blocks1 : list B1) (layers1 : list L1) (channels1 : list Z)
    (blocks2 : list B2) (layers2 : list L2) (channels2 : list Z)
    (feature_dim : Z) (loss : string) (IN : bool) (n : N) :
  Z.of_nat (length blocks1) = Z.of_nat (length layers1) ->
  Z.of_nat (length blocks1) = Z.of_nat (length channels1) - 1 ->
  Z.of_nat (length blocks2) = Z.of_nat (length layers2) ->
  Z.of_nat (length blocks2) = Z.of_nat (length channels2) - 1 ->
  channels1 !! 0%nat = channels2 !! 0%nat ->
  channels1 !! 3%nat = channels2 !! 3%nat ->
  let built1 :=
    OSNet.init num_classes blocks1 layers1 channels1 feature_dim loss IN n in
  let built2 :=
    OSNet.init num_classes blocks2 layers2 channels2 feature_dim loss IN n in
  built1 = built2
  /\ (is_Some (channels1 !! 3%nat) -> exists net n', built1 = Ok (net, n'))
  /\ (forall net1 n1 net2 n2,
        built1 = Ok (net1, n1) -> built2 = Ok (net2, n2) ->
        net1 = net2
        /\ forall (tensor : Type) (torch : Torch tensor) (sd : state_dict)
                  (x : tensor) (return_featuremaps : bool),
             OSNet.forward sd net1 x return_featuremaps
             = OSNet.forward sd net2 x return_featuremaps)
  /\ (forall net n',
        built1 = Ok (net, n') ->
        OSBlock.mid_channels (OSNet.conv2_1 net) = 64
        /\ OSBlock.mid_channels (OSNet.conv3_1 net) = 96
        /\ OSBlock.mid_channels (OSNet.conv4_1 net) = 128).
Proof.
  intros Hl1 Hc1 Hl2 Hc2 H0 H3 built1 built2.
  assert (E : built1 = built2) by now apply OSNet_init_reads.
  split; [exact E|]. split; [|split].
  - intros [c3 Hc3].
    destruct channels1 as [|c0 rest]; [discriminate Hc3|].
    now apply (OSNet_init_total _ _ _ _ _ _ _ _ c0 c3).
  - intros net1 n1 net2 n2 E1 E2. rewrite E, E2 in E1.
    injection E1 as <- <-. now split.
  - intros net n' E1. subst built1.
    destruct (OSNet_init_widths _ _ _ _ _ _ _ _ _ _ E1) as (? & ? & ? & _).
    now repeat split.
Qed.

Lemma OSNet_construction_noninterference_witness :
  OSNet.init 751 [OSBlock_class; OSBlock_class; OSBlock_class] [2; 2; 2]
    [64; 256; 384; 512] 512 "triplet" false 0%N
  = OSNet.init 751 [tt; tt; tt; tt] ["a"; "b"; "c"; "d"]
      [64; 1; 2; 512; 7] 512 "triplet" false 0%N.
Proof.
  apply (OSNet_construction_noninterference 751
           [OSBlock_class; OSBlock_class; OSBlock_class] [2; 2; 2]
           [64; 256; 384; 512]
           [tt; tt; tt; tt] ["a"; "b"; "c"; "d"] [64; 1; 2; 512; 7]
           512 "triplet" false 0%N); reflexivity.
Defined.

(** ** The training engine: one batch *)

Lemma result_bind_inv {A B} (r : result A) (k : A -> result B) b :
  result_bind r k = Ok b -> exists a, r = Ok a /\ k a = Ok b.
Proof. destruct r; [eauto | discriminate]. Qed.

Lemma scalars_written_app {T} (l1 l2 : list (event T)) :
  scalars_written (l1 ++ l2) = scalars_written l1 ++ scalars_written l2.
Proof. apply omap_app. Qed.

Lemma progress_lines_app {T} (l1 l2 : list (event T)) :
  progress_lines (l1 ++ l2) = progress_lines l1 ++ progress_lines l2.
Proof. apply omap_app. Qed.

Lemma criteria_called_app {T} (l1 l2 : list (event T)) :
  criteria_called (l1 ++ l2) = criteria_called l1 ++ criteria_called l2.
Proof. apply omap_app. Qed.

Section Batch.
Context {tensor : Type} {runtime : Runtime tensor}.

Lemma center_loss_inv (self : ImageTripletEngine.t) w features pids self' loss_c evs_c :
  ImageTripletEngine.center_loss self w features pids = Ok (self', loss_c, evs_c) ->
  if ImageTripletEngine.nonzero (ImageTripletEngine.weight_c self) then
    self' = self
    /\ exists c ca cb cc f0 f1 f2 f3,
         ImageTripletEngine.criterion_c self = Some c
         /\ ImageTripletEngine.criterion_ca self = Some ca
         /\ ImageTripletEngine.criterion_cb self = Some cb
         /\ ImageTripletEngine.criterion_cc self = Some cc
         /\ py_item features 0 = Ok f0 /\ py_item features 1 = Ok f1
         /\ py_item features 2 = Ok f2 /\ py_item features 3 = Ok f3
         /\ loss_c = Ten (add (add (add (compute_loss c (One f0) pids w)
                                        (compute_loss ca (One f1) pids w))
                                   (compute_loss cb (One f2) pids w))
                              (compute_loss cc (One f3) pids w))
         /\ evs_c = [Compute_loss c (One f0) pids (compute_loss c (One f0) pids w);
                     Compute_loss ca (One f1) pids (compute_loss ca (One f1) pids w);
                     Compute_loss cb (One f2) pids (compute_loss cb (One f2) pids w);
                     Compute_loss cc (One f3) pids (compute_loss cc (One f3) pids w)]
  else
    self' = ImageTripletEngine.set_weight_c self 0
    /\ loss_c = Num 0 /\ evs_c = [].
Proof.
  unfold ImageTripletEngine.center_loss.
  destruct (ImageTripletEngine.nonzero _).
  - intros H.
    repeat match type of H with
           | result_bind (ImageTripletEngine.getattr _ ?a) _ = Ok _ =>
               destruct a; [cbn [ImageTripletEngine.getattr result_bind] in H
                           | discriminate H]
           | result_bind ?r _ = Ok _ =>
               let E := fresh "E" in
               destruct r eqn:E; [cbn [result_bind] in H | discriminate H]
           end.
    injection H as <- <- <-. split; [reflexivity|].
    do 8 eexists. repeat split; reflexivity.
  - intros [= <- <- <-]. now repeat split.
Qed.

Lemma report_inv epoch max_epoch writer print_freq num_batches batch_idx
    losses_t losses_x accs batch_time data_time w evs :
  ImageTripletEngine.report epoch max_epoch writer print_freq num_batches
    batch_idx losses_t losses_x accs batch_time data_time w = Ok evs ->
  print_freq <> 0
  /\ scalars_written evs
     = match writer with
       | Some _ =>
           map (fun tag => (tag, epoch * num_batches + batch_idx)) scalar_tags
       | None => []
       end
  /\ progress_lines evs
     = (if decide ((batch_idx + 1) mod print_freq = 0)
        then [batch_idx + 1] else [])
  /\ criteria_called evs = []
  /\ forall l, Backward l ∉ evs.
Proof.
  unfold ImageTripletEngine.report, py_mod.
  destruct (decide (print_freq = 0)); [discriminate|]. cbn [result_bind].
  intros [= <-]. split; [assumption|].
  rewrite scalars_written_app, progress_lines_app, criteria_called_app.
  destruct (decide ((batch_idx + 1) mod print_freq = 0)), writer;
    repeat split; try reflexivity;
    intros l Hl; repeat (apply elem_of_cons in Hl as [Hl|Hl]; [discriminate Hl|]);
    inversion Hl.
Qed.
End Batch.

Section Loss.
Context {tensor : Type} {runtime : Runtime tensor}.

Lemma same_engine_refl (self : ImageTripletEngine.t) :
  ImageTripletEngine.same_engine self self.
Proof. now left. Qed.

Lemma same_engine_trans (self self' self'' : ImageTripletEngine.t) :
  ImageTripletEngine.same_engine self self' ->
  ImageTripletEngine.same_engine self' self'' ->
  ImageTripletEngine.same_engine self self''.
Proof.
  intros [->|[Hz ->]] [->|[Hz' ->]].
  - left. reflexivity.
  - right. split; [exact Hz' | reflexivity].
  - right. split; [exact Hz | reflexivity].
  - right. split; [exact Hz | reflexivity].
Qed.

(** Up to a zero [weight_c], the engines agree on everything the loop
    reads. *)
Lemma same_engine_fields (self self' : ImageTripletEngine.t) :
  ImageTripletEngine.same_engine self self' ->
  ImageTripletEngine.model self' = ImageTripletEngine.model self
  /\ ImageTripletEngine.scheduler self' = ImageTripletEngine.scheduler self
  /\ ImageTripletEngine.train_loader self' = ImageTripletEngine.train_loader self
  /\ ImageTripletEngine.weight_t self' = ImageTripletEngine.weight_t self
  /\ ImageTripletEngine.weight_x self' = ImageTripletEngine.weight_x self
  /\ ImageTripletEngine.criterion_t self' = ImageTripletEngine.criterion_t self
  /\ ImageTripletEngine.criterion_x self' = ImageTripletEngine.criterion_x self
  /\ ImageTripletEngine.criterion_c self' = ImageTripletEngine.criterion_c self
  /\ ImageTripletEngine.criterion_ca self' = ImageTripletEngine.criterion_ca self
  /\ ImageTripletEngine.criterion_cb self' = ImageTripletEngine.criterion_cb self
  /\ ImageTripletEngine.criterion_cc self' = ImageTripletEngine.criterion_cc self
  /\ ImageTripletEngine.nonzero (ImageTripletEngine.weight_c self')
     = ImageTripletEngine.nonzero (ImageTripletEngine.weight_c self)
  /\ (if ImageTripletEngine.nonzero (ImageTripletEngine.weight_c self')
      then ImageTripletEngine.weight_c self' else 0%Q)
     = (if ImageTripletEngine.nonzero (ImageTripletEngine.weight_c self)
        then ImageTripletEngine.weight_c self else 0%Q).
Proof.
  intros [->|[Hz ->]]; [now repeat split|].
  cbn. rewrite Hz. now repeat split.
Qed.

Lemma loss_segment_same_engine (self self' : ImageTripletEngine.t) net seg l :
  ImageTripletEngine.same_engine self self' ->
  ImageTripletEngine.loss_segment self' net seg l ->
  ImageTripletEngine.loss_segment self net seg l.
Proof.
  intros Hs. apply same_engine_fields in Hs
    as (_ & _ & _ & Ht & Hx & Hct & Hcx & Hc & Hca & Hcb & Hcc & Hnz & Hwc).
  unfold ImageTripletEngine.loss_segment, ImageTripletEngine.center_segment.
  now rewrite Ht, Hx, Hct, Hcx, Hc, Hca, Hcb, Hcc, Hwc, Hnz.
Qed.

Lemma batch_loss_inv (self : ImageTripletEngine.t) w imgs pids l evs :
  ImageTripletEngine.batch_loss self w imgs pids = Ok (l, evs) ->
  ImageTripletEngine.same_engine self (ImageTripletEngine.engine l)
  /\ ImageTripletEngine.loss_segment self
       (Model.net (ImageTripletEngine.model self))
       (evs ++ [Backward (ImageTripletEngine.loss l)])
       (ImageTripletEngine.loss l)
  /\ scalars_written evs = [] /\ progress_lines evs = [].
Proof.
  unfold ImageTripletEngine.batch_loss. intros H.
  apply result_bind_inv in H as (out & Hout & H).
  apply result_bind_inv in H as ([outputs features] & Hun & H).
  apply result_bind_inv in H as ([[self' loss_c] evs_c] & Hc & H).
  match type of H with
  | match ?v with Num _ => _ | Ten _ => _ end = _ =>
      destruct v as [q|loss] eqn:Hl; [discriminate H|]
  end.
  injection H as <- <-. cbn [ImageTripletEngine.engine ImageTripletEngine.loss].
  apply center_loss_inv in Hc.
  destruct (ImageTripletEngine.nonzero (ImageTripletEngine.weight_c self)) eqn:Hnz.
  - destruct Hc as (-> & c & ca & cb & cc & f0 & f1 & f2 & f3
                    & Ec & Eca & Ecb & Ecc & E0 & E1 & E2 & E3 & -> & ->).
    split; [apply same_engine_refl|]. split; [|split; reflexivity].
    exists w, imgs, out, outputs, features, pids. do 2 eexists.
    rewrite Hnz. cbn zeta. split; [exact Hout|]. split; [exact Hun|].
    split; [reflexivity|]. split; [now rewrite <- Hl|].
    do 12 eexists. repeat split; eassumption.
  - destruct Hc as (-> & -> & ->).
    split; [right; split; [exact Hnz | reflexivity]|]. split; [|split; reflexivity].
    exists w, imgs, out, outputs, features, pids, [], (Num 0%Q).
    rewrite Hnz. cbn zeta. split; [exact Hout|]. split; [exact Hun|].
    split; [reflexivity|]. split; [now rewrite <- Hl|]. now split.
Qed.
End Loss.

Section Loop.
Context {tensor : Type} {runtime : Runtime tensor}.

Lemma loss_segment_events (self : ImageTripletEngine.t) net seg l :
  ImageTripletEngine.loss_segment self net seg l ->
  (forall l', Backward l' ∈ seg -> l' = l)
  /\ Backward l ∈ seg
  /\ criteria_called seg = ImageTripletEngine.criteria_per_batch self
  /\ scalars_written seg = [] /\ progress_lines seg = [].
Proof.
  intros (w & imgs & out & outputs & features & pids & evs_c & loss_c
          & _ & _ & -> & _ & Hc).
  unfold ImageTripletEngine.criteria_per_batch.
  destruct (ImageTripletEngine.nonzero _).
  - destruct Hc as (c & ca & cb & cc & f0 & f1 & f2 & f3 & l0 & l1 & l2 & l3
                    & -> & -> & -> & -> & _ & _ & _ & _ & -> & _).
    cbn. repeat split.
    + intros l' Hl.
      repeat (apply elem_of_cons in Hl as [Hl|Hl]; [try discriminate Hl|]).
      * now injection Hl.
      * inversion Hl.
    + repeat first [apply list_elem_of_here | apply list_elem_of_further].
  - destruct Hc as (-> & _). cbn. repeat split.
    + intros l' Hl.
      repeat (apply elem_of_cons in Hl as [Hl|Hl]; [try discriminate Hl|]).
      * now injection Hl.
      * inversion Hl.
    + repeat first [apply list_elem_of_here | apply list_elem_of_further].
Qed.

Lemma train_batch_inv epoch max_epoch writer print_freq num_batches
    (st : ImageTripletEngine.loop) batch_idx data st' evs :
  ImageTripletEngine.train_batch epoch max_epoch writer print_freq num_batches
    st batch_idx data = Ok (st', evs) ->
  ImageTripletEngine.same_engine (ImageTripletEngine.self st)
    (ImageTripletEngine.self st')
  /\ print_freq <> 0
  /\ (exists seg l tail,
        evs = [Zero_grad] ++ seg ++ Optimizer_step :: tail
        /\ ImageTripletEngine.loss_segment (ImageTripletEngine.self st)
             (Model.net (ImageTripletEngine.model (ImageTripletEngine.self st)))
             seg l
        /\ (forall l', Backward l' ∉ tail)
        /\ criteria_called tail = [])
  /\ scalars_written evs
     = match writer with
       | Some _ =>
           map (fun tag => (tag, epoch * num_batches + batch_idx)) scalar_tags
       | None => []
       end
  /\ progress_lines evs
     = (if decide ((batch_idx + 1) mod print_freq = 0)
        then [batch_idx + 1] else []).
Proof.
  unfold ImageTripletEngine.train_batch. intros H.
  destruct (clock (ImageTripletEngine.now st)) as [tm w].
  destruct (parse_data_for_train data) as [imgs pids].
  apply result_bind_inv in H as ([l evs_loss] & Hl & H).
  apply result_bind_inv in H as (wb & Hback & H).
  destruct (clock (optimizer_step _)) as [tm' w'].
  apply result_bind_inv in H as (evs_report & Hr & H).
  destruct (clock w') as [tm'' w''].
  injection H as <- <-. cbn [ImageTripletEngine.self].
  apply batch_loss_inv in Hl as (Hs & Hseg & Hsc & Hpl).
  apply report_inv in Hr as (Hpf & Hrs & Hrp & Hrc & Hrb).
  split; [exact Hs|]. split; [exact Hpf|]. split; [|split].
  - eexists _, _, evs_report. split; [|split; [exact Hseg|split; assumption]].
    cbn. now rewrite <- app_assoc.
  - change (scalars_written (evs_loss ++ [Backward (ImageTripletEngine.loss l);
                                           Optimizer_step] ++ evs_report)
            = match writer with
              | Some _ =>
                  map (fun tag => (tag, epoch * num_batches + batch_idx))
                    scalar_tags
              | None => []
              end).
    rewrite !scalars_written_app, Hsc, Hrs. reflexivity.
  - change (progress_lines (evs_loss ++ [Backward (ImageTripletEngine.loss l);
                                          Optimizer_step] ++ evs_report)
            = if decide ((batch_idx + 1) mod print_freq = 0)
              then [batch_idx + 1] else []).
    rewrite !progress_lines_app, Hpl, Hrp. reflexivity.
Qed.
End Loop.

Section Epoch.
Context {tensor : Type} {runtime : Runtime tensor}.

Lemma criteria_per_batch_same_engine (self self' : ImageTripletEngine.t) :
  ImageTripletEngine.same_engine self self' ->
  ImageTripletEngine.criteria_per_batch self'
  = ImageTripletEngine.criteria_per_batch self.
Proof.
  intros Hs. apply same_engine_fields in Hs
    as (_ & _ & _ & _ & _ & Hct & Hcx & Hc & Hca & Hcb & Hcc & Hnz & _).
  unfold ImageTripletEngine.criteria_per_batch.
  now rewrite Hct, Hcx, Hc, Hca, Hcb, Hcc, Hnz.
Qed.

Lemma train_loop_inv epoch max_epoch writer print_freq num_batches loader :
  forall (st : ImageTripletEngine.loop) batch_idx st' evs,
  ImageTripletEngine.train_loop epoch max_epoch writer print_freq num_batches
    st batch_idx loader = Ok (st', evs) ->
  ImageTripletEngine.same_engine (ImageTripletEngine.self st)
    (ImageTripletEngine.self st')
  /\ scalars_written evs
     = match writer with
       | Some _ =>
           flat_map (fun i => map (fun tag => (tag, epoch * num_batches + i))
                                  scalar_tags)
                    (seqZ batch_idx (Z.of_nat (length loader)))
       | None => []
       end
  /\ progress_lines evs
     = filter (fun k => k mod print_freq = 0)
              (seqZ (batch_idx + 1) (Z.of_nat (length loader)))
  /\ criteria_called evs
     = concat (replicate (length loader)
                 (ImageTripletEngine.criteria_per_batch
                    (ImageTripletEngine.self st)))
  /\ forall l, Backward l ∈ evs ->
       exists pre seg post,
         evs = pre ++ seg ++ post
         /\ ImageTripletEngine.loss_segment (ImageTripletEngine.self st)
              (Model.net (ImageTripletEngine.model (ImageTripletEngine.self st)))
              seg l.
Proof.
  induction loader as [|data rest IH]; intros st batch_idx st' evs H.
  - injection H as <- <-. split; [apply same_engine_refl|].
    cbn. repeat split; [now destruct writer|].
    intros l Hl. inversion Hl.
  - cbn [ImageTripletEngine.train_loop] in H.
    apply result_bind_inv in H as ([st1 evs1] & H1 & H).
    apply result_bind_inv in H as ([st2 evs2] & H2 & H).
    injection H as <- <-.
    apply train_batch_inv in H1
      as (Hs1 & Hpf & (seg & l0 & tail & -> & Hseg & Htail & Hct) & Hsc1 & Hpl1).
    apply IH in H2 as (Hs2 & Hsc2 & Hpl2 & Hcr2 & Hb2).
    pose proof (same_engine_fields _ _ Hs1) as (Hmodel & _).
    split; [exact (same_engine_trans _ _ _ Hs1 Hs2)|].
    rewrite scalars_written_app, progress_lines_app, criteria_called_app.
    rewrite Hsc1, Hsc2, Hpl1, Hpl2, Hcr2.
    cbn [length]. rewrite Nat2Z.inj_succ.
    rewrite !(seqZ_cons _ (Z.succ _)) by lia. rewrite Z.pred_succ.
    replace (Z.succ batch_idx) with (batch_idx + 1) by lia.
    replace (Z.succ (batch_idx + 1)) with (batch_idx + 1 + 1) by lia.
    split; [now destruct writer|]. split; [|split].
    + rewrite filter_cons. now destruct (decide _).
    + rewrite (criteria_per_batch_same_engine _ _ Hs1). cbn [replicate concat].
      f_equal.
      destruct (loss_segment_events _ _ _ _ Hseg) as (_ & _ & Hcs & _).
      change (criteria_called ([Zero_grad] ++ seg ++ [Optimizer_step] ++ tail)
              = ImageTripletEngine.criteria_per_batch (ImageTripletEngine.self st)).
      rewrite !criteria_called_app, Hcs, Hct. cbn. now rewrite app_nil_r.
    + intros l Hl. apply elem_of_app in Hl as [Hl|Hl].
      * exists [Zero_grad], seg, (Optimizer_step :: tail ++ evs2).
        destruct (loss_segment_events _ _ _ _ Hseg) as (Huniq & _).
        assert (l = l0) as ->.
        { apply elem_of_cons in Hl as [Hl|Hl]; [discriminate Hl|].
          apply elem_of_app in Hl as [Hl|Hl]; [now apply Huniq|].
          apply elem_of_cons in Hl as [Hl|Hl]; [discriminate Hl|].
          now apply Htail in Hl. }
        split; [|exact Hseg]. cbn. now rewrite <- !app_assoc.
      * destruct (Hb2 l Hl) as (pre & seg' & post & -> & Hseg').
        exists (([Zero_grad] ++ seg ++ Optimizer_step :: tail) ++ pre), seg', post.
        split; [now rewrite <- !app_assoc|].
        rewrite Hmodel in Hseg'.
        exact (loss_segment_same_engine _ _ _ _ _ Hs1 Hseg').
Qed.
End Epoch.

Section Train.
Context {tensor : Type} {runtime : Runtime tensor}.

Lemma train_open_inv (self : ImageTripletEngine.t) epoch fixbase_epoch open_layers :
  let opened := ImageTripletEngine.train_open self epoch fixbase_epoch open_layers in
  fst opened
  = ImageTripletEngine.set_model self (ImageTripletEngine.model (fst opened))
  /\ Model.net (ImageTripletEngine.model (fst opened))
     = OSNet.train true (Model.net (ImageTripletEngine.model self))
  /\ scalars_written (snd opened) = []
  /\ progress_lines (snd opened) = []
  /\ criteria_called (snd opened) = []
  /\ forall l, Backward l ∉ snd opened.
Proof.
  unfold ImageTripletEngine.train_open.
  destruct open_layers as [layers|];
    [destruct (decide (epoch + 1 <= fixbase_epoch))|];
    cbn; repeat split; intros ? Hl;
    repeat (apply elem_of_cons in Hl as [Hl|Hl]; [discriminate Hl|]);
    inversion Hl.
Qed.

Lemma train_inv (self : ImageTripletEngine.t) epoch max_epoch writer print_freq
    fixbase_epoch open_layers w self' w' log :
  ImageTripletEngine.train self epoch max_epoch writer print_freq fixbase_epoch
    open_layers w = Ok (self', w', log) ->
  let num_batches := Z.of_nat (length (ImageTripletEngine.train_loader self)) in
  ImageTripletEngine.model self'
  = ImageTripletEngine.model
      (fst (ImageTripletEngine.train_open self epoch fixbase_epoch open_layers))
  /\ scalars_written log
     = match writer with
       | Some _ =>
           flat_map (fun i => map (fun tag => (tag, epoch * num_batches + i))
                                  scalar_tags)
                    (seqZ 0 num_batches)
       | None => []
       end
  /\ progress_lines log
     = filter (fun k => k mod print_freq = 0) (seqZ 1 num_batches)
  /\ criteria_called log
     = concat (replicate (length (ImageTripletEngine.train_loader self))
                 (ImageTripletEngine.criteria_per_batch self))
  /\ forall l, Backward l ∈ log ->
       exists pre seg post,
         log = pre ++ seg ++ post
         /\ ImageTripletEngine.loss_segment self
              (OSNet.train true (Model.net (ImageTripletEngine.model self)))
              seg l.
Proof.
  intros H num_batches. unfold ImageTripletEngine.train in H.
  pose proof (train_open_inv self epoch fixbase_epoch open_layers) as Hopen.
  cbv zeta in Hopen. destruct Hopen as (Hself1 & Hnet & Hos & Hop & Hoc & Hob).
  destruct (ImageTripletEngine.train_open self epoch fixbase_epoch open_layers)
    as [self1 evs_open].
  cbn [fst snd] in *.
  destruct (clock (train_mode w)) as [tm w1].
  apply result_bind_inv in H as ([st evs] & Hloop & H).
  apply train_loop_inv in Hloop as (Hs & Hsc & Hpl & Hcr & Hb).
  cbn [ImageTripletEngine.self] in *.
  pose proof (same_engine_fields _ _ Hs) as (Hmodel & _).
  assert (Hloader : ImageTripletEngine.train_loader self1
                    = ImageTripletEngine.train_loader self) by now rewrite Hself1.
  assert (Hcpb : ImageTripletEngine.criteria_per_batch self1
                 = ImageTripletEngine.criteria_per_batch self) by now rewrite Hself1.
  rewrite Hloader, Hcpb in *. fold num_batches in Hsc, Hpl.
  assert (Hlog : exists tail, log = evs_open ++ evs ++ tail
                              /\ scalars_written tail = []
                              /\ progress_lines tail = []
                              /\ criteria_called tail = []
                              /\ (forall l, Backward l ∉ tail)
                              /\ ImageTripletEngine.model self'
                                 = ImageTripletEngine.model self1).
  { destruct (ImageTripletEngine.scheduler (ImageTripletEngine.self st));
      injection H as <- <- <-.
    - exists [Scheduler_step]. repeat split; try assumption.
      intros b Hl. apply elem_of_cons in Hl as [Hl|Hl]; [discriminate Hl|].
      inversion Hl.
    - exists []. rewrite app_nil_r. repeat split; try assumption.
      intros b Hl. inversion Hl. }
  destruct Hlog as (tail & -> & Hts & Htp & Htc & Htb & Hm).
  split; [exact Hm|].
  rewrite !scalars_written_app, !progress_lines_app, !criteria_called_app.
  rewrite Hos, Hop, Hoc, Hts, Htp, Htc, Hsc, Hpl, Hcr, !app_nil_r.
  split; [now destruct writer|]. split; [reflexivity|]. split; [reflexivity|].
  intros l Hl. apply elem_of_app in Hl as [Hl|Hl]; [now apply Hob in Hl|].
  apply elem_of_app in Hl as [Hl|Hl]; [|now apply Htb in Hl].
  destruct (Hb l Hl) as (pre & seg & post & -> & Hseg).
  exists (evs_open ++ pre), seg, (post ++ tail).
  split; [now rewrite <- !app_assoc|].
  rewrite Hnet in Hseg. rewrite Hself1 in Hseg. exact Hseg.
Qed.
End Train.

(** ** The training engine: the record of an epoch, batch by batch *)

Section Record.
Context {tensor : Type} {runtime : Runtime tensor}.

Lemma report_is_report epoch max_epoch writer print_freq num_batches batch_idx
    losses_t losses_x accs batch_time data_time w evs :
  ImageTripletEngine.report epoch max_epoch writer print_freq num_batches
    batch_idx losses_t losses_x accs batch_time data_time w = Ok evs ->
  forallb is_report evs = true.
Proof.
  unfold ImageTripletEngine.report, py_mod.
  destruct (decide (print_freq = 0)); [discriminate|]. cbn [result_bind].
  intros [= <-].
  destruct (decide ((batch_idx + 1) mod print_freq = 0)), writer; reflexivity.
Qed.

Lemma train_batch_record epoch max_epoch writer print_freq num_batches
    (st : ImageTripletEngine.loop) batch_idx data st' evs :
  ImageTripletEngine.train_batch epoch max_epoch writer print_freq num_batches
    st batch_idx data = Ok (st', evs) ->
  batch_record (ImageTripletEngine.self st)
    (Model.net (ImageTripletEngine.model (ImageTripletEngine.self st))) evs.
Proof.
  unfold ImageTripletEngine.train_batch. intros H.
  destruct (clock (ImageTripletEngine.now st)) as [tm w].
  destruct (parse_data_for_train data) as [imgs pids].
  apply result_bind_inv in H as ([l evs_loss] & Hl & H).
  apply result_bind_inv in H as (wb & Hback & H).
  destruct (clock (optimizer_step _)) as [tm' w'].
  apply result_bind_inv in H as (evs_report & Hr & H).
  destruct (clock w') as [tm'' w''].
  injection H as <- <-.
  apply batch_loss_inv in Hl as (_ & Hseg & _).
  apply report_is_report in Hr.
  exists (evs_loss ++ [Backward (ImageTripletEngine.loss l)]),
    (ImageTripletEngine.loss l), evs_report.
  split; [|split; assumption].
  cbn. now rewrite <- app_assoc.
Qed.

Lemma batch_record_same_engine (self self' : ImageTripletEngine.t) net evs :
  ImageTripletEngine.same_engine self self' ->
  batch_record self' net evs -> batch_record self net evs.
Proof.
  intros Hs (seg & l & tail & E & Hseg & Ht).
  exists seg, l, tail. split; [exact E|]. split; [|exact Ht].
  exact (loss_segment_same_engine _ _ _ _ _ Hs Hseg).
Qed.

Lemma train_loop_record epoch max_epoch writer print_freq num_batches loader :
  forall (st : ImageTripletEngine.loop) batch_idx st' evs,
  ImageTripletEngine.train_loop epoch max_epoch writer print_freq num_batches
    st batch_idx loader = Ok (st', evs) ->
  exists records,
    evs = concat records
    /\ length records = length loader
    /\ Forall (batch_record (ImageTripletEngine.self st)
                 (Model.net (ImageTripletEngine.model
                               (ImageTripletEngine.self st))))
              records.
Proof.
  induction loader as [|data rest IH]; intros st batch_idx st' evs H.
  - injection H as <- <-. exists []. repeat split. constructor.
  - cbn [ImageTripletEngine.train_loop] in H.
    apply result_bind_inv in H as ([st1 evs1] & H1 & H).
    apply result_bind_inv in H as ([st2 evs2] & H2 & H).
    injection H as <- <-.
    pose proof (train_batch_inv _ _ _ _ _ _ _ _ _ _ H1) as (Hs1 & _).
    apply train_batch_record in H1.
    apply IH in H2 as (records & -> & Hlen & Hrec).
    pose proof (same_engine_fields _ _ Hs1) as (Hmodel & _).
    exists (evs1 :: records). split; [reflexivity|].
    split; [cbn; now rewrite Hlen|].
    constructor; [exact H1|].
    rewrite Hmodel in Hrec.
    eapply Forall_impl; [exact Hrec|].
    intros evs. apply batch_record_same_engine. exact Hs1.
Qed.

Lemma train_record (self : ImageTripletEngine.t) epoch max_epoch writer
    print_freq fixbase_epoch open_layers w self' w' log :
  ImageTripletEngine.train self epoch max_epoch writer print_freq fixbase_epoch
    open_layers w = Ok (self', w', log) ->
  epoch_record self
    (OSNet.train true (Model.net (ImageTripletEngine.model self)))
    (length (ImageTripletEngine.train_loader self)) log.
Proof.
  intros H. unfold ImageTripletEngine.train in H.
  pose proof (train_open_inv self epoch fixbase_epoch open_layers) as Hopen.
  cbv zeta in Hopen. destruct Hopen as (Hself1 & Hnet & _).
  assert (Hevs : forall ev,
             ev ∈ snd (ImageTripletEngine.train_open self epoch fixbase_epoch
                        open_layers) ->
             exists layers e f, ev = @Print_only_train tensor layers e f).
  { unfold ImageTripletEngine.train_open.
    destruct open_layers as [layers|];
      [destruct (decide (epoch + 1 <= fixbase_epoch))|]; cbn;
      intros ev Hev; try (now inversion Hev).
    apply elem_of_cons in Hev as [->|Hev]; [eauto | inversion Hev]. }
  destruct (ImageTripletEngine.train_open self epoch fixbase_epoch open_layers)
    as [self1 evs_open].
  cbn [fst snd] in *.
  destruct (clock (train_mode w)) as [tm w1].
  apply result_bind_inv in H as ([st evs] & Hloop & H).
  apply train_loop_record in Hloop as (records & -> & Hlen & Hrec).
  cbn [ImageTripletEngine.self] in Hrec.
  assert (Hloader : ImageTripletEngine.train_loader self1
                    = ImageTripletEngine.train_loader self) by now rewrite Hself1.
  rewrite Hloader in Hlen. rewrite Hnet in Hrec.
  assert (Hrec' : Forall (batch_record self
                            (OSNet.train true
                               (Model.net (ImageTripletEngine.model self))))
                         records).
  { eapply Forall_impl; [exact Hrec|].
    intros evs (seg & l & tail & E & Hseg & Ht).
    exists seg, l, tail. split; [exact E|]. split; [|exact Ht].
    rewrite Hself1 in Hseg. exact Hseg. }
  destruct (ImageTripletEngine.scheduler (ImageTripletEngine.self st));
    injection H as <- <- <-.
  - exists evs_open, records, [Scheduler_step]. repeat split; try assumption.
    intros ev Hev. apply elem_of_cons in Hev as [->|Hev];
      [reflexivity | inversion Hev].
  - exists evs_open, records, []. rewrite app_nil_r.
    repeat split; try assumption. intros ev Hev. inversion Hev.
Qed.
End Record.

(** ** The training engine: the writer and the progress line *)

(** C7, as stated, fails: in the first epoch of a run with
    [print_freq=10] on a loader of two batches no progress line is due
    or printed, and yet the writer receives the six scalars of each
    batch. *)
Lemma writer_is_served_on_every_batch :
  exists e r,
    shape_engine 0 = Some e
    /\ ImageTripletEngine.train e 0 10 (Some The_writer) 10 0 None 0%N = Ok r
    /\ (0 + 1) mod 10 <> 0 /\ (1 + 1) mod 10 <> 0
    /\ progress_lines (snd r) = []
    /\ scalars_written (snd r)
       = [("Train/Time", 0); ("Train/Data", 0); ("Train/Loss_t", 0);
          ("Train/Loss_x", 0); ("Train/Acc", 0); ("Train/Lr", 0);
          ("Train/Time", 1); ("Train/Data", 1); ("Train/Loss_t", 1);
          ("Train/Loss_x", 1); ("Train/Acc", 1); ("Train/Lr", 1)].
Proof.
  eexists _, _. split; [vm_compute; reflexivity|].
  split; [vm_compute; reflexivity|].
  repeat split; try discriminate; vm_compute; reflexivity.
Qed.

(** C7, amended.  When a writer is given, [train] hands it the six
    scalars of every batch, whatever [print_freq] is, each keyed by
    [epoch * num_batches + batch_idx], a key that grows by one from a
    batch to the next; without a writer nothing is written.  The
    progress line alone is printed every [print_freq] batches. *)
Theorem train_writes_scalars_every_batch
    {tensor : Type} {runtime : Runtime tensor}
    (self : ImageTripletEngine.t) (epoch max_epoch : Z)
    (writer : option SummaryWriter) (print_freq fixbase_epoch : Z)
    (open_layers : option (list string)) (w : world)
    (self' : ImageTripletEngine.t) (w' : world) (log : list (event tensor)) :
  ImageTripletEngine.train self epoch max_epoch writer print_freq fixbase_epoch
    open_layers w = Ok (self', w', log) ->
  let num_batches := Z.of_nat (length (ImageTripletEngine.train_loader self)) in
  scalars_written log
  = match writer with
    | Some _ =>
        flat_map (fun batch_idx =>
                    map (fun tag => (tag, epoch * num_batches + batch_idx))
                        scalar_tags)
                 (seqZ 0 num_batches)
    | None => []
    end
  /\ progress_lines log
     = filter (fun batch => batch mod print_freq = 0) (seqZ 1 num_batches).
Proof.
  intros H num_batches. apply train_inv in H as (_ & Hsc & Hpl & _).
  now split.
Qed.

Lemma train_writes_scalars_every_batch_witness :
  exists e r,
    shape_engine 0 = Some e
    /\ ImageTripletEngine.train e 3 10 (Some The_writer) 2 0 None 0%N = Ok r
    /\ scalars_written (snd r)
       = flat_map (fun batch_idx =>
                     map (fun tag => (tag, 3 * 2 + batch_idx)) scalar_tags)
                  (seqZ 0 2)
    /\ progress_lines (snd r) = [2].
Proof.
  eexists _, _. split; [vm_compute; reflexivity|].
  lazymatch goal with
  | |- ImageTripletEngine.train ?e _ _ _ _ _ _ _ = _ /\ _ => pose (eng := e)
  end.
  split; [vm_compute; reflexivity|].
  lazymatch goal with
  | |- context [snd (?self', ?w', ?log)] =>
      exact (train_writes_scalars_every_batch eng 3 10 (Some The_writer) 2 0
               None 0%N self' w' log ltac:(vm_compute; reflexivity))
  end.
Defined.

(** ** The training engine: the layers left trainable *)





(** ** The training engine: the losses *)

Lemma OSNet_forward_triplet {tensor : Type} {torch : Torch tensor}
    (sd : state_dict) (net : OSNet.t) (x : tensor) :
  OSNet.training net = true -> OSNet.loss net = "triplet" ->
  OSNet.forward sd net x false
  = let '(v, va, vb, vc) := OSNet.pooled sd net x in
    Ok (LogitsFeatures
          [linear sd (OSNet.classifier net) (batch_norm1d sd (OSNet.bn net) v);
           linear sd (OSNet.classifier_a net) (batch_norm1d sd (OSNet.bn_a net) va);
           linear sd (OSNet.classifier_b net) (batch_norm1d sd (OSNet.bn_b net) vb);
           linear sd (OSNet.classifier_c net) (batch_norm1d sd (OSNet.bn_c net) vc)]
          [v; va; vb; vc]).
Proof.
  intros Ht Hl. unfold OSNet.forward, OSNet.pooled.
  destruct (OSNet.featuremaps sd net x) as [[[f a] b] c].
  now rewrite Ht, Hl.
Qed.




(** C9.  In training mode with the loss ['triplet'], the features that
    [OSNet.forward] returns are the four pooled vectors as they are
    before the 1D batch normalizations, while each of the four logits
    is the classifier's output on the batch-normalized vector.  An
    epoch of [train] that returns has, for every batch of the loader,
    handed these pre-normalization vectors to the triplet criterion
    (all four) and to the center criteria (one each, when [weight_c] is
    not zero), and the logits to the cross-entropy criterion. *)
Theorem triplet_features_are_taken_before_batch_norm :
  (forall (tensor : Type) (torch : Torch tensor) (sd : state_dict)
          (net : OSNet.t) (x : tensor),
     OSNet.training net = true -> OSNet.loss net = "triplet" ->
     OSNet.forward sd net x false
     = let '(v, va, vb, vc) := OSNet.pooled sd net x in
       Ok (LogitsFeatures
             [linear sd (OSNet.classifier net)
                (batch_norm1d sd (OSNet.bn net) v);
              linear sd (OSNet.classifier_a net)
                (batch_norm1d sd (OSNet.bn_a net) va);
              linear sd (OSNet.classifier_b net)
                (batch_norm1d sd (OSNet.bn_b net) vb);
              linear sd (OSNet.classifier_c net)
                (batch_norm1d sd (OSNet.bn_c net) vc)]
             [v; va; vb; vc]))
  /\ (forall (tensor : Type) (runtime : Runtime tensor)
             (self : ImageTripletEngine.t) (epoch max_epoch : Z)
             (writer : option SummaryWriter) (print_freq fixbase_epoch : Z)
             (open_layers : option (list string)) (w : world)
             (self' : ImageTripletEngine.t) (w' : world)
             (log : list (event tensor)),
        OSNet.loss (Model.net (ImageTripletEngine.model self)) = "triplet" ->
        ImageTripletEngine.train self epoch max_epoch writer print_freq
          fixbase_epoch open_layers w = Ok (self', w', log) ->
        let net :=
          OSNet.train true (Model.net (ImageTripletEngine.model self)) in
        epoch_record self net
          (length (ImageTripletEngine.train_loader self)) log
        /\ forall seg l,
             ImageTripletEngine.loss_segment self net seg l ->
             exists w0 imgs pids loss_t loss_x evs_c,
               let sd := parameters w0 in
               let '(v, va, vb, vc) := OSNet.pooled sd net imgs in
               seg = [Compute_loss (ImageTripletEngine.criterion_t self)
                        (Many [v; va; vb; vc]) pids loss_t;
                      Compute_loss (ImageTripletEngine.criterion_x self)
                        (Many [linear sd (OSNet.classifier net)
                                 (batch_norm1d sd (OSNet.bn net) v);
                               linear sd (OSNet.classifier_a net)
                                 (batch_norm1d sd (OSNet.bn_a net) va);
                               linear sd (OSNet.classifier_b net)
                                 (batch_norm1d sd (OSNet.bn_b net) vb);
                               linear sd (OSNet.classifier_c net)
                                 (batch_norm1d sd (OSNet.bn_c net) vc)])
                        pids loss_x]
                     ++ evs_c ++ [Backward l]
               /\ if ImageTripletEngine.nonzero
                       (ImageTripletEngine.weight_c self)
                  then exists c ca cb cc l0 l1 l2 l3,
                         evs_c = [Compute_loss c (One v) pids l0;
                                  Compute_loss ca (One va) pids l1;
                                  Compute_loss cb (One vb) pids l2;
                                  Compute_loss cc (One vc) pids l3]
                  else evs_c = []).
Proof.
  split.
  - intros. now apply OSNet_forward_triplet.
  - intros * Hloss H net.
    split; [exact (train_record _ _ _ _ _ _ _ _ _ _ _ H)|].
    intros seg l
      (w0 & imgs & out & outputs & features & pids & evs_c & loss_c
       & Hout & Hun & -> & _ & Hc).
    subst net.
    rewrite OSNet_forward_triplet in Hout;
      [|reflexivity
       |destruct (Model.net (ImageTripletEngine.model self)); exact Hloss].
    exists w0, imgs, pids. do 2 eexists. exists evs_c.
    cbv zeta.
    destruct (OSNet.pooled (parameters w0)
                (OSNet.train true (Model.net (ImageTripletEngine.model self)))
                imgs) as [[[v va] vb] vc].
    injection Hout as <-. cbn in Hun. injection Hun as <- <-.
    split; [reflexivity|].
    destruct (ImageTripletEngine.nonzero _).
    + destruct Hc as (c & ca & cb & cc & f0 & f1 & f2 & f3 & l0 & l1 & l2 & l3
                      & _ & _ & _ & _ & E0 & E1 & E2 & E3 & -> & _).
      cbn in E0, E1, E2, E3.
      injection E0 as <-. injection E1 as <-.
      injection E2 as <-. injection E3 as <-.
      now exists c, ca, cb, cc, l0, l1, l2, l3.
    + now destruct Hc.
Qed.

Lemma triplet_features_are_taken_before_batch_norm_witness :
  exists e r,
    shape_engine (5 # 10000) = Some e
    /\ ImageTripletEngine.train e 0 10 None 10 0 None 0%N = Ok r
    /\ epoch_record e
         (OSNet.train true (Model.net (ImageTripletEngine.model e)))
         (length (ImageTripletEngine.train_loader e)) (snd r)
    /\ omap (fun ev => match ev with
                       | Compute_loss c inputs _ _ => Some (c, inputs)
                       | _ => None
                       end) (take 6 (snd r))
       = [(TripletLoss (3 # 10),
           Many [Some [4; 512]; Some [4; 64]; Some [4; 96]; Some [4; 128]]);
          (CrossEntropyLoss 751 false true,
           Many [Some [4; 751]; Some [4; 751]; Some [4; 751]; Some [4; 751]]);
          (CenterLoss 751 512, One (Some [4; 512]));
          (CenterLoss 751 64, One (Some [4; 64]));
          (CenterLoss 751 96, One (Some [4; 96]))].
Proof.
  eexists _, _. split; [vm_compute; reflexivity|].
  lazymatch goal with
  | |- ImageTripletEngine.train ?e _ _ _ _ _ _ _ = _ /\ _ => pose (eng := e)
  end.
  split; [vm_compute; reflexivity|].
  split; [|vm_compute; reflexivity].
  lazymatch goal with
  | |- context [snd (?self', ?w', ?log)] =>
      exact (proj1 (proj2 triplet_features_are_taken_before_batch_norm
                      _ ShapeRuntime eng 0 10 None 10 0 None 0%N
                      self' w' log ltac:(vm_compute; reflexivity)
                      ltac:(vm_compute; reflexivity)))
  end.
Defined.

(** * Further properties *)

(** ** The training engine: the order of the calls *)

Section Calls.
Context {tensor : Type} {runtime : Runtime tensor}.

Lemma loss_segment_calls (self : ImageTripletEngine.t) net seg l :
  ImageTripletEngine.loss_segment self net seg l ->
  map call_of seg
  = map Call_criterion (ImageTripletEngine.criteria_per_batch self)
    ++ [Call_backward].
Proof.
  intros (w & imgs & out & outputs & features & pids & evs_c & loss_c
          & _ & _ & -> & _ & Hc).
  unfold ImageTripletEngine.criteria_per_batch.
  destruct (ImageTripletEngine.nonzero _).
  - destruct Hc as (c & ca & cb & cc & f0 & f1 & f2 & f3 & l0 & l1 & l2 & l3
                    & -> & -> & -> & -> & _ & _ & _ & _ & -> & _).
    reflexivity.
  - destruct Hc as (-> & _). reflexivity.
Qed.

Lemma report_calls epoch max_epoch writer print_freq num_batches batch_idx
    losses_t losses_x accs batch_time data_time w evs :
  ImageTripletEngine.report epoch max_epoch writer print_freq num_batches
    batch_idx losses_t losses_x accs batch_time data_time w = Ok evs ->
  map call_of evs
  = (if decide ((batch_idx + 1) mod print_freq = 0)
     then [Call_print_progress] else [])
    ++ match writer with
       | Some _ => map Call_add_scalar scalar_tags
       | None => []
       end.
Proof.
  unfold ImageTripletEngine.report, py_mod.
  destruct (decide (print_freq = 0)); [discriminate|]. cbn [result_bind].
  intros [= <-]. rewrite map_app.
  destruct (decide ((batch_idx + 1) mod print_freq = 0)), writer; reflexivity.
Qed.

Lemma train_batch_calls epoch max_epoch writer print_freq num_batches
    (st : ImageTripletEngine.loop) batch_idx data st' evs :
  ImageTripletEngine.train_batch epoch max_epoch writer print_freq num_batches
    st batch_idx data = Ok (st', evs) ->
  map call_of evs
  = batch_calls (ImageTripletEngine.self st) writer print_freq batch_idx.
Proof.
  unfold ImageTripletEngine.train_batch. intros H.
  destruct (clock (ImageTripletEngine.now st)) as [tm w].
  destruct (parse_data_for_train data) as [imgs pids].
  apply result_bind_inv in H as ([l evs_loss] & Hl & H).
  apply result_bind_inv in H as (wb & Hback & H).
  destruct (clock (optimizer_step _)) as [tm' w'].
  apply result_bind_inv in H as (evs_report & Hr & H).
  destruct (clock w') as [tm'' w''].
  injection H as <- <-.
  apply batch_loss_inv in Hl as (_ & Hseg & _).
  apply loss_segment_calls in Hseg. apply report_calls in Hr.
  rewrite map_app in Hseg. apply app_inj_tail in Hseg as [Hseg _].
  unfold batch_calls. rewrite map_cons, map_app, Hseg. cbn [map]. now rewrite Hr.
Qed.

Lemma batch_calls_same_engine (self self' : ImageTripletEngine.t) writer
    print_freq batch_idx :
  ImageTripletEngine.same_engine self self' ->
  batch_calls self' writer print_freq batch_idx
  = batch_calls self writer print_freq batch_idx.
Proof.
  intros Hs. unfold batch_calls.
  now rewrite (criteria_per_batch_same_engine _ _ Hs).
Qed.

Lemma train_loop_calls epoch max_epoch writer print_freq num_batches loader :
  forall (st : ImageTripletEngine.loop) batch_idx st' evs,
  ImageTripletEngine.train_loop epoch max_epoch writer print_freq num_batches
    st batch_idx loader = Ok (st', evs) ->
  map call_of evs
  = flat_map (batch_calls (ImageTripletEngine.self st) writer print_freq)
             (seqZ batch_idx (Z.of_nat (length loader))).
Proof.
  induction loader as [|data rest IH]; intros st batch_idx st' evs H.
  - injection H as <- <-. reflexivity.
  - cbn [ImageTripletEngine.train_loop] in H.
    apply result_bind_inv in H as ([st1 evs1] & H1 & H).
    apply result_bind_inv in H as ([st2 evs2] & H2 & H).
    injection H as <- <-.
    pose proof (train_batch_inv _ _ _ _ _ _ _ _ _ _ H1) as (Hs1 & _).
    apply train_batch_calls in H1. apply IH in H2.
    cbn [length]. rewrite Nat2Z.inj_succ, seqZ_cons by lia.
    rewrite Z.pred_succ. cbn [flat_map]. rewrite map_app, H1, H2. f_equal.
    replace (Z.succ batch_idx) with (batch_idx + 1) by lia.
    apply flat_map_ext. intros i.
    apply (batch_calls_same_engine _ _ _ _ _ Hs1).
Qed.

Lemma train_open_calls (self : ImageTripletEngine.t) epoch fixbase_epoch
    open_layers :
  map call_of (snd (ImageTripletEngine.train_open self epoch fixbase_epoch
                      open_layers))
  = opening_calls epoch fixbase_epoch open_layers.
Proof.
  unfold ImageTripletEngine.train_open, opening_calls.
  destruct open_layers; [destruct (decide _)|]; reflexivity.
Qed.
End Calls.

(** X1.  The order of the calls of an epoch that returns: at most one
    line about the layers left open; then, for each batch in turn, the
    gradients are cleared, the triplet and the cross-entropy criterion
    (and the four center criteria when [weight_c] is not zero) are
    evaluated, the loss is propagated back and the optimizer is stepped
    once, before the progress line (every [print_freq] batches) and the
    six scalars (when there is a writer); then the scheduler is stepped
    once, when there is one. *)
Theorem train_order_of_calls {tensor : Type} {runtime : Runtime tensor}
    (self : ImageTripletEngine.t) (epoch max_epoch : Z)
    (writer : option SummaryWriter) (print_freq fixbase_epoch : Z)
    (open_layers : option (list string)) (w : world)
    (self' : ImageTripletEngine.t) (w' : world) (log : list (event tensor)) :
  ImageTripletEngine.train self epoch max_epoch writer print_freq fixbase_epoch
    open_layers w = Ok (self', w', log) ->
  map call_of log
  = opening_calls epoch fixbase_epoch open_layers
    ++ flat_map (batch_calls self writer print_freq)
         (seqZ 0 (Z.of_nat (length (ImageTripletEngine.train_loader self))))
    ++ closing_calls (ImageTripletEngine.scheduler self).
Proof.
  intros H. unfold ImageTripletEngine.train in H.
  pose proof (train_open_calls self epoch fixbase_epoch open_layers) as Hopen.
  pose proof (train_open_inv self epoch fixbase_epoch open_layers) as Hinv.
  cbv zeta in Hinv. destruct Hinv as (Hself1 & _).
  destruct (ImageTripletEngine.train_open self epoch fixbase_epoch open_layers)
    as [self1 evs_open].
  cbn [fst snd] in *.
  destruct (clock (train_mode w)) as [tm w1].
  apply result_bind_inv in H as ([st evs] & Hloop & H).
  pose proof (train_loop_inv _ _ _ _ _ _ _ _ _ _ Hloop) as (Hs & _).
  apply train_loop_calls in Hloop. cbn [ImageTripletEngine.self] in *.
  apply same_engine_fields in Hs as (_ & Hsched & _).
  assert (Hsame : batch_calls self1 writer print_freq
                  = batch_calls self writer print_freq).
  { unfold batch_calls, ImageTripletEngine.criteria_per_batch.
    now rewrite Hself1. }
  assert (Hloader : ImageTripletEngine.train_loader self1
                    = ImageTripletEngine.train_loader self) by now rewrite Hself1.
  assert (Hsched1 : ImageTripletEngine.scheduler self1
                    = ImageTripletEngine.scheduler self) by now rewrite Hself1.
  rewrite Hsame, Hloader in Hloop. rewrite Hsched, Hsched1 in H.
  destruct (ImageTripletEngine.scheduler self); injection H as <- <- <-;
    rewrite !map_app, Hopen, Hloop; [reflexivity|].
  cbn. now rewrite !app_nil_r.
Qed.

Lemma train_order_of_calls_witness :
  exists e r,
    shape_engine_of "triplet"
      [(Some [4; 3; 256; 128], Some [4]); (Some [4; 3; 256; 128], Some [4])]
      (5 # 10000) (Some The_scheduler) = Some e
    /\ ImageTripletEngine.train e 0 10 (Some The_writer) 2 1 (Some ["classifier"])
         0%N = Ok r
    /\ map call_of (snd r)
       = opening_calls 0 1 (Some ["classifier"])
         ++ flat_map (batch_calls e (Some The_writer) 2)
              (seqZ 0 (Z.of_nat (length (ImageTripletEngine.train_loader e))))
         ++ closing_calls (ImageTripletEngine.scheduler e).
Proof.
  eexists _, _. split; [vm_compute; reflexivity|].
  lazymatch goal with
  | |- ImageTripletEngine.train ?e _ _ _ _ _ _ _ = _ /\ _ => pose (eng := e)
  end.
  split; [vm_compute; reflexivity|].
  lazymatch goal with
  | |- context [snd (?self', ?w', ?log)] =>
      exact (train_order_of_calls eng 0 10 (Some The_writer) 2 1
               (Some ["classifier"]) 0%N self' w' log
               ltac:(vm_compute; reflexivity))
  end.
Defined.

(** ** The training engine: when an epoch returns *)

(** In training mode [OSNet.forward] returns the logits, the logits
    and the features, or raises, by the loss mode alone. *)
Lemma OSNet_forward_train {tensor : Type} {torch : Torch tensor}
    (sd : state_dict) (net : OSNet.t) (x : tensor) :
  OSNet.training net = true ->
  OSNet.forward sd net x false
  = let '(v, va, vb, vc) := OSNet.pooled sd net x in
    let y := [linear sd (OSNet.classifier net) (batch_norm1d sd (OSNet.bn net) v);
              linear sd (OSNet.classifier_a net)
                (batch_norm1d sd (OSNet.bn_a net) va);
              linear sd (OSNet.classifier_b net)
                (batch_norm1d sd (OSNet.bn_b net) vb);
              linear sd (OSNet.classifier_c net)
                (batch_norm1d sd (OSNet.bn_c net) vc)] in
    if String.eqb (OSNet.loss net) "softmax" then Ok (Logits y)
    else if String.eqb (OSNet.loss net) "triplet"
         then Ok (LogitsFeatures y [v; va; vb; vc])
         else Raise (KeyError ("Unsupported loss: " +:+ OSNet.loss net)).
Proof.
  intros Ht. unfold OSNet.forward, OSNet.pooled.
  destruct (OSNet.featuremaps sd net x) as [[[f a] b] c].
  now rewrite Ht.
Qed.

Section Returns.
Context {tensor : Type} {runtime : Runtime tensor}.


(** [batch_loss] returns for a network in training mode with the loss
    mode ['triplet'], if the center criteria exist when they are
    read. *)
(** The engine after [batch_loss]: line 99 overwrites a zero
    [weight_c]. *)
Lemma batch_loss_engine (self : ImageTripletEngine.t) w imgs pids l evs :
  ImageTripletEngine.batch_loss self w imgs pids = Ok (l, evs) ->
  ImageTripletEngine.engine l
  = if ImageTripletEngine.nonzero (ImageTripletEngine.weight_c self)
    then self else ImageTripletEngine.set_weight_c self 0.
Proof.
  unfold ImageTripletEngine.batch_loss. intros H.
  apply result_bind_inv in H as (out & Hout & H).
  apply result_bind_inv in H as ([outputs features] & Hun & H).
  apply result_bind_inv in H as ([[self' loss_c] evs_c] & Hc & H).
  match type of H with
  | match ?v with Num _ => _ | Ten _ => _ end = _ =>
      destruct v as [q|loss] eqn:Hl; [discriminate H|]
  end.
  injection H as <- <-. cbn [ImageTripletEngine.engine].
  apply center_loss_inv in Hc.
  destruct (ImageTripletEngine.nonzero _); now destruct Hc as (-> & _).
Qed.
End Returns.

Section Epochs.
Context {tensor : Type} {runtime : Runtime tensor}.

Lemma train_batch_engine epoch max_epoch writer print_freq num_batches
    (st : ImageTripletEngine.loop) batch_idx data st' evs :
  ImageTripletEngine.train_batch epoch max_epoch writer print_freq num_batches
    st batch_idx data = Ok (st', evs) ->
  ImageTripletEngine.self st'
  = if ImageTripletEngine.nonzero
         (ImageTripletEngine.weight_c (ImageTripletEngine.self st))
    then ImageTripletEngine.self st
    else ImageTripletEngine.set_weight_c (ImageTripletEngine.self st) 0.
Proof.
  unfold ImageTripletEngine.train_batch. intros H.
  destruct (clock (ImageTripletEngine.now st)) as [tm w].
  destruct (parse_data_for_train data) as [imgs pids].
  apply result_bind_inv in H as ([l evs_loss] & Hl & H).
  apply result_bind_inv in H as (wb & Hback & H).
  destruct (clock (optimizer_step _)) as [tm' w'].
  apply result_bind_inv in H as (evs_report & Hr & H).
  destruct (clock w') as [tm'' w''].
  injection H as <- <-. cbn [ImageTripletEngine.self].
  exact (batch_loss_engine _ _ _ _ _ _ Hl).
Qed.

Lemma train_batch_needs epoch max_epoch writer print_freq num_batches
    (st : ImageTripletEngine.loop) batch_idx data st' evs :
  ImageTripletEngine.train_batch epoch max_epoch writer print_freq num_batches
    st batch_idx data = Ok (st', evs) ->
  OSNet.training
    (Model.net (ImageTripletEngine.model (ImageTripletEngine.self st))) = true ->
  print_freq <> 0 /\ ready (ImageTripletEngine.self st).
Proof.
  intros H Ht.
  apply train_batch_inv in H as (_ & Hpf & (seg & l & tail & _ & Hseg & _) & _).
  split; [exact Hpf|]. split; [exact Ht|].
  destruct Hseg as (w & imgs & out & outputs & features & pids & evs_c & loss_c
                    & Hout & Hun & _ & _ & Hc).
  rewrite (OSNet_forward_train _ _ _ Ht) in Hout.
  destruct (OSNet.pooled _ _ _) as [[[v va] vb] vc]. cbv zeta in Hout.
  split.
  - destruct (String.eqb _ "softmax").
    + injection Hout as <-. discriminate Hun.
    + destruct (String.eqb_spec
                  (OSNet.loss (Model.net (ImageTripletEngine.model
                                            (ImageTripletEngine.self st))))
                  "triplet") as [E|_]; [exact E|discriminate Hout].
  - intros Hnz. rewrite Hnz in Hc.
    destruct Hc as (c & ca & cb & cc & f0 & f1 & f2 & f3 & l0 & l1 & l2 & l3
                    & -> & -> & -> & -> & _).
    now repeat split.
Qed.

(** The engine at the end of the loop. *)
Lemma train_loop_engine epoch max_epoch writer print_freq num_batches loader :
  forall (st : ImageTripletEngine.loop) batch_idx st' evs,
  ImageTripletEngine.train_loop epoch max_epoch writer print_freq num_batches
    st batch_idx loader = Ok (st', evs) ->
  ImageTripletEngine.self st'
  = match loader with
    | [] => ImageTripletEngine.self st
    | _ :: _ =>
        if ImageTripletEngine.nonzero
             (ImageTripletEngine.weight_c (ImageTripletEngine.self st))
        then ImageTripletEngine.self st
        else ImageTripletEngine.set_weight_c (ImageTripletEngine.self st) 0
    end.
Proof.
  induction loader as [|data rest IH]; intros st batch_idx st' evs H.
  - now injection H as <- <-.
  - cbn [ImageTripletEngine.train_loop] in H.
    apply result_bind_inv in H as ([st1 evs1] & H1 & H).
    apply result_bind_inv in H as ([st2 evs2] & H2 & H).
    injection H as <- <-.
    apply train_batch_engine in H1. apply IH in H2. rewrite H2, H1.
    destruct rest; [reflexivity|].
    destruct (ImageTripletEngine.nonzero
                (ImageTripletEngine.weight_c (ImageTripletEngine.self st)))
      eqn:Hnz; [now rewrite Hnz|].
    reflexivity.
Qed.

(** The engine and the state the loop of [train] starts from. *)
Lemma train_unfold (self : ImageTripletEngine.t) epoch max_epoch writer
    print_freq fixbase_epoch open_layers w :
  exists self1 evs_open tm w1,
    ImageTripletEngine.train_open self epoch fixbase_epoch open_layers
    = (self1, evs_open)
    /\ self1 = ImageTripletEngine.set_model self (ImageTripletEngine.model self1)
    /\ Model.net (ImageTripletEngine.model self1)
       = OSNet.train true (Model.net (ImageTripletEngine.model self))
    /\ ImageTripletEngine.train self epoch max_epoch writer print_freq
         fixbase_epoch open_layers w
       = (r <- ImageTripletEngine.train_loop epoch max_epoch writer print_freq
                 (Z.of_nat (length (ImageTripletEngine.train_loader self)))
                 (ImageTripletEngine.mk_loop _ _ self1 w1 AverageMeter
                    AverageMeter AverageMeter AverageMeter AverageMeter tm)
                 0 (ImageTripletEngine.train_loader self);;
          let '(st, evs) := r in
          match ImageTripletEngine.scheduler self with
          | Some _ =>
              Ok (ImageTripletEngine.self st,
                  scheduler_step (ImageTripletEngine.now st),
                  evs_open ++ evs ++ [Scheduler_step])
          | None =>
              Ok (ImageTripletEngine.self st, ImageTripletEngine.now st,
                  evs_open ++ evs)
          end)%result.
Proof.
  pose proof (train_open_inv self epoch fixbase_epoch open_layers) as Hinv.
  cbv zeta in Hinv. destruct Hinv as (Hself1 & Hnet & _).
  unfold ImageTripletEngine.train.
  destruct (ImageTripletEngine.train_open self epoch fixbase_epoch open_layers)
    as [self1 evs_open].
  cbn [fst snd] in *.
  destruct (clock (train_mode w)) as [tm w1].
  exists self1, evs_open, tm, w1.
  split; [reflexivity|]. split; [exact Hself1|]. split; [exact Hnet|].
  assert (Hloader : ImageTripletEngine.train_loader self1
                    = ImageTripletEngine.train_loader self) by now rewrite Hself1.
  rewrite Hloader.
  destruct (ImageTripletEngine.train_loop _ _ _ _ _ _ _ _) as [[st evs]|e] eqn:E;
    [|reflexivity].
  cbn [result_bind].
  apply train_loop_inv in E as (Hs & _). cbn [ImageTripletEngine.self] in Hs.
  apply same_engine_fields in Hs as (_ & Hsched & _).
  rewrite Hsched, Hself1. reflexivity.
Qed.
End Epochs.

(** X2.  What an epoch needs to return.  If [train] returns normally
    on a loader that is not empty, then [print_freq] is not zero, the
    loss mode of the network is ['triplet'], and the center criteria
    exist if [weight_c] is not zero. *)
Theorem train_returns_only_if {tensor : Type} {runtime : Runtime tensor}
    (self : ImageTripletEngine.t) (epoch max_epoch : Z)
    (writer : option SummaryWriter) (print_freq fixbase_epoch : Z)
    (open_layers : option (list string)) (w : world)
    (self' : ImageTripletEngine.t) (w' : world) (log : list (event tensor)) :
  ImageTripletEngine.train self epoch max_epoch writer print_freq fixbase_epoch
    open_layers w = Ok (self', w', log) ->
  ImageTripletEngine.train_loader self <> [] ->
  print_freq <> 0
  /\ OSNet.loss (Model.net (ImageTripletEngine.model self)) = "triplet"
  /\ center_criteria_present self.
Proof.
  intros H Hne.
  destruct (train_unfold self epoch max_epoch writer print_freq fixbase_epoch
              open_layers w)
    as (self1 & evs_open & tm & w1 & _ & Hself1 & Hnet & E).
  rewrite E in H. clear E.
  assert (Hready : ready self1 ->
                   OSNet.loss (Model.net (ImageTripletEngine.model self))
                   = "triplet"
                   /\ center_criteria_present self).
  { unfold ready, center_criteria_present. rewrite Hnet, Hself1. cbn.
    intros (_ & ? & ?); split; assumption. }
  destruct (ImageTripletEngine.train_loader self) as [|data rest];
    [contradiction|].
  apply result_bind_inv in H as ([st evs] & H & _).
  cbn [ImageTripletEngine.train_loop] in H.
  apply result_bind_inv in H as ([st1 evs1] & H1 & _).
  apply train_batch_needs in H1 as (Hpf & Hr);
    [|cbn [ImageTripletEngine.self]; now rewrite Hnet].
  split; [exact Hpf|]. now apply Hready.
Qed.

Lemma train_returns_only_if_witness :
  exists e r,
    shape_engine (5 # 10000) = Some e
    /\ ImageTripletEngine.train e 0 10 None 10 0 None 0%N = Ok r
    /\ OSNet.loss (Model.net (ImageTripletEngine.model e)) = "triplet".
Proof.
  eexists _, _. split; [vm_compute; reflexivity|].
  lazymatch goal with
  | |- ImageTripletEngine.train ?e _ _ _ _ _ _ _ = _ /\ _ => pose (eng := e)
  end.
  split; [vm_compute; reflexivity|].
  exact (proj1 (proj2 (train_returns_only_if eng 0 10 None 10 0 None 0%N
                         _ _ _ ltac:(vm_compute; reflexivity)
                         ltac:(vm_compute; discriminate)))).
Defined.



(** X4.  What an epoch that returns leaves of the engine: the network
    in training mode, and every attribute as it was, except that a
    [weight_c] equal to zero has been overwritten with the integer 0
    (line 99) once a batch has been processed. *)
Theorem train_leaves_the_engine {tensor : Type} {runtime : Runtime tensor}
    (self : ImageTripletEngine.t) (epoch max_epoch : Z)
    (writer : option SummaryWriter) (print_freq fixbase_epoch : Z)
    (open_layers : option (list string)) (w : world)
    (self' : ImageTripletEngine.t) (w' : world) (log : list (event tensor)) :
  ImageTripletEngine.train self epoch max_epoch writer print_freq fixbase_epoch
    open_layers w = Ok (self', w', log) ->
  Model.net (ImageTripletEngine.model self')
  = OSNet.train true (Model.net (ImageTripletEngine.model self))
  /\ ImageTripletEngine.scheduler self' = ImageTripletEngine.scheduler self
  /\ ImageTripletEngine.use_gpu self' = ImageTripletEngine.use_gpu self
  /\ ImageTripletEngine.train_loader self' = ImageTripletEngine.train_loader self
  /\ ImageTripletEngine.weight_t self' = ImageTripletEngine.weight_t self
  /\ ImageTripletEngine.weight_x self' = ImageTripletEngine.weight_x self
  /\ ImageTripletEngine.criterion_t self' = ImageTripletEngine.criterion_t self
  /\ ImageTripletEngine.criterion_x self' = ImageTripletEngine.criterion_x self
  /\ ImageTripletEngine.criterion_c self' = ImageTripletEngine.criterion_c self
  /\ ImageTripletEngine.criterion_ca self' = ImageTripletEngine.criterion_ca self
  /\ ImageTripletEngine.criterion_cb self' = ImageTripletEngine.criterion_cb self
  /\ ImageTripletEngine.criterion_cc self' = ImageTripletEngine.criterion_cc self
  /\ ImageTripletEngine.weight_c self'
     = match ImageTripletEngine.train_loader self with
       | [] => ImageTripletEngine.weight_c self
       | _ :: _ =>
           if ImageTripletEngine.nonzero (ImageTripletEngine.weight_c self)
           then ImageTripletEngine.weight_c self else 0%Q
       end.
Proof.
  intros H.
  destruct (train_unfold self epoch max_epoch writer print_freq fixbase_epoch
              open_layers w)
    as (self1 & evs_open & tm & w1 & _ & Hself1 & Hnet & E).
  rewrite E in H. clear E.
  apply result_bind_inv in H as ([st evs] & Hloop & H).
  apply train_loop_engine in Hloop. cbn [ImageTripletEngine.self] in Hloop.
  assert (self' = ImageTripletEngine.self st) as ->
    by (destruct (ImageTripletEngine.scheduler self); now injection H).
  rewrite Hloop. clear Hloop H.
  assert (Hwc : ImageTripletEngine.weight_c self1
                = ImageTripletEngine.weight_c self) by now rewrite Hself1.
  rewrite Hwc.
  destruct (ImageTripletEngine.train_loader self) as [|data rest] eqn:Hld;
    [|destruct (ImageTripletEngine.nonzero (ImageTripletEngine.weight_c self))];
    rewrite Hself1; cbn; rewrite ?Hnet, ?Hld; repeat split; reflexivity.
Qed.

Lemma train_leaves_the_engine_witness :
  exists e r,
    shape_engine_of "triplet" [(Some [4; 3; 256; 128], Some [4])] (0 # 5) None
    = Some e
    /\ ImageTripletEngine.train e 0 10 None 10 0 None 0%N = Ok r
    /\ ImageTripletEngine.weight_c e = (0 # 5)%Q
    /\ ImageTripletEngine.weight_c (fst (fst r)) = 0%Q.
Proof.
  eexists _, _. split; [vm_compute; reflexivity|].
  lazymatch goal with
  | |- ImageTripletEngine.train ?e _ _ _ _ _ _ _ = _ /\ _ => pose (eng := e)
  end.
  split; [vm_compute; reflexivity|]. split; [reflexivity|].
  lazymatch goal with
  | |- context [fst (fst (?self', ?w', ?log))] =>
      pose proof (train_leaves_the_engine eng 0 10 None 10 0 None 0%N
                    self' w' log ltac:(vm_compute; reflexivity)) as H
  end.
  exact (proj2 (proj2 (proj2 (proj2 (proj2 (proj2 (proj2 (proj2 (proj2
           (proj2 (proj2 (proj2 H)))))))))))).
Defined.

(** X5.  The center criteria that [__init__] builds fit the network of
    [pfh_osnet]: the feature dimension of each (512, 64, 96, 128) is the
    width of the feature vector that [train] hands to it, for a batch
    of at least two images in training mode. *)
Theorem center_criteria_fit_the_features
    {tensor : Type} {runtime : Runtime tensor}
    (num_classes : Z) (IN : bool) (n : N) (net : OSNet.t) (n' : N)
    (num_train_pids : Z) (train_loader : list batch)
    (margin weight_t weight_x weight_c : Q) (scheduler : option LRScheduler)
    (use_gpu label_smooth : bool) (b h w : Z) :
  pfh_osnet num_classes "triplet" IN n = Ok (net, n') ->
  ImageTripletEngine.nonzero weight_c = true ->
  2 <= b -> 13 <= h -> 13 <= w ->
  (IN = true -> 29 <= h \/ 29 <= w) ->
  let self :=
    ImageTripletEngine.init num_train_pids train_loader (Model.of_net net)
      margin weight_t weight_x weight_c scheduler use_gpu label_smooth in
  exists d da db dc,
    OSNet.pooled (torch := Shape) true net (Some [b; 3; h; w])
    = (Some [b; d], Some [b; da], Some [b; db], Some [b; dc])
    /\ ImageTripletEngine.criterion_c self = Some (CenterLoss num_train_pids d)
    /\ ImageTripletEngine.criterion_ca self = Some (CenterLoss num_train_pids da)
    /\ ImageTripletEngine.criterion_cb self = Some (CenterLoss num_train_pids db)
    /\ ImageTripletEngine.criterion_cc self = Some (CenterLoss num_train_pids dc).
Proof.
  intros Hnet Hnz Hb Hh Hw Hinorm self. unfold pfh_osnet in Hnet.
  destruct (OSNet_pooled_shape true _ _ _ _ _ _ _ _ _ _ b h w Hnet
              eq_refl eq_refl ltac:(lia) Hh Hw Hinorm ltac:(intros _; lia))
    as [Hp _].
  exists 512, 64, 96, 128. split; [exact Hp|].
  subst self. unfold ImageTripletEngine.init. rewrite Hnz. now repeat split.
Qed.

Lemma center_criteria_fit_the_features_witness :
  exists net n',
    pfh_osnet 751 "triplet" false 0%N = Ok (net, n')
    /\ exists d da db dc,
         OSNet.pooled (torch := Shape) true net (Some [4; 3; 256; 128])
         = (Some [4; d], Some [4; da], Some [4; db], Some [4; dc])
         /\ ImageTripletEngine.criterion_c
              (ImageTripletEngine.init (runtime := ShapeRuntime) 751 []
                 (Model.of_net net) (3 # 10) 1 1 (5 # 10000) None false true)
            = Some (CenterLoss 751 d).
Proof.
  eexists _, _. split; [vm_compute; reflexivity|].
  lazymatch goal with
  | |- context [OSNet.pooled _ ?net _] => pose (nt := net)
  end.
  destruct (center_criteria_fit_the_features (runtime := ShapeRuntime)
              751 false 0%N nt _ 751 [] (3 # 10) 1 1 (5 # 10000) None false true
              4 256 128 ltac:(vm_compute; reflexivity) eq_refl
              ltac:(lia) ltac:(lia) ltac:(lia) ltac:(discriminate))
    as (d & da & db & dc & Hp & Hc & _).
  exists d, da, db, dc. split; [exact Hp | exact Hc].
Defined.

(** ** The network: what [forward] returns *)

(** X6.  The feature maps of the network of [pfh_osnet] on a batch of
    images of height [h] and width [w], in either mode: 512 channels at
    1/16 of the size from the trunk, and from the three side branches
    64 channels at 1/4, 96 at 1/8 and 128 at 1/16; for 256x128 images
    these are the sizes 16x8, 64x32, 32x16 and 16x8.  The last maps
    must have more than one position for the instance normalizations
    of a network built with [IN=True], and more than one value per
    channel for the batch normalizations in training mode. *)
Theorem OSNet_featuremaps_shapes (num_classes : Z) (loss : string) (IN : bool)
    (n : N) (net : OSNet.t) (n' : N) (training : bool) (b h w : Z) :
  pfh_osnet num_classes loss IN n = Ok (net, n') ->
  1 <= b -> 13 <= h -> 13 <= w ->
  (IN = true -> 29 <= h \/ 29 <= w) ->
  (training = true -> 2 <= b \/ 29 <= h \/ 29 <= w) ->
  OSNet.featuremaps (torch := Shape) training net (Some [b; 3; h; w])
  = (Some [b; 512; after_pool (after_pool (after_stem h));
              after_pool (after_pool (after_stem w))],
     Some [b; 64; after_stem h; after_stem w],
     Some [b; 96; after_pool (after_stem h); after_pool (after_stem w)],
     Some [b; 128; after_pool (after_pool (after_stem h));
              after_pool (after_pool (after_stem w))])
  /\ (h = 256 -> w = 128 ->
      OSNet.featuremaps (torch := Shape) training net (Some [b; 3; h; w])
      = (Some [b; 512; 16; 8], Some [b; 64; 64; 32],
         Some [b; 96; 32; 16], Some [b; 128; 16; 8])).
Proof.
  intros E Hb Hh Hw Hinorm Hbn. unfold pfh_osnet in E.
  assert (H : OSNet.featuremaps (torch := Shape) training net
                (Some [b; 3; h; w])
              = (Some [b; 512; after_pool (after_pool (after_stem h));
                          after_pool (after_pool (after_stem w))],
                 Some [b; 64; after_stem h; after_stem w],
                 Some [b; 96; after_pool (after_stem h);
                          after_pool (after_stem w)],
                 Some [b; 128; after_pool (after_pool (after_stem h));
                          after_pool (after_pool (after_stem w))])).
  { apply (OSNet_featuremaps_shape training _ _ _ _ _ _ _ _ _ _ b h w E
             eq_refl eq_refl (fun _ => Hb) Hh Hw).
    - intros Hi. apply last_maps_large; auto.
    - intros Ht. pose proof (last_maps_positive h w Hh Hw).
      destruct (Hbn Ht) as [H2|Hl]; [nia|].
      pose proof (last_maps_large h w Hh Hw Hl). nia. }
  split; [exact H|]. intros -> ->. rewrite H. reflexivity.
Qed.

Lemma OSNet_featuremaps_shapes_witness :
  exists net n',
    pfh_osnet 751 "triplet" true 0%N = Ok (net, n')
    /\ OSNet.featuremaps (torch := Shape) true net (Some [4; 3; 256; 128])
       = (Some [4; 512; 16; 8], Some [4; 64; 64; 32],
          Some [4; 96; 32; 16], Some [4; 128; 16; 8]).
Proof.
  destruct (pfh_osnet_total 751 "triplet" true 0%N) as (net & n' & E).
  exists net, n'. split; [exact E|].
  exact (proj2 (OSNet_featuremaps_shapes 751 "triplet" true 0%N net n' true
                  4 256 128 E ltac:(lia) ltac:(lia) ltac:(lia)
                  ltac:(intros _; lia) ltac:(intros _; lia))
               eq_refl eq_refl).
Defined.

(** X7.  With [return_featuremaps] set, [forward] returns the map of
    the third side branch ([c], 128 channels), not the map of the trunk,
    and does so in either mode and for every loss mode, without an
    exception of its own. *)
Theorem OSNet_forward_return_featuremaps :
  (forall (tensor : Type) (torch : Torch tensor) (sd : state_dict)
          (net : OSNet.t) (x : tensor),
     OSNet.forward sd net x true
     = Ok (FeatureMap (snd (OSNet.featuremaps sd net x))))
  /\ (forall (num_classes : Z) (loss : string) (IN : bool) (n : N)
             (net : OSNet.t) (n' : N) (mode : bool) (b h w : Z),
        pfh_osnet num_classes loss IN n = Ok (net, n') ->
        1 <= b -> 13 <= h -> 13 <= w ->
        (IN = true -> 29 <= h \/ 29 <= w) ->
        (mode = true -> 2 <= b \/ 29 <= h \/ 29 <= w) ->
        OSNet.forward (torch := Shape) mode (OSNet.train mode net)
          (Some [b; 3; h; w]) true
        = Ok (FeatureMap
                (Some [b; 128; after_pool (after_pool (after_stem h));
                       after_pool (after_pool (after_stem w))]))).
Proof.
  assert (H : forall (tensor : Type) (torch : Torch tensor) (sd : state_dict)
                     (net : OSNet.t) (x : tensor),
             OSNet.forward sd net x true
             = Ok (FeatureMap (snd (OSNet.featuremaps sd net x)))).
  { intros. unfold OSNet.forward.
    now destruct (OSNet.featuremaps sd net x) as [[[f a] b] c]. }
  split; [exact H|].
  intros * E Hb Hh Hw Hinorm Hbn. rewrite H, OSNet_featuremaps_train.
  unfold pfh_osnet in E.
  rewrite (OSNet_featuremaps_shape mode _ _ _ _ _ _ _ _ _ _ b h w E
             eq_refl eq_refl (fun _ => Hb) Hh Hw); [reflexivity| |].
  - intros Hi. apply last_maps_large; auto.
  - intros Ht. pose proof (last_maps_positive h w Hh Hw).
    destruct (Hbn Ht) as [H2|Hl]; [nia|].
    pose proof (last_maps_large h w Hh Hw Hl). nia.
Qed.


(** X9.  The shapes of what the network of [pfh_osnet] returns in
    training mode for a batch of [b] images, two at least (a batch
    normalization in training mode wants more than one value per
    channel): four matrices of logits of [num_classes] columns, and
    with the loss mode ['triplet'] also the four features of 512, 64,
    96 and 128 columns. *)
Theorem OSNet_forward_training_shapes (num_classes : Z) (loss : string)
    (IN : bool) (n : N) (net : OSNet.t) (n' : N) (b h w : Z) :
  pfh_osnet num_classes loss IN n = Ok (net, n') ->
  2 <= b -> 13 <= h -> 13 <= w ->
  (IN = true -> 29 <= h \/ 29 <= w) ->
  let y := replicate 4 (Some [b; num_classes]) in
  (loss = "softmax" ->
   OSNet.forward (torch := Shape) true net (Some [b; 3; h; w]) false
   = Ok (Logits y))
  /\ (loss = "triplet" ->
      OSNet.forward (torch := Shape) true net (Some [b; 3; h; w]) false
      = Ok (LogitsFeatures y
              [Some [b; 512]; Some [b; 64]; Some [b; 96]; Some [b; 128]])).
Proof.
  intros E Hb Hh Hw Hinorm y. unfold pfh_osnet in E.
  destruct (OSNet_init_heads _ _ _ _ _ _ _ _ _ _ E)
    as (Ht & Hl & _ & Hbn & Hbn_a & Hbn_b & Hbn_c
        & [Hc Hc'] & [Hca Hca'] & [Hcb Hcb'] & [Hcc Hcc']).
  destruct (OSNet_pooled_shape true _ _ _ _ _ _ _ _ _ _ b h w E
              eq_refl eq_refl ltac:(lia) Hh Hw Hinorm ltac:(intros _; lia))
    as [Hp _].
  assert (Hy : forall (m : Linear.t) (bn : BatchNorm1d.t) c,
             BatchNorm1d.num_features bn = c -> Linear.in_features m = c ->
             Linear.out_features m = num_classes ->
             linear (Torch := Shape) true m
               (batch_norm1d (Torch := Shape) true bn (Some [b; c]))
             = Some [b; num_classes]).
  { intros m bn c <- Hi <-. cbn [batch_norm1d linear Shape].
    rewrite shape_batch_norm2_eq by (intros _; lia). unfold shape_linear.
    now rewrite decide_True. }
  rewrite (OSNet_forward_train _ _ _ Ht), Hp. cbv zeta.
  rewrite (Hy _ _ 512 Hbn Hc Hc'), (Hy _ _ 64 Hbn_a Hca Hca'),
    (Hy _ _ 96 Hbn_b Hcb Hcb'), (Hy _ _ 128 Hbn_c Hcc Hcc').
  rewrite Hl. split; intros ->; reflexivity.
Qed.

Lemma OSNet_forward_training_shapes_witness :
  exists net n',
    pfh_osnet 751 "softmax" false 0%N = Ok (net, n')
    /\ OSNet.forward (torch := Shape) true net (Some [4; 3; 256; 128]) false
       = Ok (Logits (replicate 4 (Some [4; 751]))).
Proof.
  destruct (pfh_osnet_total 751 "softmax" false 0%N) as (net & n' & E).
  exists net, n'. split; [exact E|].
  exact (proj1 (OSNet_forward_training_shapes 751 "softmax" false 0%N net n'
                  4 256 128 E ltac:(lia) ltac:(lia) ltac:(lia)
                  ltac:(discriminate)) eq_refl).
Defined.

(** ** Shapes that PyTorch rejects

    Once an operation has rejected its input, nothing downstream
    produces a tensor. *)

Lemma shape_conv2d_None (m : Conv2d.t) : shape_conv2d m None = None.
Proof. unfold shape_conv2d. now destruct (conv_weight_ok m). Qed.

Lemma Conv1x1_None (sd : bool) (m : Conv1x1.t) :
  Conv1x1.forward (torch := Shape) sd m None = None.
Proof.
  unfold Conv1x1.forward. cbn [conv2d batch_norm2d relu Shape].
  now rewrite shape_conv2d_None.
Qed.

Lemma Conv1x1Linear_None (sd : bool) (m : Conv1x1Linear.t) :
  Conv1x1Linear.forward (torch := Shape) sd m None = None.
Proof.
  unfold Conv1x1Linear.forward. cbn [conv2d batch_norm2d Shape].
  now rewrite shape_conv2d_None.
Qed.

Lemma LightConv3x3_None (sd : bool) (m : LightConv3x3.t) :
  LightConv3x3.forward (torch := Shape) sd m None = None.
Proof.
  unfold LightConv3x3.forward. cbn [conv2d batch_norm2d relu Shape].
  now rewrite !shape_conv2d_None.
Qed.

Lemma sequential_None (sd : bool) (ms : list LightConv3x3.t) :
  OSBlock.sequential (torch := Shape) sd ms None = None.
Proof.
  unfold OSBlock.sequential. induction ms as [|m ms IH]; [reflexivity|].
  cbn [fold_left]. now rewrite LightConv3x3_None.
Qed.

Lemma ChannelGate_None (sd : bool) (g : ChannelGate.t) :
  ChannelGate.forward (torch := Shape) sd g None = None.
Proof.
  unfold ChannelGate.forward.
  cbn [adaptive_avg_pool2d conv2d layer_norm relu sigmoid mul Shape].
  change (shape_adaptive (ChannelGate.global_avgpool g) None) with (@None (list Z)).
  rewrite shape_conv2d_None.
  destruct (ChannelGate.norm1 g), (ChannelGate.gate_activation g) as [[]|],
    (ChannelGate.return_gates g); cbn [shape_suffix];
    rewrite ?shape_conv2d_None; reflexivity.
Qed.

Lemma OSBlock_None (sd : bool) (blk : OSBlock.t) :
  OSBlock.forward (torch := Shape) sd blk None = (None, None).
Proof.
  unfold OSBlock.forward.
  rewrite Conv1x1_None, LightConv3x3_None, !sequential_None, ChannelGate_None.
  change (add (Torch := Shape) None None) with (@None (list Z)).
  rewrite Conv1x1Linear_None.
  destruct (OSBlock.downsample blk), (OSBlock.IN blk);
    rewrite ?Conv1x1Linear_None; reflexivity.
Qed.

(** What the constructor of a block has built. *)
Lemma OSBlock_init_parts in_channels out_channels IN bottleneck_reduction n blk n' :
  OSBlock.init in_channels out_channels IN bottleneck_reduction n = Ok (blk, n') ->
  let mid := out_channels / bottleneck_reduction in
  let light m := exists n1 n2, LightConv3x3.init mid mid n1 = Ok (m, n2) in
  bottleneck_reduction <> 0
  /\ (exists n1 n2, Conv1x1.init in_channels mid 1 1 n1 = Ok (OSBlock.conv1 blk, n2))
  /\ light (OSBlock.conv2a blk)
  /\ Forall light (OSBlock.conv2b blk)
  /\ Forall light (OSBlock.conv2c blk)
  /\ Forall light (OSBlock.conv2d blk)
  /\ (exists n1 n2,
        ChannelGate.init mid None false "sigmoid" 16 false n1
        = Ok (OSBlock.gate blk, n2))
  /\ (exists n1 n2,
        Conv1x1Linear.init mid out_channels 1 n1 = Ok (OSBlock.conv3 blk, n2))
  /\ (if decide (in_channels <> out_channels)
      then exists m n1 n2,
             OSBlock.downsample blk = Some m
             /\ Conv1x1Linear.init in_channels out_channels 1 n1 = Ok (m, n2)
      else OSBlock.downsample blk = None)
  /\ (if IN
      then exists m, OSBlock.IN blk = Some m
                     /\ InstanceNorm2d.num_features m = out_channels
      else OSBlock.IN blk = None).
Proof.
  intros H mid light. pose proof (OSBlock_init_IN _ _ _ _ _ _ _ H) as HIN.
  unfold OSBlock.init in H.
  apply bind_inv in H as (mid' & ? & Hmid & H).
  apply lift_inv in Hmid as (? & Hmid & [= <- <-]).
  unfold py_floordiv in Hmid. destruct (decide _) as [|Hbr]; [discriminate|].
  injection Hmid as <-. fold mid in H.
  apply bind_inv in H as (conv1 & ? & Hconv1 & H).
  apply bind_inv in H as (conv2a & ? & Hconv2a & H).
  apply bind_inv in H as (b1 & ? & Hb1 & H).
  apply bind_inv in H as (b2 & ? & Hb2 & H).
  apply bind_inv in H as (c1 & ? & Hc1 & H).
  apply bind_inv in H as (c2 & ? & Hc2 & H).
  apply bind_inv in H as (c3 & ? & Hc3 & H).
  apply bind_inv in H as (d1 & ? & Hd1 & H).
  apply bind_inv in H as (d2 & ? & Hd2 & H).
  apply bind_inv in H as (d3 & ? & Hd3 & H).
  apply bind_inv in H as (d4 & ? & Hd4 & H).
  apply bind_inv in H as (gate & ? & Hgate & H).
  apply bind_inv in H as (conv3 & ? & Hconv3 & H).
  apply bind_inv in H as (down & ? & Hdown & H).
  apply bind_inv in H as (inorm & ? & Hin & H).
  apply ret_inv in H. injection H as -> ->.
  cbn [OSBlock.conv1 OSBlock.conv2a OSBlock.conv2b OSBlock.conv2c OSBlock.conv2d
       OSBlock.gate OSBlock.conv3 OSBlock.downsample] in *.
  split; [exact Hbr|]. split; [eauto|]. split; [unfold light; eauto|].
  split; [repeat constructor; unfold light; eauto|].
  split; [repeat constructor; unfold light; eauto|].
  split; [repeat constructor; unfold light; eauto|].
  split; [eauto|]. split; [eauto|]. split; [|exact HIN].
  destruct (decide (in_channels <> out_channels)).
  - apply bind_inv in Hdown as (m & ? & Hm & Hdown).
    apply ret_inv in Hdown. injection Hdown as -> ->. eauto.
  - apply ret_inv in Hdown. now injection Hdown as -> ->.
Qed.

(** The four branches of a block keep the shape of what [conv1]
    passes them. *)
Lemma OSBlock_branches_shape (sd : bool) in_channels out_channels IN
    bottleneck_reduction n blk n' b h w :
  OSBlock.init in_channels out_channels IN bottleneck_reduction n = Ok (blk, n') ->
  1 <= out_channels / bottleneck_reduction -> 1 <= h -> 1 <= w ->
  (sd = true -> 1 < b * h * w) ->
  let x1 := Some [b; out_channels / bottleneck_reduction; h; w] in
  OSBlock.branches (torch := Shape) sd blk (Some [b; in_channels; h; w])
  = (x1, x1, x1, x1).
Proof.
  intros H Hmid Hh Hw Hbn x1.
  apply OSBlock_init_parts in H. cbv zeta in H.
  destruct H as (_ & (? & ? & Hconv1) & (? & ? & Hconv2a) & Hb & Hc & Hd & _).
  unfold OSBlock.branches.
  rewrite (Conv1x1_shape sd _ _ _ _ _ b h w Hconv1) by assumption.
  rewrite (LightConv3x3_shape sd _ _ _ _ _ b h w Hconv2a) by assumption.
  now rewrite !(sequential_shape sd (out_channels / bottleneck_reduction))
    by assumption.
Qed.

(** A gate over fewer than 16 channels has a hidden layer without
    channels, which its first convolution cannot produce. *)
Lemma ChannelGate_narrow (sd : bool) mid n g n' b h w :
  ChannelGate.init mid None false "sigmoid" 16 false n = Ok (g, n') ->
  0 <= mid < 16 ->
  ChannelGate.forward (torch := Shape) sd g (Some [b; mid; h; w]) = None.
Proof.
  intros H Hmid. cbn in H. injection H as <- <-.
  unfold ChannelGate.forward.
  cbn [ChannelGate.fc1 ChannelGate.fc2 ChannelGate.norm1 ChannelGate.global_avgpool
       ChannelGate.gate_activation ChannelGate.return_gates].
  change (adaptive_avg_pool2d _ (Some [b; mid; h; w])) with (Some [b; mid; 1; 1]).
  cbn [conv2d relu sigmoid mul Shape]. unfold shape_conv2d at 2.
  replace (conv_weight_ok _) with false.
  - now rewrite shape_conv2d_None.
  - symmetry. apply bool_decide_eq_false. cbn.
    rewrite Z.div_small by lia. lia.
Qed.

(** The two sums of a block, whatever its instance normalization. *)
Lemma OSBlock_sums_shape (sd : bool) in_channels out_channels IN
    bottleneck_reduction n blk n' b h w :
  OSBlock.init in_channels out_channels IN bottleneck_reduction n = Ok (blk, n') ->
  0 < bottleneck_reduction -> 16 <= out_channels / bottleneck_reduction ->
  1 <= h -> 1 <= w ->
  (sd = true -> 1 < b * h * w) ->
  OSBlock.gated_sum (torch := Shape) sd blk (Some [b; in_channels; h; w])
  = Some [b; out_channels / bottleneck_reduction; h; w]
  /\ OSBlock.residual_sum (torch := Shape) sd blk (Some [b; in_channels; h; w])
     = Some [b; out_channels; h; w].
Proof.
  intros H Hbr Hmid Hh Hw Hbn.
  assert (Hout : 1 <= out_channels) by (Z.div_mod_to_equations; nia).
  assert (Hg : OSBlock.gated_sum (torch := Shape) sd blk
                 (Some [b; in_channels; h; w])
               = Some [b; out_channels / bottleneck_reduction; h; w]).
  { unfold OSBlock.gated_sum, OSBlock.fusion.
    rewrite (OSBlock_branches_shape sd _ _ _ _ _ _ _ b h w H)
      by (assumption || lia).
    apply OSBlock_init_parts in H. cbv zeta in H.
    destruct H as (_ & _ & _ & _ & _ & _ & (? & ? & Hgate) & _).
    rewrite !(ChannelGate_shape sd _ _ _ _ b h w Hgate) by assumption.
    change (add (Some ?s) (Some ?s')) with (broadcast s s').
    rewrite broadcast_refl.
    change (add (Some ?s) (Some ?s')) with (broadcast s s').
    rewrite broadcast_refl.
    change (add (Some ?s) (Some ?s')) with (broadcast s s').
    now rewrite broadcast_refl. }
  split; [exact Hg|].
  unfold OSBlock.residual_sum. rewrite Hg.
  apply OSBlock_init_parts in H. cbv zeta in H.
  destruct H as (_ & _ & _ & _ & _ & _ & _ & (? & ? & Hconv3) & Hdown & _).
  rewrite (Conv1x1Linear_shape sd _ _ _ _ _ b h w Hconv3) by assumption.
  destruct (decide (in_channels <> out_channels)) as [Hd|Hd].
  - destruct Hdown as (m & ? & ? & -> & Hm).
    rewrite (Conv1x1Linear_shape sd _ _ _ _ _ b h w Hm) by assumption.
    change (add (Some ?s) (Some ?s')) with (broadcast s s').
    now rewrite broadcast_refl.
  - rewrite Hdown. replace in_channels with out_channels by lia.
    change (add (Some ?s) (Some ?s')) with (broadcast s s').
    now rewrite broadcast_refl.
Qed.

(** X10.  A block needs 16 channels in the middle: with fewer the
    hidden layer of its gate has [mid_channels // 16 = 0] channels, the
    constructor still builds the block, and the forward pass is
    rejected (by the first convolution of the gate), whatever the
    input. *)
Theorem OSBlock_needs_16_channels (training : bool)
    (in_channels out_channels : Z) (IN : bool) (bottleneck_reduction : Z)
    (n : N) (blk : OSBlock.t) (n' : N) (b h w : Z) :
  OSBlock.init in_channels out_channels IN bottleneck_reduction n = Ok (blk, n') ->
  0 < in_channels -> 0 < bottleneck_reduction ->
  1 <= out_channels / bottleneck_reduction < 16 ->
  1 <= b -> 1 <= h -> 1 <= w -> (training = true -> 1 < b * h * w) ->
  OSBlock.mid_channels blk = out_channels / bottleneck_reduction
  /\ OSBlock.forward (torch := Shape) training blk (Some [b; in_channels; h; w])
     = (None, None).
Proof.
  intros H Hin Hbr Hmid Hb Hh Hw Hbn. split.
  { destruct (OSBlock_init_total in_channels out_channels IN
                bottleneck_reduction n ltac:(lia)) as (blk' & n'' & E' & Hm).
    rewrite H in E'. now injection E' as <- <-. }
  assert (Hg : OSBlock.gated_sum (torch := Shape) training blk
                 (Some [b; in_channels; h; w]) = None).
  { unfold OSBlock.gated_sum, OSBlock.fusion.
    rewrite (OSBlock_branches_shape training _ _ _ _ _ _ _ b h w H)
      by (assumption || lia).
    apply OSBlock_init_parts in H. cbv zeta in H.
    destruct H as (_ & _ & _ & _ & _ & _ & (? & ? & Hgate) & _).
    now rewrite !(ChannelGate_narrow training _ _ _ _ b h w Hgate) by lia. }
  rewrite OSBlock_forward_eq. unfold OSBlock.residual_sum. rewrite Hg.
  rewrite Conv1x1Linear_None.
  change (add (Torch := Shape) None ?t) with (@None (list Z)).
  now destruct (OSBlock.IN blk).
Qed.

Lemma OSBlock_needs_16_channels_witness :
  exists blk n',
    OSBlock.init 64 32 false 4 0%N = Ok (blk, n')
    /\ OSBlock.mid_channels blk = 8
    /\ OSBlock.forward (torch := Shape) false blk (Some [2; 64; 8; 4])
       = (None, None).
Proof.
  eexists _, _. split; [reflexivity|].
  refine (OSBlock_needs_16_channels false 64 32 false 4 0%N _ _ 2 8 4
            _ _ _ _ _ _ _ _);
    first [reflexivity | lia | discriminate
          | (vm_compute; split; [discriminate | reflexivity])].
Defined.

(** A block with an instance normalization rejects maps of one
    position: its first output is no tensor. *)
Lemma OSBlock_IN_rejects_1x1 in_channels out_channels bottleneck_reduction
    n blk n' b :
  OSBlock.init in_channels out_channels true bottleneck_reduction n
  = Ok (blk, n') ->
  0 < bottleneck_reduction -> 16 <= out_channels / bottleneck_reduction ->
  OSBlock.forward (torch := Shape) false blk (Some [b; in_channels; 1; 1])
  = (None, Some [b; out_channels / bottleneck_reduction; 1; 1]).
Proof.
  intros H Hbr Hmid.
  destruct (OSBlock_sums_shape false _ _ _ _ _ _ _ b 1 1 H Hbr Hmid
              ltac:(lia) ltac:(lia) ltac:(discriminate)) as [Hg Hr].
  apply OSBlock_init_parts in H. cbv zeta in H.
  destruct H as (_ & _ & _ & _ & _ & _ & _ & _ & _ & m & Hm & Hfeat).
  rewrite OSBlock_forward_eq, Hm, Hg, Hr. f_equal.
  cbn [instance_norm2d relu Shape]. unfold shape_instance_norm.
  rewrite decide_False; [reflexivity|]. intros [_ Hne]. now apply Hne.
Qed.

(** The feature maps up to the last stage: the maps that enter
    [conv4_0], and the two side maps that are ready by then. *)
Lemma OSNet_featuremaps_stage4 (sd : bool) {B L : Type} num_classes
    (blocks : list B) (layers : list L) channels feature_dim loss IN n net n'
    b h w :
  OSNet.init num_classes blocks layers channels feature_dim loss IN n
  = Ok (net, n') ->
  channels !! 0%nat = Some 64 -> channels !! 3%nat = Some 512 ->
  (sd = true -> 1 <= b) -> 13 <= h -> 13 <= w ->
  OSNet.featuremaps (torch := Shape) sd net (Some [b; 3; h; w])
  = (let '(x, _) :=
       OSBlock.forward (torch := Shape) sd (OSNet.conv4_0 net)
         (Some [b; 384; after_pool (after_pool (after_stem h));
                after_pool (after_pool (after_stem w))]) in
     let '(x, c1) := OSBlock.forward (torch := Shape) sd (OSNet.conv4_1 net) x in
     (Conv1x1.forward (torch := Shape) sd (OSNet.conv5 net) x,
      Some [b; 64; after_stem h; after_stem w],
      Some [b; 96; after_pool (after_stem h); after_pool (after_stem w)],
      Conv1x1.forward (torch := Shape) sd (OSNet.conv_c net) c1))
  /\ exists n1 n2, OSBlock.init 384 512 IN 4 n1 = Ok (OSNet.conv4_0 net, n2).
Proof.
  intros H H0 H3 Hb Hh Hw. unfold OSNet.init in H.
  apply bind_inv in H as (? & ? & _ & H).
  apply bind_inv in H as (? & ? & _ & H).
  apply bind_inv in H as (c0 & ? & Hc0 & H).
  apply py_index_inv in Hc0 as (? & Hc0 & [= <- <-]).
  rewrite H0 in Hc0. injection Hc0 as <-.
  apply bind_inv in H as (conv1 & ? & Hconv1 & H).
  apply bind_inv in H as (conv2_0 & ? & Hconv2_0 & H).
  apply bind_inv in H as (conv2_1 & ? & Hconv2_1 & H).
  apply bind_inv in H as (conv2_2 & ? & Hconv2_2 & H).
  apply bind_inv in H as (conv3_0 & ? & Hconv3_0 & H).
  apply bind_inv in H as (conv3_1 & ? & Hconv3_1 & H).
  apply bind_inv in H as (conv3_2 & ? & Hconv3_2 & H).
  apply bind_inv in H as (conv4_0 & ? & Hconv4_0 & H).
  apply bind_inv in H as (conv4_1 & ? & Hconv4_1 & H).
  apply bind_inv in H as (conv_a & ? & Hconv_a & H).
  apply bind_inv in H as (conv_b & ? & Hconv_b & H).
  repeat (apply bind_inv in H as (? & ? & _ & H)).
  apply ret_inv in H. injection H as -> ->.
  pose proof (after_stem_bounds h Hh) as Hh2.
  pose proof (after_stem_bounds w Hw) as Hw2.
  pose proof (after_pool_bounds (after_stem h) 2 ltac:(lia) ltac:(lia)) as Hh3.
  pose proof (after_pool_bounds (after_stem w) 2 ltac:(lia) ltac:(lia)) as Hw3.
  set (h2 := after_stem h) in *. set (w2 := after_stem w) in *.
  set (h3 := after_pool h2) in *. set (w3 := after_pool w2) in *.
  assert (Hs2 : 1 < h2 * w2) by nia.
  assert (Hs3 : 1 < h3 * w3) by nia.
  assert (Hb2 : sd = true -> 1 < b * h2 * w2)
    by (intros Ht; specialize (Hb Ht); nia).
  assert (Hb3 : sd = true -> 1 < b * h3 * w3)
    by (intros Ht; specialize (Hb Ht); nia).
  split; [|cbn [OSNet.conv4_0]; eauto].
  unfold OSNet.featuremaps.
  cbn [OSNet.conv1 OSNet.maxpool OSNet.conv2_0 OSNet.conv2_1 OSNet.conv2_2
       OSNet.conv2_3 OSNet.conv3_0 OSNet.conv3_1 OSNet.conv3_2 OSNet.conv3_3
       OSNet.conv4_0 OSNet.conv4_1 OSNet.conv_a OSNet.conv_b OSNet.conv_c
       OSNet.conv5].
  rewrite (ConvLayer_7x7_shape sd _ _ _ _ _ _ b h w Hconv1) by shape_side.
  rewrite max_pool_3x3_shape by (Z.div_mod_to_equations; lia).
  fold (after_stem h). fold (after_stem w). fold h2. fold w2.
  rewrite (OSBlock_shape sd _ _ _ _ _ _ _ b h2 w2 Hconv2_0) by shape_side.
  rewrite (OSBlock_shape sd _ _ _ _ _ _ _ b h2 w2 Hconv2_1) by shape_side.
  rewrite (Conv1x1_shape sd _ _ _ _ _ b h2 w2 Hconv2_2) by shape_side.
  rewrite avg_pool_2x2_shape by lia.
  fold (after_pool h2). fold (after_pool w2). fold h3. fold w3.
  rewrite (OSBlock_shape sd _ _ _ _ _ _ _ b h3 w3 Hconv3_0) by shape_side.
  rewrite (OSBlock_shape sd _ _ _ _ _ _ _ b h3 w3 Hconv3_1) by shape_side.
  rewrite (Conv1x1_shape sd _ _ _ _ _ b h3 w3 Hconv3_2) by shape_side.
  rewrite avg_pool_2x2_shape by lia.
  change (256 / 4) with 64. change (384 / 4) with 96.
  rewrite (Conv1x1_shape sd _ _ _ _ _ b h2 w2 Hconv_a) by shape_side.
  rewrite (Conv1x1_shape sd _ _ _ _ _ b h3 w3 Hconv_b) by shape_side.
  fold (after_pool h3). fold (after_pool w3).
  destruct (OSBlock.forward (torch := Shape) sd conv4_0 _) as [y4 y4'].
  destruct (OSBlock.forward (torch := Shape) sd conv4_1 y4) as [y5 y5'].
  reflexivity.
Qed.

Lemma shape_cat1_None (xs : list (option (list Z))) :
  shape_cat1 (None :: xs) = None.
Proof. unfold shape_cat1. now destruct xs. Qed.

(** X11.  The network of [pfh_osnet(IN=True)] cannot process images of
    13 to 28 pixels in both dimensions: the maps of its last stage have
    one position, which the instance normalization of [conv4_0]
    rejects, and no descriptor comes out, although the same images
    pass a network built without instance normalization. *)
Theorem pfh_osnet_IN_rejects_small_images (num_classes : Z) (loss : string)
    (n : N) (net : OSNet.t) (n' : N) (b h w : Z) :
  pfh_osnet num_classes loss true n = Ok (net, n') ->
  1 <= num_classes -> 1 <= b -> 13 <= h <= 28 -> 13 <= w <= 28 ->
  fst (fst (fst (OSNet.featuremaps (torch := Shape) false net
                   (Some [b; 3; h; w])))) = None
  /\ OSNet.forward (torch := Shape) false (OSNet.eval net)
       (Some [b; 3; h; w]) false
     = Ok (Descriptor None).
Proof.
  intros E _ Hb Hh Hw. unfold pfh_osnet in E.
  destruct (OSNet_featuremaps_stage4 false _ _ _ _ _ _ _ _ _ _ b h w E
              eq_refl eq_refl ltac:(discriminate) ltac:(lia) ltac:(lia))
    as (Hf & n1 & n2 & H40).
  rewrite (last_map_one h Hh), (last_map_one w Hw) in Hf.
  rewrite (OSBlock_IN_rejects_1x1 _ _ _ _ _ _ b H40) in Hf
    by (lia || (vm_compute; discriminate)).
  rewrite OSBlock_None, !Conv1x1_None in Hf.
  split; [now rewrite Hf|].
  rewrite OSNet_forward_eval by reflexivity.
  unfold OSNet.eval, OSNet.batch_normalized.
  rewrite (proj1 (OSNet_pooled_train _ _ _ _)).
  unfold OSNet.pooled. rewrite Hf.
  cbn [adaptive_avg_pool2d view_rows batch_norm1d normalize cat Shape].
  change (shape_view_rows (shape_adaptive _ None)) with (@None (list Z)).
  change (shape_batch_norm false 2 _ None) with (@None (list Z)).
  rewrite decide_True by reflexivity. now rewrite shape_cat1_None.
Qed.

Lemma pfh_osnet_IN_rejects_small_images_witness :
  exists net n',
    pfh_osnet 751 "triplet" true 0%N = Ok (net, n')
    /\ OSNet.forward (torch := Shape) false (OSNet.eval net)
         (Some [2; 3; 28; 28]) false
       = Ok (Descriptor None).
Proof.
  destruct (pfh_osnet_total 751 "triplet" true 0%N) as (net & n' & E).
  exists net, n'. split; [exact E|].
  exact (proj2 (pfh_osnet_IN_rejects_small_images 751 "triplet" 0%N net n'
                  2 28 28 E ltac:(lia) ltac:(lia) ltac:(lia) ltac:(lia))).
Defined.

(** X12.  An empty batch gives no descriptor: the pooled maps cannot
    be flattened ([v.view(v.size(0), -1)] cannot infer the second size
    of a tensor without elements), in evaluation mode as in training
    mode the four pooled vectors are rejected. *)
Theorem pfh_osnet_rejects_an_empty_batch (num_classes : Z) (loss : string)
    (IN : bool) (n : N) (net : OSNet.t) (n' : N) (h w : Z) :
  pfh_osnet num_classes loss IN n = Ok (net, n') ->
  1 <= num_classes -> 13 <= h -> 13 <= w ->
  (IN = true -> 29 <= h \/ 29 <= w) ->
  OSNet.pooled (torch := Shape) false net (Some [0; 3; h; w])
  = (None, None, None, None)
  /\ OSNet.forward (torch := Shape) false (OSNet.eval net)
       (Some [0; 3; h; w]) false
     = Ok (Descriptor None).
Proof.
  intros E _ Hh Hw Hinorm. unfold pfh_osnet in E.
  assert (Hp : OSNet.pooled (torch := Shape) false net (Some [0; 3; h; w])
               = (None, None, None, None)).
  { unfold OSNet.pooled.
    rewrite (OSNet_featuremaps_shape false _ _ _ _ _ _ _ _ _ _ 0 h w E
               eq_refl eq_refl ltac:(discriminate) Hh Hw);
      [|intros Hi; apply last_maps_large; auto|discriminate].
    destruct (OSNet_init_heads _ _ _ _ _ _ _ _ _ _ E) as (_ & _ & -> & _).
    cbn [adaptive_avg_pool2d view_rows Shape]. unfold shape_adaptive.
    cbn [AdaptiveAvgPool2d.output_size]. unfold shape_view_rows.
    rewrite !decide_False; [reflexivity|..];
      intros Hall; apply Forall_cons in Hall as [Hlt _]; lia. }
  split; [exact Hp|].
  rewrite OSNet_forward_eval by reflexivity.
  unfold OSNet.eval, OSNet.batch_normalized.
  rewrite (proj1 (OSNet_pooled_train _ _ _ _)), Hp.
  cbn [batch_norm1d normalize cat Shape].
  change (shape_batch_norm false 2 _ None) with (@None (list Z)).
  rewrite decide_True by reflexivity. now rewrite shape_cat1_None.
Qed.

Lemma pfh_osnet_rejects_an_empty_batch_witness :
  exists net n',
    pfh_osnet 751 "triplet" false 0%N = Ok (net, n')
    /\ OSNet.forward (torch := Shape) false (OSNet.eval net)
         (Some [0; 3; 256; 128]) false
       = Ok (Descriptor None).
Proof.
  destruct (pfh_osnet_total 751 "triplet" false 0%N) as (net & n' & E).
  exists net, n'. split; [exact E|].
  exact (proj2 (pfh_osnet_rejects_an_empty_batch 751 "triplet" false 0%N
                  net n' 256 128 E ltac:(lia) ltac:(lia) ltac:(lia)
                  ltac:(discriminate))).
Defined.

(** ** Loading pretrained weights *)

Section Loading.
Context {V : Type} (size : V -> list Z).
Import Pretrained.

Lemma get_set (d : list (string * V)) (k : string) (v : V) (k' : string) :
  get (set d k v) k' = if String.eqb k k' then Some v else get d k'.
Proof.
  induction d as [|[k0 v0] d IH]; cbn.
  - now destruct (String.eqb_spec k k').
  - destruct (String.eqb_spec k0 k) as [->|Hne]; cbn.
    + now destruct (String.eqb_spec k k').
    + destruct (String.eqb_spec k0 k') as [->|Hne'].
      * destruct (String.eqb_spec k k'); congruence.
      * exact IH.
Qed.

Lemma get_None (d : list (string * V)) (k : string) :
  get d k = None <-> k ∉ map fst d.
Proof.
  induction d as [|[k0 v0] d IH]; cbn.
  - split; [intros _; apply not_elem_of_nil|reflexivity].
  - rewrite not_elem_of_cons.
    destruct (String.eqb_spec k0 k) as [->|Hne].
    + split; [discriminate|intros [[] _]; reflexivity].
    + rewrite IH. split; [intros ?; split; congruence|intros [_ ?]; assumption].
Qed.

(* assigning to a key that is there keeps the keys, and the sizes if
   the new value has the size of the old one *)
Lemma set_present (d : list (string * V)) (k : string) (v v0 : V) :
  get d k = Some v0 ->
  map fst (set d k v) = map fst d
  /\ (size v0 = size v ->
      map (fun kv => size (snd kv)) (set d k v)
      = map (fun kv => size (snd kv)) d).
Proof.
  induction d as [|[k1 v1] d IH]; cbn; [discriminate|].
  destruct (String.eqb_spec k1 k) as [->|Hne]; cbn.
  - intros [= ->]. split; [reflexivity|]. now intros <-.
  - intros Hget. destruct (IH Hget) as [-> Hs]. split; [reflexivity|].
    intros Hv. now rewrite (Hs Hv).
Qed.

Lemma set_absent (d : list (string * V)) (k : string) (v : V) :
  get d k = None -> set d k v = d ++ [(k, v)].
Proof.
  induction d as [|[k1 v1] d IH]; cbn; [reflexivity|].
  destruct (String.eqb_spec k1 k) as [->|Hne]; [discriminate|].
  intros Hget. now rewrite (IH Hget).
Qed.

Lemma set_keys_NoDup (d : list (string * V)) (k : string) (v : V) :
  NoDup (map fst d) -> NoDup (map fst (set d k v)).
Proof.
  intros Hd. destruct (get d k) as [v0|] eqn:Hget.
  - now rewrite (proj1 (set_present d k v v0 Hget)).
  - rewrite (set_absent d k v Hget), map_app. cbn.
    apply NoDup_app. split; [exact Hd|]. split.
    + intros x Hx Hk. apply list_elem_of_singleton in Hk as ->.
      now apply get_None in Hget.
    + apply NoDup_singleton.
Qed.

Lemma update_snoc (d other : list (string * V)) (k : string) (v : V) :
  update d (other ++ [(k, v)]) = set (update d other) k v.
Proof. unfold update. now rewrite fold_left_app. Qed.

Lemma load_snoc (state_dict model_dict : list (string * V)) (kv : string * V) :
  load size (state_dict ++ [kv]) model_dict
  = step size model_dict (load size state_dict model_dict) kv.
Proof. unfold load. now rewrite fold_left_app. Qed.

(* what the loop has collected fits the model *)
Lemma load_fits (state_dict model_dict : list (string * V)) :
  Forall (fun kv => fits size model_dict (fst kv) (snd kv) = true)
    (new_state_dict (load size state_dict model_dict))
  /\ NoDup (map fst (new_state_dict (load size state_dict model_dict))).
Proof.
  induction state_dict as [|[k v] sd IH] using rev_ind.
  - split; [constructor|apply NoDup_nil_2].
  - rewrite load_snoc. destruct IH as [IH1 IH2].
    set (acc := load size sd model_dict) in *.
    unfold step. destruct (fits size model_dict (rename_key k) v) eqn:Hfit;
      cbn [new_state_dict]; [|now split].
    split; [|now apply set_keys_NoDup].
    clear IH2. induction (new_state_dict acc) as [|[k1 v1] d IHd]; cbn.
    + constructor; [exact Hfit|constructor].
    + apply Forall_cons in IH1 as [H1 Hd].
      destruct (String.eqb_spec k1 (rename_key k)) as [->|Hne].
      * constructor; [exact Hfit|exact Hd].
      * constructor; [exact H1|exact (IHd Hd)].
Qed.

Lemma update_fits (model_dict other : list (string * V)) :
  Forall (fun kv => fits size model_dict (fst kv) (snd kv) = true) other ->
  map fst (update model_dict other) = map fst model_dict
  /\ map (fun kv => size (snd kv)) (update model_dict other)
     = map (fun kv => size (snd kv)) model_dict
  /\ forall k v, fits size (update model_dict other) k v
                 = fits size model_dict k v.
Proof.
  induction other as [|[k v] other IH] using rev_ind; [now intros _|].
  intros Hall. apply Forall_app in Hall as [Hall Hkv].
  rewrite Forall_singleton in Hkv. cbn [fst snd] in Hkv.
  destruct (IH Hall) as (IHk & IHs & IHf). rewrite update_snoc.
  rewrite <- IHf in Hkv. unfold fits in Hkv.
  destruct (get (update model_dict other) k) as [v0|] eqn:Hget;
    [|discriminate].
  apply bool_decide_eq_true in Hkv.
  destruct (set_present (update model_dict other) k v v0 Hget) as [Hk Hs].
  split; [now rewrite Hk|]. split; [now rewrite (Hs Hkv)|].
  intros k' v'. rewrite <- IHf. unfold fits. rewrite get_set.
  destruct (String.eqb_spec k k') as [<-|Hne]; [|reflexivity].
  rewrite Hget. now rewrite Hkv.
Qed.

Lemma get_update (d other : list (string * V)) (k : string) :
  NoDup (map fst other) ->
  get (update d other) k
  = match get other k with Some v => Some v | None => get d k end.
Proof.
  revert d. induction other as [|[k1 v1] other IH]; intros d Hnd;
    [reflexivity|].
  cbn in Hnd. apply NoDup_cons in Hnd as [Hk1 Hnd].
  change (update d ((k1, v1) :: other)) with (update (set d k1 v1) other).
  rewrite (IH _ Hnd), get_set. cbn.
  destruct (String.eqb_spec k1 k) as [<-|Hne]; [|reflexivity].
  now rewrite (proj2 (get_None other k1) Hk1).
Qed.

(* the three variables of the loop, in closed form *)
Lemma load_layers (state_dict model_dict : list (string * V)) :
  let fit (kv : string * V) :=
    fits size model_dict (rename_key (fst kv)) (snd kv) in
  matched_layers (load size state_dict model_dict)
  = map (fun kv => rename_key (fst kv)) (filter (fun kv => fit kv = true) state_dict)
  /\ discarded_layers (load size state_dict model_dict)
     = map (fun kv => rename_key (fst kv))
         (filter (fun kv => fit kv <> true) state_dict)
  /\ forall k,
       get (new_state_dict (load size state_dict model_dict)) k
       = option_map snd
           (last (filter (fun kv => fit kv = true /\ rename_key (fst kv) = k)
                    state_dict)).
Proof.
  intros fit. induction state_dict as [|[k v] sd IH] using rev_ind.
  - now repeat split.
  - destruct IH as (IHm & IHd & IHn). rewrite load_snoc.
    set (acc := load size sd model_dict) in *. unfold step.
    change (fits size model_dict (rename_key k) v) with (fit (k, v)).
    assert (Hf : forall (P : string * V -> Prop) (HP : forall x, Decision (P x)),
               filter P (sd ++ [(k, v)])
               = filter P sd ++ (if decide (P (k, v)) then [(k, v)] else [])).
    { intros P HP. now rewrite filter_app, filter_cons, filter_nil. }
    rewrite !Hf. cbv beta.
    destruct (fit (k, v)) eqn:Hfit;
      cbn [matched_layers discarded_layers new_state_dict].
    + rewrite decide_True by reflexivity.
      rewrite decide_False by (intros H; now apply H).
      rewrite map_app, app_nil_r, IHm, IHd.
      split; [reflexivity|]. split; [reflexivity|].
      intros k'. rewrite Hf, get_set. cbv beta. cbn [fst snd]. rewrite Hfit.
      destruct (String.eqb_spec (rename_key k) k') as [<-|Hne].
      * rewrite decide_True by (split; reflexivity).
        now rewrite last_snoc.
      * rewrite decide_False by (intros [_ ?]; contradiction).
        rewrite app_nil_r. apply IHn.
    + rewrite decide_False by discriminate.
      rewrite decide_True by discriminate.
      rewrite app_nil_r, map_app, IHm, IHd.
      split; [reflexivity|]. split; [reflexivity|].
      intros k'. rewrite Hf. cbv beta. rewrite Hfit.
      rewrite decide_False by (intros [? _]; discriminate).
      rewrite app_nil_r. apply IHn.
Qed.

Lemma get_elem_of (d : list (string * V)) (k : string) (v : V) :
  NoDup (map fst d) -> (k, v) ∈ d -> get d k = Some v.
Proof.
  induction d as [|[k1 v1] d IH]; cbn; intros Hnd Hin.
  - now apply elem_of_nil in Hin.
  - apply NoDup_cons in Hnd as [Hk1 Hnd].
    apply elem_of_cons in Hin as [[= <- <-]|Hin].
    + now rewrite String.eqb_refl.
    + destruct (String.eqb_spec k1 k) as [->|Hne]; [|now apply IH].
      exfalso. apply Hk1. apply list_elem_of_fmap. now exists (k, v).
Qed.

Lemma dict_ext (d1 d2 : list (string * V)) :
  map fst d1 = map fst d2 -> NoDup (map fst d1) ->
  (forall k, get d1 k = get d2 k) -> d1 = d2.
Proof.
  revert d2. induction d1 as [|[k1 v1] d1 IH]; intros [|[k2 v2] d2];
    cbn; try discriminate; [reflexivity|].
  intros [= <- Hk] Hnd Hget. apply NoDup_cons in Hnd as [Hk1 Hnd].
  pose proof (Hget k1) as H1. rewrite String.eqb_refl in H1.
  injection H1 as <-. f_equal. apply IH; [exact Hk|exact Hnd|].
  intros k. specialize (Hget k).
  destruct (String.eqb_spec k1 k) as [Heq|Hne]; [|exact Hget].
  rewrite <- Heq. rewrite (proj2 (get_None d1 k1) Hk1). symmetry.
  apply get_None. now rewrite <- Hk.
Qed.
End Loading.

Lemma filter_all {A : Type} (P : A -> Prop) (HP : forall x, Decision (P x))
    (l : list A) :
  (forall x, x ∈ l -> P x) -> filter P l = l.
Proof.
  induction l as [|x l IH]; intros Hall; [reflexivity|].
  rewrite filter_cons_True by (apply Hall; left).
  rewrite IH; [reflexivity|]. intros y Hy. apply Hall. now right.
Qed.

Lemma filter_none {A : Type} (P : A -> Prop) (HP : forall x, Decision (P x))
    (l : list A) :
  (forall x, x ∈ l -> ~ P x) -> filter P l = [].
Proof.
  induction l as [|x l IH]; intros Hall; [reflexivity|].
  rewrite filter_cons_False by (apply Hall; left).
  apply IH. intros y Hy. apply Hall. now right.
Qed.

(** X13.  The state that [init_pretrained_weights] hands to
    [load_state_dict] has the names of the model's own state, in their
    order, and under each name a tensor of the size the model has
    there, whatever the checkpoint holds: only values change. *)
Theorem pretrained_weights_keep_names_and_sizes {V : Type}
    (size : V -> list Z) (cached_file : string)
    (state_dict model_dict : list (string * V)) :
  let loaded :=
    fst (Pretrained.init_pretrained_weights size cached_file state_dict
           model_dict) in
  map fst loaded = map fst model_dict
  /\ map (fun kv => size (snd kv)) loaded
     = map (fun kv => size (snd kv)) model_dict.
Proof.
  intros loaded. subst loaded. cbn [Pretrained.init_pretrained_weights fst].
  destruct (update_fits size model_dict _
              (proj1 (load_fits size state_dict model_dict)))
    as (Hk & Hs & _).
  split; [exact Hk|exact Hs].
Qed.

(** X14.  The value that a name of the model has after loading: the
    tensor of the last entry of the checkpoint whose renamed key is that
    name and whose size fits; the value it had when no entry does.
    Layers that do not match in name or size are kept as they are (the
    docstring), and of two entries that come to bear the same name the
    later one wins. *)
Theorem pretrained_weights_values {V : Type}
    (size : V -> list Z) (cached_file : string)
    (state_dict model_dict : list (string * V)) (k : string) :
  let fit (kv : string * V) :=
    Pretrained.fits size model_dict (rename_key (fst kv)) (snd kv) in
  Pretrained.get
    (fst (Pretrained.init_pretrained_weights size cached_file state_dict
            model_dict)) k
  = match last (filter (fun kv => fit kv = true /\ rename_key (fst kv) = k)
                  state_dict) with
    | Some (_, v) => Some v
    | None => Pretrained.get model_dict k
    end.
Proof.
  intros fit. cbn [Pretrained.init_pretrained_weights fst].
  rewrite get_update by apply (load_fits size).
  destruct (load_layers size state_dict model_dict) as (_ & _ & ->).
  fold fit. now destruct (last _) as [[k' v']|].
Qed.

(** X15.  What is reported.  Every entry of the checkpoint is listed
    once, under its renamed key and in the order of the checkpoint:
    among the matched layers if the model has a tensor of that name and
    size, among the discarded ones otherwise.  A warning is issued when
    no entry matches; otherwise the success line is printed, followed by
    the discarded layers when there are any. *)
Theorem pretrained_weights_report {V : Type}
    (size : V -> list Z) (cached_file : string)
    (state_dict model_dict : list (string * V)) :
  let fit (kv : string * V) :=
    Pretrained.fits size model_dict (rename_key (fst kv)) (snd kv) in
  let renamed := map (fun kv : string * V => rename_key (fst kv)) in
  let acc := Pretrained.load size state_dict model_dict in
  Pretrained.matched_layers acc
  = renamed (filter (fun kv => fit kv = true) state_dict)
  /\ Pretrained.discarded_layers acc
     = renamed (filter (fun kv => fit kv <> true) state_dict)
  /\ Pretrained.matched_layers acc ++ Pretrained.discarded_layers acc
     ≡ₚ renamed state_dict
  /\ snd (Pretrained.init_pretrained_weights size cached_file state_dict
            model_dict)
     = match Pretrained.matched_layers acc, Pretrained.discarded_layers acc with
       | [], _ => [Warn_cannot_be_loaded cached_file]
       | _ :: _, [] => [Print_successfully_loaded cached_file]
       | _ :: _, discarded =>
           [Print_successfully_loaded cached_file; Print_discarded discarded]
       end.
Proof.
  intros fit renamed acc.
  destruct (load_layers size state_dict model_dict) as (Hm & Hd & _).
  fold fit acc in Hm, Hd. fold renamed in Hm, Hd.
  split; [exact Hm|]. split; [exact Hd|]. split.
  - rewrite Hm, Hd. unfold renamed. rewrite <- map_app.
    apply Permutation_map.
    apply (filter_app_complement (fun kv => fit kv = true)).
  - cbn [Pretrained.init_pretrained_weights snd]. fold acc.
    destruct (Pretrained.matched_layers acc); [reflexivity|].
    now destruct (Pretrained.discarded_layers acc).
Qed.

(** X16.  Loading the model's own state changes nothing: when the
    checkpoint is the state of the model, with names that the renaming
    leaves alone, every layer is matched, none is discarded, and the
    state that is loaded is the state the model had. *)
Theorem pretrained_weights_of_the_model_itself {V : Type}
    (size : V -> list Z) (cached_file : string)
    (model_dict : list (string * V)) :
  NoDup (map fst model_dict) ->
  Forall (fun kv => rename_key (fst kv) = fst kv) model_dict ->
  fst (Pretrained.init_pretrained_weights size cached_file model_dict
         model_dict) = model_dict
  /\ Pretrained.matched_layers (Pretrained.load size model_dict model_dict)
     = map fst model_dict
  /\ Pretrained.discarded_layers (Pretrained.load size model_dict model_dict)
     = [].
Proof.
  intros Hnd Hfix.
  assert (Hfit : forall kv, kv ∈ model_dict ->
            Pretrained.fits size model_dict (rename_key (fst kv)) (snd kv)
            = true).
  { intros [k v] Hin. rewrite Forall_forall in Hfix.
    rewrite (Hfix _ Hin). cbn [fst snd]. unfold Pretrained.fits.
    rewrite (get_elem_of _ _ _ Hnd Hin). now apply bool_decide_eq_true. }
  destruct (load_layers size model_dict model_dict) as (Hm & Hd & Hn).
  destruct (update_fits size model_dict _
              (proj1 (load_fits size model_dict model_dict)))
    as (Hkeys & _ & _).
  split; [|split].
  - cbn [Pretrained.init_pretrained_weights fst].
    apply dict_ext; [exact Hkeys|now rewrite Hkeys|].
    intros k. rewrite get_update by apply (load_fits size). rewrite Hn.
    destruct (last _) as [[k' v']|] eqn:Hlast; [|reflexivity].
    apply last_Some_elem_of, list_elem_of_filter in Hlast as [[_ Hk] Hin].
    rewrite Forall_forall in Hfix. rewrite (Hfix _ Hin) in Hk.
    cbn in Hk. subst k'. symmetry. now apply get_elem_of.
  - rewrite Hm, (filter_all _ _ _ Hfit).
    apply map_ext_in. intros kv Hin. rewrite Forall_forall in Hfix.
    apply Hfix. now apply list_elem_of_In.
  - rewrite Hd. rewrite filter_none; [reflexivity|].
    intros kv Hin Hne. now apply Hne, Hfit.
Qed.

Lemma pretrained_weights_of_the_model_itself_witness :
  let model_dict :=
    [("conv1.conv.weight", [64; 3; 7; 7]); ("conv1.bn.weight", [64]);
     ("conv2_0.conv1.conv.weight", [64; 64; 1; 1]);
     ("classifier.weight", [751; 512])] in
  fst (Pretrained.init_pretrained_weights (fun v : list Z => v)
         "osnet_x1_0_imagenet.pth" model_dict model_dict) = model_dict
  /\ Pretrained.matched_layers
       (Pretrained.load (fun v : list Z => v) model_dict model_dict)
     = map fst model_dict
  /\ Pretrained.discarded_layers
       (Pretrained.load (fun v : list Z => v) model_dict model_dict)
     = [].
Proof.
  intros model_dict.
  apply (pretrained_weights_of_the_model_itself (fun v : list Z => v)).
  - apply (bool_decide_unpack _). vm_compute. exact I.
  - repeat constructor.
Defined.

(** X17.  The renaming of the keys of a checkpoint.  The names of the
    blocks of the original OSNet are rewritten to the names of this
    network ([conv2.0] to [conv2_0], ..., [conv2.2.0] to [conv2_2], ...),
    with or without a leading [module.]; [replace] rewrites every
    occurrence in the key, not only the prefix that was tested.  The
    names of this network's own layers are left alone.  One leading
    [module.] is removed, not two. *)
Theorem rename_key_cases :
  Forall (fun '(old, new) =>
            forall rest : string,
              rename_key (old +:+ rest) = new +:+ py_replace old new rest
              /\ rename_key ("module." +:+ old +:+ rest)
                 = new +:+ py_replace old new rest)
    [("conv2.0", "conv2_0"); ("conv2.1", "conv2_1"); ("conv2.2.0", "conv2_2");
     ("conv3.0", "conv3_0"); ("conv3.1", "conv3_1"); ("conv3.2.0", "conv3_2");
     ("conv4.0", "conv4_0"); ("conv4.1", "conv4_1")]
  /\ Forall (fun name =>
               forall rest : string,
                 rename_key (name +:+ "." +:+ rest) = name +:+ "." +:+ rest)
       Model.named_children
  /\ rename_key "conv2.0.conv2.0.weight" = "conv2_0.conv2_0.weight"
  /\ rename_key "module.module.conv1.conv.weight" = "module.conv1.conv.weight"
  /\ rename_key "conv5.conv.weight" = "conv5.conv.weight"
  /\ rename_key "classifier.weight" = "classifier.weight".
Proof.
  split; [|split].
  - repeat (apply List.Forall_cons;
              [intros rest; split; destruct rest; reflexivity|]).
    apply List.Forall_nil.
  - unfold Model.named_children.
    repeat (apply List.Forall_cons; [intros rest; reflexivity|]).
    apply List.Forall_nil.
  - repeat split; reflexivity.
Qed.

Lemma iter_succ (k : nat) (n : N) : Nat.iter k N.succ n = (n + N.of_nat k)%N.
Proof. induction k as [|k IH]; simpl; [lia|]. rewrite IH. lia. Qed.

(** X18.  The outcomes of [OSNet.__init__].  It raises AssertionError
    unless [blocks] and [layers] have one length and [channels] one
    element more.  With fewer than four channels it then raises
    IndexError at [channels[3]].  Otherwise it returns a network in
    training mode with the given loss mode, after allocating 346
    parameter tensors (358 with [IN=True]: a weight and a bias for the
    instance normalization of each of the six blocks), whatever the
    other arguments are. *)
Theorem OSNet_init_outcomes {B L : Type} (num_classes : Z) (blocks : list B)
    (layers : list L) (channels : list Z) (feature_dim : Z) (loss : string)
    (IN : bool) (n : N) :
  let built :=
    OSNet.init num_classes blocks layers channels feature_dim loss IN n in
  (length blocks <> length layers \/ S (length blocks) <> length channels ->
   built = Raise AssertionError)
  /\ (length blocks = length layers ->
      S (length blocks) = length channels ->
      Forall (fun c => 0 < c) channels ->
      (length channels < 4)%nat ->
      built = Raise IndexError)
  /\ (length blocks = length layers ->
      S (length blocks) = length channels ->
      Forall (fun c => 0 < c) channels -> 0 < num_classes ->
      (4 <= length channels)%nat ->
      exists net,
        built = Ok (net, (n + (if IN then 358 else 346))%N)
        /\ OSNet.training net = true /\ OSNet.loss net = loss).
Proof.
  intros built. subst built. unfold OSNet.init. split; [|split].
  - intros Hlen.
    destruct (decide (length blocks = length layers)) as [Hl|Hl].
    + rewrite bool_decide_true by now rewrite Hl.
      rewrite bool_decide_false by lia. reflexivity.
    + rewrite bool_decide_false by lia. reflexivity.
  - intros Hl Hc _ Hshort.
    rewrite !bool_decide_true by lia. unfold py_index.
    destruct channels as [|c0 [|c1 [|c2 [|c3 rest]]]]; cbn in Hc, Hshort;
      try lia; cbn [lookup list_lookup];
      destruct IN; lazy -[N.succ]; reflexivity.
  - intros Hl Hc _ _ Hlong.
    rewrite !bool_decide_true by lia. unfold py_index.
    destruct channels as [|c0 [|c1 [|c2 [|c3 rest]]]]; cbn in Hlong;
      try lia. cbn [lookup list_lookup].
    destruct IN.
    + replace (n + 358)%N with (Nat.iter 358 N.succ n)
        by (rewrite iter_succ; reflexivity).
      eexists. split; [lazy -[N.succ]; reflexivity|]. split; reflexivity.
    + replace (n + 346)%N with (Nat.iter 346 N.succ n)
        by (rewrite iter_succ; reflexivity).
      eexists. split; [lazy -[N.succ]; reflexivity|]. split; reflexivity.
Qed.

Lemma OSNet_init_outcomes_witness :
  OSNet.init 751 [OSBlock_class; OSBlock_class] [2; 2; 2] [64; 256; 384; 512]
    512 "triplet" false 0%N
  = Raise AssertionError
  /\ OSNet.init 751 [OSBlock_class; OSBlock_class] [2; 2] [64; 256; 384]
       512 "triplet" false 0%N
     = Raise IndexError
  /\ exists net,
       pfh_osnet 751 "triplet" true 0%N = Ok (net, 358%N)
       /\ OSNet.training net = true /\ OSNet.loss net = "triplet".
Proof.
  split; [|split].
  - apply (proj1 (OSNet_init_outcomes 751 [OSBlock_class; OSBlock_class]
                    [2; 2; 2] [64; 256; 384; 512] 512 "triplet" false 0%N)).
    left. cbn. lia.
  - apply (proj1 (proj2 (OSNet_init_outcomes 751
                           [OSBlock_class; OSBlock_class] [2; 2]
                           [64; 256; 384] 512 "triplet" false 0%N)));
      [reflexivity|reflexivity|repeat constructor|cbn; lia].
  - apply (proj2 (proj2 (OSNet_init_outcomes 751
                           [OSBlock_class; OSBlock_class; OSBlock_class]
                           [2; 2; 2] [64; 256; 384; 512] 512 "triplet"
                           true 0%N)));
      [reflexivity|reflexivity|repeat constructor|lia|cbn; lia].
Defined.
